(** * MedTransNet: the training and evaluation loops of the medical HGT

    A shallow embedding of [src/medical_hgt/train.py] (the dual-task
    [train] and [evaluate] loops) and of [src/medical_hgt/training.py]
    (the result records, [evaluate_model]) together with the properties
    the specification states about them.

    Conventions of the embedding:
    - Python and torch floating point numbers are modelled by exact
      rationals ([Q]); integers by [Z] or [nat].
    - A torch tensor is a shape together with its row-major data.
    - Exceptions are values of [exn]; a computation that can raise
      returns a [result].
    - The collaborators that live outside the two source files (the graph
      model, the optimizer, the LLM, the random number generator, the
      metric functions, the helpers of [ml_utils]) are the fields of the
      class [Collaborators]; calls to them that the properties observe
      are recorded in the event trace of the [world]. *)

From Stdlib Require Import ZArith QArith Qround Lqa List String Permutation Lia.
From stdpp Require Import gmap strings list pretty.
Import ListNotations.

Local Open Scope nat_scope.

(** ** Exceptions and results *)

Inductive exn : Set :=
| IndexError
| KeyError
| RuntimeError
| ValueError
| ZeroDivisionError
| FrozenInstanceError.

Inductive result (A : Type) : Type :=
| Ok (a : A)
| Raise (e : exn).
Arguments Ok {A} a.
Arguments Raise {A} e.

Definition or_raise {A} (e : exn) (o : option A) : result A :=
  match o with
  | Some a => Ok a
  | None => Raise e
  end.

Definition rbind {A B} (r : result A) (k : A → result B) : result B :=
  match r with
  | Ok a => k a
  | Raise e => Raise e
  end.

(** ** Numbers *)

Module PyNum.

(** [x < y] on floats. *)
Definition Qltb (x y : Q) : bool := negb (Qle_bool y x).

(** [sum(l)]: starts from 0 and adds from the left. *)
Definition sum (l : list Q) : Q := fold_left Qplus l 0%Q.

(** [len(l)] as a number. *)
Definition len {A} (l : list A) : Q := inject_Z (Z.of_nat (length l)).

(** [max(a, b)] on numbers. *)
Definition max (a b : Q) : Q := if Qltb a b then b else a.

(** [a / b]: true division raises on a zero divisor. *)
Definition truediv (a b : Q) : result Q :=
  if Qeq_bool b 0 then Raise ZeroDivisionError else Ok (a / b)%Q.

(** [round(x)]: to the nearest integer, ties to the even one. *)
Definition round (x : Q) : Z :=
  let fl := Qfloor x in
  match (x - inject_Z fl ?= 1 # 2)%Q with
  | Lt => fl
  | Gt => (fl + 1)%Z
  | Eq => if Z.even fl then fl else (fl + 1)%Z
  end.

(** [round(x, ndigits)]. *)
Definition round_ndigits (x : Q) (ndigits : nat) : Q :=
  let scale := inject_Z (10 ^ Z.of_nat ndigits) in
  (inject_Z (round (x * scale)) / scale)%Q.

(** [np.mean(l)]: not a number ([None]) on the empty list. *)
Definition mean (l : list Q) : option Q :=
  match l with
  | [] => None
  | _ => Some (sum l / len l)%Q
  end.

End PyNum.

(** ** Tensors *)

Module Torch.

Record tensor : Type := Tensor { shape : list nat; data : list Q }.

(** [t.dim()] *)
Definition dim (t : tensor) : nat := length (shape t).

(** Number of entries of one row, for a tensor whose rows have shape
    [rest]. *)
Definition numel (rest : list nat) : nat := fold_right Nat.mul 1 rest.

(** [t.squeeze()]: drops every dimension of size one. *)
Definition squeeze (t : tensor) : tensor :=
  Tensor (List.filter (λ d, negb (d =? 1)) (shape t)) (data t).

(** [t.view(1)]: needs exactly one entry. *)
Definition view1 (t : tensor) : result tensor :=
  if length (data t) =? 1 then Ok (Tensor [1] (data t)) else Raise RuntimeError.

(** [t.size(0)]: a tensor without dimensions has no size 0. *)
Definition size0 (t : tensor) : result nat :=
  match shape t with
  | [] => Raise IndexError
  | d :: _ => Ok d
  end.

(** Row [i] of a tensor whose rows have [w] entries. *)
Definition row (w : nat) (d : list Q) (i : nat) : list Q :=
  take w (drop (i * w) d).

(** [t[idx]] for a one-dimensional integer index tensor [idx]: a tensor
    without dimensions cannot be indexed, and every index has to be
    within the first dimension. *)
Definition index (t : tensor) (idx : list nat) : result tensor :=
  match shape t with
  | [] => Raise IndexError
  | d :: rest =>
      if forallb (λ i, i <? d) idx
      then Ok (Tensor (length idx :: rest)
                      (flat_map (row (numel rest) (data t)) idx))
      else Raise IndexError
  end.

(** [torch.randperm(n)[:k]] given the permutation drawn. *)
Definition slice_to (k : nat) (perm : list nat) : list nat := take k perm.

(** [torch.cat(ts, dim=0)]: needs a non-empty list of tensors that have
    a first dimension and agree on the others. *)
Fixpoint cat_rows (rest : list nat) (ts : list tensor) : result (nat * list Q) :=
  match ts with
  | [] => Ok (0, [])
  | t :: ts' =>
      match shape t with
      | [] => Raise RuntimeError
      | d :: rest' =>
          if decide (rest' = rest)
          then rbind (cat_rows rest ts') (λ '(n, ds), Ok (d + n, data t ++ ds))
          else Raise RuntimeError
      end
  end.

Definition cat (ts : list tensor) : result tensor :=
  match ts with
  | [] => Raise RuntimeError
  | t :: _ =>
      match shape t with
      | [] => Raise RuntimeError
      | _ :: rest =>
          rbind (cat_rows rest ts) (λ '(n, ds), Ok (Tensor (n :: rest) ds))
      end
  end.

(** [np.concatenate([a, b])] *)
Definition concatenate (a b : tensor) : result tensor :=
  match cat [a; b] with
  | Ok t => Ok t
  | Raise _ => Raise ValueError
  end.

End Torch.
Import Torch.

(** ** Data model *)

(** An edge-label index has shape [[2, n]]: one column per scored edge. *)
Record EdgeLabelIndex : Type := {
  eli_src : list nat;
  eli_dst : list nat
}.

(** [edge_label_index.size(1)] *)
Definition size1 (e : EdgeLabelIndex) : nat := length (eli_src e).

(** A supervised edge set: [batch[src, rel, dst]]. *)
Record EdgeStore : Type := {
  edge_label_index : EdgeLabelIndex;
  edge_label : tensor
}.

(** A batch: the two supervised edge sets, the external identifiers of
    its question nodes, and the rest of the sampled graph, which only the
    collaborators read. *)
Record Batch : Type := {
  question_correct_answer : EdgeStore;
  question_wrong_answer : EdgeStore;
  question_node_uid : list nat;
  graph_sample : nat
}.

(** The precomputed LLM feedback of one question. *)
Record LLMFeedback : Type := {
  cop_confidence_without_context : Q;
  is_correct_without_context : Q
}.

(** A row of the question-answering dataset. *)
Record DatasetRow : Type := {
  question : string;
  opa : string;
  opb : string;
  opc : string;
  opd : string;
  cop : Z
}.

(** What [llm.get_confidence] returns. *)
Record LLMResponse : Type := {
  confidence : Q;
  cop_confidence : Q;
  accuracy : Q
}.

(** The dict [evaluate] returns. *)
Record LLMResults : Type := {
  vanilla_accuracy : Q;
  context_accuracy : Q
}.

(** Calls to the collaborators and console output, in program order.
    Of the console output the trace has the lines with a fixed text and
    the progress line of [evaluate_model]; progress bars and the lines
    that format records and floating point numbers are left out. *)
Inductive event : Type :=
| ModelForward (training : bool) (batch : Batch)
| FindMostRelevantNodes (subgraph_tuples : list (string * nat)) (k : nat)
| LlmInference (prompt : string)
| Print (line : string)
| TorchSave (file_name : string).

(** ** The collaborators *)

Class Collaborators : Type := {
  (** parameters of the graph model ([medical_hgt.state_dict()] by value) *)
  params : Type;
  (** node embeddings by node type *)
  zdict : Type;
  (** what [llm.inference] returns *)
  llm_output : Type;
  (** state of the Adam optimizer, learning rate included *)
  opt_state : Type;
  (** state of torch's global random number generator *)
  rng_state : Type;

  (** [medical_hgt(batch)] in the given mode *)
  hgt_forward : params → bool → Batch → tensor * tensor * zdict;
  (** [torch.randperm(n)] *)
  randperm : rng_state → nat → list nat * rng_state;
  randperm_Permutation : ∀ s n, Permutation (randperm s n).1 (seq 0 n);
  (** [torch.index_select(z_dict['question'], 0, question_index)], which
      is [None] for an index out of range *)
  index_select_question : zdict → nat → option tensor;
  (** [ml_utils.find_most_relevant_nodes], with the knowledge graph *)
  find_most_relevant_nodes :
    Batch → zdict → tensor → list (string * nat) → nat → list string;
  (** [llm.inference] and [llm.get_confidence] *)
  llm_inference : string → llm_output;
  llm_get_confidence : string → llm_output → LLMResponse;
  (** [ml_utils.compute_link_prediction_loss] *)
  compute_link_prediction_loss : tensor → tensor → tensor → tensor → Q;
  (** [ml_utils.compute_llm_relevancy_loss] *)
  compute_llm_relevancy_loss : Batch → zdict → gmap nat LLMFeedback → Q;
  (** [torch.optim.Adam(medical_hgt.parameters(), lr=lr)] *)
  adam : Q → opt_state;
  (** [opt.zero_grad(); total_loss.backward(); opt.step()]: the update
      depends on the loss through the batch, the sample drawn, the two
      weighted terms and the feedback mapping *)
  backward_step :
    opt_state → params → Batch → list nat → Q * Q → Q * Q →
    gmap nat LLMFeedback → params * opt_state;
  (** [LinearDecayLR(opt).step()] *)
  scheduler_step : opt_state → opt_state;
  (** [sklearn.metrics.roc_auc_score(true, pred)] *)
  roc_auc_score : tensor → tensor → result Q;
  (** [BinaryPrecision()(pred, true)] *)
  binary_precision : tensor → tensor → Q;
  (** [round(time.time())] at the n-th reading of the clock *)
  time_at : nat → Z
}.

(** ** The world the loops run in *)

Section Loops.
Context `{Collaborators}.

(** The graph model is one shared mutable object: its parameters and
    its train/eval mode.  The random number generator and the clock are
    global. *)
Record world : Type := {
  hgt_params : params;
  hgt_training : bool;
  rng : rng_state;
  ticks : nat;
  trace : list event
}.

Definition M (A : Type) : Type := world → result (A * world).

Definition ret {A} (a : A) : M A := λ w, Ok (a, w).

Definition bind {A B} (m : M A) (k : A → M B) : M B :=
  λ w, match m w with
       | Ok (a, w') => k a w'
       | Raise e => Raise e
       end.

Definition lift {A} (r : result A) : M A :=
  λ w, match r with Ok a => Ok (a, w) | Raise e => Raise e end.

(** The world after the events [evs]. *)
Definition log (evs : list event) (w : world) : world :=
  {| hgt_params := hgt_params w; hgt_training := hgt_training w;
     rng := rng w; ticks := ticks w; trace := trace w ++ evs |}.

Definition emit (e : event) : M unit := λ w, Ok (tt, log [e] w).

(** [medical_hgt.train()] and [medical_hgt.eval()] *)
Definition set_mode (training : bool) : M unit :=
  λ w, Ok (tt, {| hgt_params := hgt_params w; hgt_training := training;
                  rng := rng w; ticks := ticks w; trace := trace w |}).

Definition set_params (p : params) : M unit :=
  λ w, Ok (tt, {| hgt_params := p; hgt_training := hgt_training w;
                  rng := rng w; ticks := ticks w; trace := trace w |}).

Definition get_params : M params := λ w, Ok (hgt_params w, w).

(** [get_time()] *)
Definition get_time : M Z :=
  λ w, Ok (time_at (ticks w),
           {| hgt_params := hgt_params w; hgt_training := hgt_training w;
              rng := rng w; ticks := S (ticks w); trace := trace w |}).

(** [medical_hgt(batch)] *)
Definition forward (batch : Batch) : M (tensor * tensor * zdict) :=
  λ w, Ok (hgt_forward (hgt_params w) (hgt_training w) batch,
           log [ModelForward (hgt_training w) batch] w).

(** [model(batch)] for the single-task model of training.py, which is
    given as an argument there *)
Definition call_model (model : params → bool → Batch → tensor) (batch : Batch)
    : M tensor :=
  λ w, Ok (model (hgt_params w) (hgt_training w) batch,
           log [ModelForward (hgt_training w) batch] w).

(** [torch.randperm(n)] *)
Definition draw_randperm (n : nat) : M (list nat) :=
  λ w, Ok ((randperm (rng w) n).1,
           {| hgt_params := hgt_params w; hgt_training := hgt_training w;
              rng := (randperm (rng w) n).2; ticks := ticks w; trace := trace w |}).

End Loops.

Declare Scope py_scope.
Delimit Scope py_scope with py.
Notation "x <- m ;; k" := (bind m (λ x, k))
  (at level 20, m at level 99, k at level 200, only parsing) : py_scope.
Notation "' pat <- m ;; k" := (bind m (λ x, match x with pat => k end))
  (at level 20, pat pattern, m at level 99, k at level 200, only parsing) : py_scope.

(** ** The negative sampler (train.py lines 88-104 and 247-264) *)

Section Sampler.
Context `{Collaborators}.
Local Open Scope py_scope.

(** The locals the block defines. *)
Record Sampled : Type := {
  pos_y : tensor;
  neg_sample_indices : list nat;
  neg_pred_sampled : tensor;
  neg_y : tensor
}.

Definition num_neg_samples : nat := 2.

(** [if t.dim() == 0: t = t.view(1)] *)
Definition reshape_scalar (t : tensor) : M tensor :=
  if dim t =? 0 then lift (view1 t) else ret t.

Definition sample_negatives (batch : Batch) (neg_pred : tensor) : M Sampled :=
  pos_y <- reshape_scalar (squeeze (edge_label (question_correct_answer batch)));;
  let neg_indices := edge_label_index (question_wrong_answer batch) in
  let neg_labels := squeeze (edge_label (question_wrong_answer batch)) in
  perm <- draw_randperm (size1 neg_indices);;
  p <- lift (size0 pos_y);;
  let neg_sample_indices := slice_to (num_neg_samples * p) perm in
  neg_pred <- lift (index neg_pred neg_sample_indices);;
  neg_y <- lift (index neg_labels neg_sample_indices);;
  neg_y <- reshape_scalar neg_y;;
  ret {| pos_y := pos_y; neg_sample_indices := neg_sample_indices;
         neg_pred_sampled := neg_pred; neg_y := neg_y |}.

End Sampler.

(** ** Python containers *)

(** [d[k]] on a dict *)
Definition dict_getitem `{Countable K} {V} (d : gmap K V) (k : K) : result V :=
  or_raise KeyError (d !! k).

(** [l[i]] on a sequence, for an index that is not negative *)
Definition list_getitem {A} (l : list A) (i : nat) : result A :=
  or_raise IndexError (l !! i).

(** [t.long()]: truncation towards zero *)
Definition to_long (t : tensor) : tensor :=
  Tensor (shape t)
         (map (λ q, inject_Z (Z.quot (Qnum q) (Z.pos (Qden q)))) (data t)).

(** ** Loop shapes *)

Section LoopShapes.
Context `{Collaborators}.
Local Open Scope py_scope.

(** [for x in xs: body], the state of the locals threaded through *)
Fixpoint for_each {A St} (body : St → A → M St) (xs : list A) (s : St) : M St :=
  match xs with
  | [] => ret s
  | x :: xs' => s' <- body s x;; for_each body xs' s'
  end.

(** The loop of [evaluate] and of [evaluate_model]:
    [for i, batch in enumerate(loader): batch_num = i + 1; body;
     if batch_num >= num_batches: break] *)
Fixpoint enumerate_until {B St} (num_batches : Z) (body : nat → B → St → M St)
    (i : nat) (loader : list B) (s : St) : M St :=
  match loader with
  | [] => ret s
  | batch :: rest =>
      let batch_num := i + 1 in
      s' <- body i batch s;;
      if (Z.of_nat batch_num >=? num_batches)%Z
      then ret s'
      else enumerate_until num_batches body (S i) rest s'
  end.

End LoopShapes.

(** ** The evaluation loop (train.py, [evaluate]) *)

(** The four lists of tensors both loops accumulate. *)
Record LinkLists : Type := {
  pos_y_pred_tensors : list tensor;
  neg_y_pred_tensors : list tensor;
  pos_y_true_tensors : list tensor;
  neg_y_true_tensors : list tensor
}.

(** The lists of one batch of questions. *)
Record QuestionLists : Type := {
  vanilla_accuracy_list : list Q;
  vanilla_confidence_list : list Q;
  llm_aided_accuracy_list : list Q;
  llm_aided_confidence_list : list Q
}.

(** The locals [evaluate] accumulates over the batches. *)
Record EvalLists : Type := {
  link_lists : LinkLists;
  average_llm_aided_confidence_list : list Q;
  average_llm_aided_accuracy_list : list Q;
  average_llm_vanilla_confidence_list : list Q;
  average_llm_vanilla_accuracy_list : list Q
}.

Definition no_link_lists : LinkLists :=
  {| pos_y_pred_tensors := []; neg_y_pred_tensors := [];
     pos_y_true_tensors := []; neg_y_true_tensors := [] |}.

Definition no_question_lists : QuestionLists :=
  {| vanilla_accuracy_list := []; vanilla_confidence_list := [];
     llm_aided_accuracy_list := []; llm_aided_confidence_list := [] |}.

Definition no_eval_lists : EvalLists :=
  {| link_lists := no_link_lists;
     average_llm_aided_confidence_list := [];
     average_llm_aided_accuracy_list := [];
     average_llm_vanilla_confidence_list := [];
     average_llm_vanilla_accuracy_list := [] |}.

(** [{0: 'A', 1: 'B', 2: 'C', 3: 'D'}[c]] *)
Definition correct_answer_map (c : Z) : result string :=
  match c with
  | 0%Z => Ok "A"%string
  | 1%Z => Ok "B"%string
  | 2%Z => Ok "C"%string
  | 3%Z => Ok "D"%string
  | _ => Raise KeyError
  end.

(** The prompt of lines 295-302. *)
Definition context_prompt (most_relevant_nodes : list string) (r : DatasetRow) : string :=
  ("Context: " +:+ String.concat "," most_relevant_nodes
   +:+ ". Question: " +:+ question r
   +:+ " A. " +:+ opa r +:+ " B. " +:+ opb r
   +:+ " C. " +:+ opc r +:+ " D. " +:+ opd r)%string.

(** The notice of line 308; [i] is the index of the batch. *)
Definition wrong_format_notice (i : nat) : string :=
  ("Wrong response format. Question " +:+ pretty i +:+ " ignored during eval")%string.

(** The confidence below which a question is asked again with context. *)
Definition low_confidence : Q := 26 # 100.

(** The four appends of lines 312-315 and of lines 319-322. *)
Definition accumulate (lists : QuestionLists)
    (aided_confidence aided_accuracy vanilla_confidence vanilla_accuracy : Q)
    : QuestionLists :=
  {| vanilla_accuracy_list := vanilla_accuracy_list lists ++ [vanilla_accuracy];
     vanilla_confidence_list := vanilla_confidence_list lists ++ [vanilla_confidence];
     llm_aided_accuracy_list := llm_aided_accuracy_list lists ++ [aided_accuracy];
     llm_aided_confidence_list := llm_aided_confidence_list lists ++ [aided_confidence] |}.

(** [sum(l) / max(1, len(l))] *)
Definition average (l : list Q) : result Q :=
  PyNum.truediv (PyNum.sum l) (PyNum.max 1 (PyNum.len l)).

Section Evaluate.
Context `{Collaborators}.
Local Open Scope py_scope.

(** Lines 290-315: the question is asked again, with the labels of the
    two most relevant nodes as context. *)
Definition ask_with_context (i : nat) (batch : Batch) (z_dict : zdict)
    (qa_dataset : list DatasetRow)
    (question_to_subgraphs_mapping : gmap nat (list (string * nat)))
    (question_node_representation : tensor) (question_uid : nat)
    (llm_feedback_without_context : LLMFeedback)
    (lists : QuestionLists) : M QuestionLists :=
  subgraph_tuples <- lift (dict_getitem question_to_subgraphs_mapping question_uid);;
  _ <- emit (FindMostRelevantNodes subgraph_tuples 2);;
  let most_relevant_nodes :=
    find_most_relevant_nodes batch z_dict question_node_representation subgraph_tuples 2 in
  dataset_row <- lift (list_getitem qa_dataset question_uid);;
  let correct_answer := cop dataset_row in
  let prompt := context_prompt most_relevant_nodes dataset_row in
  _ <- emit (LlmInference prompt);;
  let output := llm_inference prompt in
  letter <- lift (correct_answer_map correct_answer);;
  let llm_response_dict := llm_get_confidence letter output in
  if Qeq_bool (confidence llm_response_dict) (-1)
  then
    _ <- emit (Print (wrong_format_notice i));;
    ret lists
  else
    ret (accumulate lists
           (cop_confidence llm_response_dict)
           (accuracy llm_response_dict)
           (cop_confidence_without_context llm_feedback_without_context)
           (is_correct_without_context llm_feedback_without_context)).

(** Lines 280-322: the body of the loop over the questions of a batch. *)
Definition evaluate_question (i : nat) (batch : Batch) (z_dict : zdict)
    (qa_dataset : list DatasetRow)
    (llm_feedbacks_dict : gmap nat LLMFeedback)
    (question_to_subgraphs_mapping : gmap nat (list (string * nat)))
    (lists : QuestionLists) (question_index : nat) : M QuestionLists :=
  question_node_representation <-
    lift (or_raise IndexError (index_select_question z_dict question_index));;
  question_uid <- lift (list_getitem (question_node_uid batch) question_index);;
  match llm_feedbacks_dict !! question_uid with
  | None => ret lists
  | Some llm_feedback_without_context =>
      if PyNum.Qltb (cop_confidence_without_context llm_feedback_without_context)
                    low_confidence
      then
        ask_with_context i batch z_dict qa_dataset question_to_subgraphs_mapping
          question_node_representation question_uid
          llm_feedback_without_context lists
      else
        ret (accumulate lists
               (cop_confidence_without_context llm_feedback_without_context)
               (is_correct_without_context llm_feedback_without_context)
               (cop_confidence_without_context llm_feedback_without_context)
               (is_correct_without_context llm_feedback_without_context))
  end.

(** The four appends of lines 266-269 (and 118-121). *)
Definition append_link (l : LinkLists) (pos_pred neg_pred pos_y neg_y : tensor) : LinkLists :=
  {| pos_y_pred_tensors := pos_y_pred_tensors l ++ [pos_pred];
     neg_y_pred_tensors := neg_y_pred_tensors l ++ [neg_pred];
     pos_y_true_tensors := pos_y_true_tensors l ++ [pos_y];
     neg_y_true_tensors := neg_y_true_tensors l ++ [neg_y] |}.

(** Lines 324-334: the averages of a batch, kept when the average
    context confidence is positive. *)
Definition record_batch_averages (acc : EvalLists) (link : LinkLists)
    (lists : QuestionLists) : M EvalLists :=
  batch_average_vanilla_confidence <- lift (average (vanilla_confidence_list lists));;
  batch_average_vanilla_accuracy <- lift (average (vanilla_accuracy_list lists));;
  batch_average_context_confidence <- lift (average (llm_aided_confidence_list lists));;
  batch_average_context_accuracy <- lift (average (llm_aided_accuracy_list lists));;
  if PyNum.Qltb 0 batch_average_context_confidence
  then
    ret {| link_lists := link;
           average_llm_aided_confidence_list :=
             average_llm_aided_confidence_list acc ++ [batch_average_context_confidence];
           average_llm_aided_accuracy_list :=
             average_llm_aided_accuracy_list acc ++ [batch_average_context_accuracy];
           average_llm_vanilla_confidence_list :=
             average_llm_vanilla_confidence_list acc ++ [batch_average_vanilla_confidence];
           average_llm_vanilla_accuracy_list :=
             average_llm_vanilla_accuracy_list acc ++ [batch_average_vanilla_accuracy] |}
  else
    ret {| link_lists := link;
           average_llm_aided_confidence_list := average_llm_aided_confidence_list acc;
           average_llm_aided_accuracy_list := average_llm_aided_accuracy_list acc;
           average_llm_vanilla_confidence_list := average_llm_vanilla_confidence_list acc;
           average_llm_vanilla_accuracy_list := average_llm_vanilla_accuracy_list acc |}.

(** Lines 238-334: the body of the loop over the batches.  Row 0 of the
    edge-label index of shape [[2, n]] is one-dimensional, so the guard
    of lines 277-278 leaves it as it is. *)
Definition evaluate_batch (qa_dataset : list DatasetRow)
    (llm_feedbacks_dict : gmap nat LLMFeedback)
    (question_to_subgraphs_mapping : gmap nat (list (string * nat)))
    (i : nat) (batch : Batch) (acc : EvalLists) : M EvalLists :=
  '(pos_pred, neg_pred, z_dict) <- forward batch;;
  s <- sample_negatives batch neg_pred;;
  let link := append_link (link_lists acc) pos_pred (neg_pred_sampled s) (pos_y s) (neg_y s) in
  let unseen_questions_indices :=
    eli_src (edge_label_index (question_correct_answer batch)) in
  lists <- for_each
             (evaluate_question i batch z_dict qa_dataset llm_feedbacks_dict
                question_to_subgraphs_mapping)
             unseen_questions_indices no_question_lists;;
  record_batch_averages acc link lists.

(** Lines 341-347 and 128-134: the tensors of a run, concatenated. *)
Definition concat_link (l : LinkLists) : M (tensor * tensor) :=
  pos_pred <- lift (cat (pos_y_pred_tensors l));;
  neg_pred <- lift (cat (neg_y_pred_tensors l));;
  pos_true <- lift (cat (pos_y_true_tensors l));;
  neg_true <- lift (cat (neg_y_true_tensors l));;
  pred <- lift (concatenate pos_pred neg_pred);;
  true' <- lift (concatenate pos_true neg_true);;
  ret (pred, true').

(** Lines 349-352. *)
Definition llm_results_of (acc : EvalLists) : M LLMResults :=
  va <- lift (average (average_llm_vanilla_accuracy_list acc));;
  ca <- lift (average (average_llm_aided_accuracy_list acc));;
  ret {| vanilla_accuracy := va; context_accuracy := ca |}.

(** [evaluate]: the LLM, the graph model, the device and the knowledge
    graph are collaborators. *)
Definition evaluate (split_loaders : gmap string (list Batch)) (split_name : string)
    (qa_dataset : list DatasetRow)
    (llm_feedbacks_dict : gmap nat LLMFeedback)
    (question_to_subgraphs_mapping : gmap nat (list (string * nat)))
    (frac : Q) : M (tensor * tensor * LLMResults) :=
  _ <- set_mode false;;
  loader <- lift (dict_getitem split_loaders split_name);;
  let num_batches := PyNum.round (frac * PyNum.len loader) in
  _ <- emit (Print "Validation Batches...");;
  acc <- enumerate_until num_batches
           (evaluate_batch qa_dataset llm_feedbacks_dict question_to_subgraphs_mapping)
           0 loader no_eval_lists;;
  _ <- set_mode true;;
  '(pred, true') <- concat_link (link_lists acc);;
  llm_results <- llm_results_of acc;;
  ret (pred, true', llm_results).

End Evaluate.

(** ** training.py: the result records and the single-task evaluation *)

Module Training.

(** [@dataclass(frozen=True) class EpochResult] *)
Record EpochResult : Type := {
  epoch_num : Z;
  train_start_time : Z;
  train_end_time : Z;
  mean_train_loss : option Q;
  train_acc : Q;
  val_acc : Q
}.

(** [@dataclass(frozen=True) class ModelResult]; [SD] is the type of the
    model state kept for reloading. *)
Record ModelResult (SD : Type) : Type := {
  start_time : Z;
  end_time : Z;
  epoch_results : list EpochResult;
  state_dict : SD;
  test_acc : Q
}.
Arguments start_time {SD} _.
Arguments end_time {SD} _.
Arguments epoch_results {SD} _.
Arguments state_dict {SD} _.
Arguments test_acc {SD} _.



(** [sum(l)] on integers *)
Definition int_sum (l : list Z) : Z := fold_left Z.add l 0%Z.

Definition get_total_train_time_sec {SD} (self : ModelResult SD) : Z :=
  int_sum (map (λ er, (train_end_time er - train_start_time er)%Z) (epoch_results self)).

(** [//] is the floor division, which [Z.div] is for a positive divisor. *)
Definition get_total_train_time_min {SD} (self : ModelResult SD) : Z :=
  (get_total_train_time_sec self / 60)%Z.

(** The line [evaluate_model] prints for every batch. *)
Definition progress_line (split_name : string) (batch_num : nat) (num_batches : Z) : string :=
  (String (Ascii.ascii_of_nat 13) "" +:+ split_name +:+ " batch " +:+ pretty batch_num
   +:+ " / " +:+ pretty num_batches)%string.

Section EvaluateModel.
Context `{Collaborators}.
Local Open Scope py_scope.

(** Lines 45-59: the body of the loop of [evaluate_model]; [model] is the
    single-task graph model in the mode the shared object is in. *)
Definition evaluate_model_batch (model : params → bool → Batch → tensor)
    (split_name : string) (num_batches : Z)
    (i : nat) (batch : Batch) (acc : list tensor * list tensor)
    : M (list tensor * list tensor) :=
  let batch_num := i + 1 in
  _ <- emit (Print (progress_line split_name batch_num num_batches));;
  pred <- call_model model batch;;
  let eval_pred := pred in
  let eval_y := edge_label (question_correct_answer batch) in
  ret (acc.1 ++ [eval_pred], acc.2 ++ [eval_y]).

Definition evaluate_model (model : params → bool → Batch → tensor)
    (split_loaders : gmap string (list Batch)) (split_name : string)
    (frac : Q) : M Q :=
  _ <- set_mode false;;
  loader <- lift (dict_getitem split_loaders split_name);;
  let num_batches := PyNum.round (frac * PyNum.len loader) in
  '(y_pred_tensors, y_true_tensors) <-
     enumerate_until num_batches (evaluate_model_batch model split_name num_batches)
       0 loader ([], []);;
  _ <- set_mode true;;
  pred <- lift (cat y_pred_tensors);;
  true' <- lift (cat y_true_tensors);;
  lift (roc_auc_score true' pred).

End EvaluateModel.

End Training.

(** ** The result records [train] builds *)

Module MlUtils.

(** Modelled from the spec: [ml_utils.EpochResult] is not among the
    sources; its fields are those [train] passes by keyword (lines
    151-161), which are the ones the data model of the specification
    lists. *)
Record EpochResult : Type := {
  epoch_num : nat;
  train_start_time : Z;
  train_end_time : Z;
  mean_train_loss : option Q;
  train_roc_aoc : Q;
  train_precision : Q;
  val_roc_aoc : Q;
  val_precision : Q;
  llm_results : LLMResults
}.

(** Modelled from the spec: [ml_utils.ModelResult] is not among the
    sources; its fields are, in the order [train] passes them (line 190),
    the run's start and end, the epoch results, the copy of the model
    parameters, and ROC-AUC, precision and LLM accuracies on the test
    split. *)
Record ModelResult (SD : Type) : Type := {
  start_time : Z;
  end_time : Z;
  epoch_results : list EpochResult;
  state_dict : SD;
  test_roc_auc : Q;
  test_precision : Q;
  test_llm_results : LLMResults
}.
Arguments start_time {SD} _.
Arguments end_time {SD} _.
Arguments epoch_results {SD} _.
Arguments state_dict {SD} _.
Arguments test_roc_auc {SD} _.
Arguments test_precision {SD} _.
Arguments test_llm_results {SD} _.

End MlUtils.

(** ** The training loop (train.py, [train]) *)

(** Line 66 *)
Definition llm_relevancy_loss_weight_of (link_prediction_loss_weight : Q) : Q :=
  (1 - link_prediction_loss_weight)%Q.

(** Line 111 *)
Definition total_loss_of (link_prediction_loss_weight llm_relevancy_loss_weight
    link_prediction_loss llm_relevancy_loss : Q) : Q :=
  (link_prediction_loss_weight * link_prediction_loss
   + llm_relevancy_loss_weight * llm_relevancy_loss)%Q.

Section Train.
Context `{Collaborators}.
Local Open Scope py_scope.

(** The locals of an epoch that the loop over the batches updates. *)
Record TrainLists : Type := {
  opt : opt_state;
  train_losses : list Q;
  train_link_lists : LinkLists
}.

(** Lines 80-123: the body of the loop over the training batches. *)
Definition train_batch (train_llm_feedbacks_dict : gmap nat LLMFeedback)
    (link_prediction_loss_weight llm_relevancy_loss_weight : Q)
    (st : TrainLists) (batch : Batch) : M TrainLists :=
  '(pos_train_pred, neg_train_pred, z_dict) <- forward batch;;
  s <- sample_negatives batch neg_train_pred;;
  let link_prediction_loss :=
    compute_link_prediction_loss pos_train_pred (neg_pred_sampled s) (pos_y s) (neg_y s) in
  let llm_relevancy_loss :=
    compute_llm_relevancy_loss batch z_dict train_llm_feedbacks_dict in
  let total_loss :=
    total_loss_of link_prediction_loss_weight llm_relevancy_loss_weight
      link_prediction_loss llm_relevancy_loss in
  p <- get_params;;
  let stepped :=
    backward_step (opt st) p batch (neg_sample_indices s)
      (link_prediction_loss_weight, link_prediction_loss)
      (llm_relevancy_loss_weight, llm_relevancy_loss)
      train_llm_feedbacks_dict in
  _ <- set_params stepped.1;;
  ret {| opt := stepped.2;
         train_losses := train_losses st ++ [total_loss];
         train_link_lists :=
           append_link (train_link_lists st) pos_train_pred (neg_pred_sampled s)
             (to_long (pos_y s)) (to_long (neg_y s)) |}.

(** Lines 70-177: one epoch.  The state of the loop over the epochs is
    the optimizer and the history of epoch results.  [None] as mean
    training loss is the not-a-number [np.mean] gives on no batch. *)
Definition train_epoch (split_loaders : gmap string (list Batch))
    (train_loader : list Batch) (eval_qa_dataset : list DatasetRow)
    (train_llm_feedbacks_dict val_llm_feedbacks_dict : gmap nat LLMFeedback)
    (question_to_subgraphs_mapping : gmap nat (list (string * nat)))
    (link_prediction_loss_weight llm_relevancy_loss_weight : Q)
    (st : opt_state * list MlUtils.EpochResult) (epoch_num : nat)
    : M (opt_state * list MlUtils.EpochResult) :=
  train_start_time <- get_time;;
  _ <- emit (Print "Train Batches...");;
  lists <- for_each
             (train_batch train_llm_feedbacks_dict
                link_prediction_loss_weight llm_relevancy_loss_weight)
             train_loader
             {| opt := st.1; train_losses := []; train_link_lists := no_link_lists |};;
  train_end_time <- get_time;;
  '(pred, true') <- concat_link (train_link_lists lists);;
  train_roc_auc <- lift (roc_auc_score true' pred);;
  let train_precision := binary_precision pred true' in
  '(val_pred, val_true, val_llm_acc_dict) <-
     evaluate split_loaders "val" eval_qa_dataset val_llm_feedbacks_dict
       question_to_subgraphs_mapping 1;;
  val_roc_auc <- lift (roc_auc_score val_true val_pred);;
  let val_precision := binary_precision val_pred val_true in
  let epoch_result :=
    {| MlUtils.epoch_num := epoch_num;
       MlUtils.train_start_time := train_start_time;
       MlUtils.train_end_time := train_end_time;
       MlUtils.mean_train_loss :=
         (λ m, PyNum.round_ndigits m 4) <$> PyNum.mean (train_losses lists);
       MlUtils.train_roc_aoc := train_roc_auc;
       MlUtils.train_precision := train_precision;
       MlUtils.val_roc_aoc := val_roc_auc;
       MlUtils.val_precision := val_precision;
       MlUtils.llm_results := val_llm_acc_dict |} in
  ret (scheduler_step (opt lists), st.2 ++ [epoch_result]).

(** [train]: returns the result it hands to [torch.save].  The summary
    lines it prints are not part of the trace. *)
Definition train (split_loaders : gmap string (list Batch)) (file_name : string)
    (qa_dataset : gmap string (list DatasetRow))
    (train_llm_feedbacks_dict val_llm_feedbacks_dict : gmap nat LLMFeedback)
    (question_to_subgraphs_mapping : gmap nat (list (string * nat)))
    (num_epochs : Z) (lr : Q) (link_prediction_loss_weight : Q)
    : M (MlUtils.ModelResult params) :=
  _ <- set_mode true;;
  let opt := adam lr in
  eval_qa_dataset <- lift (dict_getitem qa_dataset "validation");;
  start_time <- get_time;;
  _ <- emit (Print ("Saving results to " +:+ file_name));;
  train_loader <- lift (dict_getitem split_loaders "train");;
  let llm_relevancy_loss_weight := llm_relevancy_loss_weight_of link_prediction_loss_weight in
  st <- for_each
          (train_epoch split_loaders train_loader eval_qa_dataset
             train_llm_feedbacks_dict val_llm_feedbacks_dict
             question_to_subgraphs_mapping
             link_prediction_loss_weight llm_relevancy_loss_weight)
          (seq 1 (Z.to_nat num_epochs)) (opt, []);;
  state_dict <- get_params;;
  '(test_pred, test_true, test_llm_acc_dict) <-
     evaluate split_loaders "test" eval_qa_dataset val_llm_feedbacks_dict
       question_to_subgraphs_mapping 1;;
  test_roc_auc <- lift (roc_auc_score test_true test_pred);;
  let test_precision := binary_precision test_pred test_true in
  _ <- set_mode false;;
  end_time <- get_time;;
  let medical_hgt_result :=
    {| MlUtils.start_time := start_time;
       MlUtils.end_time := end_time;
       MlUtils.epoch_results := st.2;
       MlUtils.state_dict := state_dict;
       MlUtils.test_roc_auc := test_roc_auc;
       MlUtils.test_precision := test_precision;
       MlUtils.test_llm_results := test_llm_acc_dict |} in
  _ <- emit (TorchSave file_name);;
  ret medical_hgt_result.

End Train.

(** ** The parameter snapshot, with the model as a shared mutable object *)

Module Store.

(** The graph model as torch has it: named parameters that are tensors
    in mutable storage (a location each), and a mode. *)
Record Model : Type := {
  parameters : list (string * nat);
  training : bool
}.

(** [model.state_dict()]: the dict refers to the live parameter tensors. *)
Definition state_dict (m : Model) : list (string * nat) := parameters m.



(** What the model may undergo after the snapshot was taken. *)
Inductive op : Type :=
| OptimizerStep (update : string → tensor → tensor)
| SetMode (mode : bool).

(** [opt.step()] updates every parameter in place. *)
Definition optimizer_step (update : string → tensor → tensor)
    (m : Model) (h : gmap nat tensor) : gmap nat tensor :=
  foldr (λ '(name, l) h', alter (update name) l h') h (parameters m).

Definition step (o : op) (s : Model * gmap nat tensor) : Model * gmap nat tensor :=
  match o with
  | OptimizerStep update => (s.1, optimizer_step update s.1 s.2)
  | SetMode mode => ({| parameters := parameters s.1; training := mode |}, s.2)
  end.

Definition run (ops : list op) (s : Model * gmap nat tensor) : Model * gmap nat tensor :=
  foldl (λ s o, step o s) s ops.

(** The values a state dict holds in a given storage. *)
Definition read (h : gmap nat tensor) (d : list (string * nat))
    : list (string * option tensor) :=
  map (λ '(name, l), (name, h !! l)) d.


End Store.

(** ** Observations on traces *)


(** The batches given to the graph model. *)
Definition forward_batches (tr : list event) : list Batch :=
  omap (λ e, match e with ModelForward _ b => Some b | _ => None end) tr.

(** The number of batches the loop of [evaluate] and [evaluate_model]
    goes through, for a loader of [n] batches. *)
Definition batches_processed (num_batches : Z) (n : nat) : nat :=
  Nat.min n (Z.to_nat (Z.max 1 num_batches)).

(** [for i, x in enumerate(xs, start=i): body], without a [break]. *)
Section Indexed.
Context `{Collaborators}.
Local Open Scope py_scope.

Fixpoint for_each_indexed {B St} (body : nat → B → St → M St)
    (i : nat) (xs : list B) (s : St) : M St :=
  match xs with
  | [] => ret s
  | x :: xs' => s' <- body i x s;; for_each_indexed body (S i) xs' s'
  end.

End Indexed.

(** ** A small concrete instance, to run the loops on *)

Module Toy.

Definition collaborators : Collaborators := {|
  params := Q;
  zdict := unit;
  llm_output := string;
  opt_state := Q;
  rng_state := nat;
  hgt_forward := λ p _ b,
    (Tensor [length (data (edge_label (question_correct_answer b)))]
            (repeat p (length (data (edge_label (question_correct_answer b))))),
     Tensor [size1 (edge_label_index (question_wrong_answer b))]
            (map (λ i, (inject_Z (Z.of_nat i) * p)%Q)
                 (seq 0 (size1 (edge_label_index (question_wrong_answer b))))),
     tt);
  randperm := λ s n, (rev (seq 0 n), S s);
  randperm_Permutation := λ _ n, Permutation_sym (Permutation_rev (seq 0 n));
  index_select_question := λ _ _, Some (Tensor [1; 1] [0%Q]);
  find_most_relevant_nodes := λ _ _ _ subgraph_tuples k, take k (map fst subgraph_tuples);
  llm_inference := λ prompt, prompt;
  llm_get_confidence := λ letter _,
    if String.eqb letter "D"
    then {| confidence := (-1)%Q; cop_confidence := 0%Q; accuracy := 0%Q |}
    else {| confidence := 9 # 10; cop_confidence := 8 # 10; accuracy := 1%Q |};
  compute_link_prediction_loss := λ pos_pred neg_pred _ _,
    (PyNum.sum (data pos_pred) + PyNum.sum (data neg_pred))%Q;
  compute_llm_relevancy_loss := λ _ _ _, 1 # 2;
  adam := λ lr, lr;
  backward_step := λ opt p _ _ _ _ _, ((p + 1)%Q, opt);
  scheduler_step := λ opt, (opt * (9 # 10))%Q;
  roc_auc_score := λ _ _, Ok (1 # 2);
  binary_precision := λ _ _, 1 # 2;
  time_at := λ n, Z.of_nat (100 + 60 * n)
|}.

(** One question (at position 0 of the batch), three wrong answers. *)
Definition batch_of (question_uid : nat) : Batch := {|
  question_correct_answer :=
    {| edge_label_index := {| eli_src := [0]; eli_dst := [0] |};
       edge_label := Tensor [1] [1%Q] |};
  question_wrong_answer :=
    {| edge_label_index := {| eli_src := [0; 0; 0]; eli_dst := [1; 2; 3] |};
       edge_label := Tensor [3] [0%Q; 0%Q; 0%Q] |};
  question_node_uid := [question_uid];
  graph_sample := question_uid
|}.

(** Two questions, five wrong answers. *)
Definition batch_of_two : Batch := {|
  question_correct_answer :=
    {| edge_label_index := {| eli_src := [0; 1]; eli_dst := [0; 4] |};
       edge_label := Tensor [2] [1%Q; 1%Q] |};
  question_wrong_answer :=
    {| edge_label_index := {| eli_src := [0; 0; 0; 1; 1]; eli_dst := [1; 2; 3; 5; 6] |};
       edge_label := Tensor [5] [0%Q; 0%Q; 0%Q; 0%Q; 0%Q] |};
  question_node_uid := [1; 2];
  graph_sample := 7
|}.

(** One question and a single wrong answer. *)
Definition batch_single_negative : Batch := {|
  question_correct_answer :=
    {| edge_label_index := {| eli_src := [0]; eli_dst := [0] |};
       edge_label := Tensor [1] [1%Q] |};
  question_wrong_answer :=
    {| edge_label_index := {| eli_src := [0]; eli_dst := [1] |};
       edge_label := Tensor [1] [0%Q] |};
  question_node_uid := [1];
  graph_sample := 9
|}.

(** Question 0: low confidence, and the LLM's answer with context is
    malformed.  Question 1: confident.  Question 2: low confidence. *)
Definition feedbacks : gmap nat LLMFeedback :=
  <[0 := {| cop_confidence_without_context := 1 # 10; is_correct_without_context := 0%Q |}]>
  (<[1 := {| cop_confidence_without_context := 9 # 10; is_correct_without_context := 1%Q |}]>
  (<[2 := {| cop_confidence_without_context := 2 # 10; is_correct_without_context := 0%Q |}]>
   ∅)).

Definition rows : list DatasetRow :=
  [ {| question := "q0"; opa := "a"; opb := "b"; opc := "c"; opd := "d"; cop := 3%Z |};
    {| question := "q1"; opa := "a"; opb := "b"; opc := "c"; opd := "d"; cop := 0%Z |};
    {| question := "q2"; opa := "a"; opb := "b"; opc := "c"; opd := "d"; cop := 1%Z |} ].

Definition subgraphs : gmap nat (list (string * nat)) :=
  <[0 := [("drug"%string, 7); ("disease"%string, 8); ("gene"%string, 9)]]>
  (<[1 := [("drug"%string, 7)]]>
  (<[2 := [("gene"%string, 9); ("drug"%string, 7); ("disease"%string, 8)]]> ∅)).

Definition loaders : gmap string (list Batch) :=
  <["train"%string := [batch_of 1; batch_of_two]]>
  (<["val"%string := [batch_of 2; batch_of 1]]>
  (<["test"%string := [batch_of 0; batch_of_two]]> ∅)).

Definition dataset : gmap string (list DatasetRow) :=
  <["validation"%string := rows]> ∅.

Definition world0 : @world collaborators :=
  {| hgt_params := 1%Q : @params collaborators;
     hgt_training := true;
     rng := 0 : @rng_state collaborators;
     ticks := 0;
     trace := [] |}.

(** A model with two parameters, and its storage. *)
Definition model : Store.Model :=
  {| Store.parameters := [("weight"%string, 1); ("bias"%string, 2)];
     Store.training := true |}.

Definition heap : gmap nat tensor :=
  <[1 := Tensor [2] [1%Q; 2%Q]]> (<[2 := Tensor [1] [3%Q]]> ∅).

End Toy.

(** ** training.py: masked targets and the single-task training loop *)

Module SingleTask.

(** [mask.nonzero()]: the positions at which a boolean mask is true. *)
Definition mask_indices (mask : list bool) : list nat :=
  List.filter (λ i, nth i mask false) (seq 0 (length mask)).

(** [target[mask]] for a one-dimensional boolean mask: a tensor without
    dimensions cannot be indexed by it, the mask has to be as long as the
    first dimension, and the rows at its true positions are kept. *)
Definition mask_index (target : tensor) (mask : list bool) : result tensor :=
  match shape target with
  | [] => Raise IndexError
  | d :: _ =>
      if length mask =? d
      then index target (mask_indices mask)
      else Raise IndexError
  end.

(** [get_masked]: the batch is given by its mask attributes. *)
Definition get_masked (target : tensor) (batch : gmap string (list bool))
    (split_name : string) : result tensor :=
  let mask_name := (split_name +:+ "_mask")%string in
  match batch !! mask_name with
  | None => Ok target
  | Some mask => mask_index target mask
  end.

(** The line [train_model] prints at its start. *)
Definition start_line (start_time : Z) (file_name : string) : string :=
  ("start time: " +:+ pretty start_time +:+ "; will save results to " +:+ file_name)%string.

(** The line [train_model] prints for every training batch. *)
Definition epoch_progress_line (epoch_num batch_num num_batches : nat) : string :=
  (String (Ascii.ascii_of_nat 13) "" +:+ "Epoch " +:+ pretty epoch_num
   +:+ ": batch " +:+ pretty batch_num +:+ " / " +:+ pretty num_batches)%string.

Section TrainModel.
Context `{Collaborators}.
Local Open Scope py_scope.

(** The locals of an epoch of [train_model] that the loop over the
    batches updates. *)
Record ModelLists : Type := {
  model_opt : opt_state;
  model_train_losses : list Q;
  y_pred_tensors : list tensor;
  y_true_tensors : list tensor
}.

(** Lines 152-177: the body of the loop over the training batches.
    [model] is the single-task graph model, [loss_fn] the
    [BCEWithLogitsLoss()] and [opt_step] stands for
    [opt.zero_grad(); loss.backward(); opt.step()]. *)
Definition train_model_batch (model : params → bool → Batch → tensor)
    (loss_fn : tensor → tensor → Q)
    (opt_step : opt_state → params → Batch → Q → params * opt_state)
    (epoch_num num_batches : nat)
    (i : nat) (batch : Batch) (st : ModelLists) : M ModelLists :=
  let batch_num := i + 1 in
  _ <- emit (Print (epoch_progress_line epoch_num batch_num num_batches));;
  train_pred <- call_model model batch;;
  let train_y := edge_label (question_correct_answer batch) in
  let loss := loss_fn train_pred train_y in
  p <- get_params;;
  let stepped := opt_step (model_opt st) p batch loss in
  _ <- set_params stepped.1;;
  ret {| model_opt := stepped.2;
         model_train_losses := model_train_losses st ++ [loss];
         y_pred_tensors := y_pred_tensors st ++ [train_pred];
         y_true_tensors := y_true_tensors st ++ [to_long train_y] |}.

(** Lines 143-204: one epoch of [train_model]. *)
Definition train_model_epoch (model : params → bool → Batch → tensor)
    (loss_fn : tensor → tensor → Q)
    (opt_step : opt_state → params → Batch → Q → params * opt_state)
    (split_loaders : gmap string (list Batch)) (train_loader : list Batch)
    (st : opt_state * list Training.EpochResult) (epoch_num : nat)
    : M (opt_state * list Training.EpochResult) :=
  train_start_time <- get_time;;
  let num_batches := length train_loader in
  lists <- for_each_indexed
             (train_model_batch model loss_fn opt_step epoch_num num_batches)
             0 train_loader
             {| model_opt := st.1; model_train_losses := [];
                y_pred_tensors := []; y_true_tensors := [] |};;
  train_end_time <- get_time;;
  pred <- lift (cat (y_pred_tensors lists));;
  true' <- lift (cat (y_true_tensors lists));;
  train_acc <- lift (roc_auc_score true' pred);;
  val_acc <- Training.evaluate_model model split_loaders "val" 1;;
  let epoch_result :=
    {| Training.epoch_num := Z.of_nat epoch_num;
       Training.train_start_time := train_start_time;
       Training.train_end_time := train_end_time;
       Training.mean_train_loss :=
         (λ m, PyNum.round_ndigits m 4) <$> PyNum.mean (model_train_losses lists);
       Training.train_acc := PyNum.round_ndigits train_acc 4;
       Training.val_acc := PyNum.round_ndigits val_acc 4 |} in
  ret (model_opt lists, st.2 ++ [epoch_result]).

(** [train_model]: returns the result it hands to [torch.save]; the
    lines that format a record or a floating point number are not part
    of the trace. *)
Definition train_model (model : params → bool → Batch → tensor)
    (loss_fn : tensor → tensor → Q)
    (opt_step : opt_state → params → Batch → Q → params * opt_state)
    (split_loaders : gmap string (list Batch)) (file_name : string)
    (num_epochs : Z) (lr : Q) : M (Training.ModelResult params) :=
  _ <- set_mode true;;
  let opt := adam lr in
  start_time <- get_time;;
  _ <- emit (Print (start_line start_time file_name));;
  train_loader <- lift (dict_getitem split_loaders "train");;
  st <- for_each
          (train_model_epoch model loss_fn opt_step split_loaders train_loader)
          (seq 1 (Z.to_nat num_epochs)) (opt, []);;
  state_dict <- get_params;;
  test_acc <- Training.evaluate_model model split_loaders "test" 1;;
  _ <- set_mode false;;
  end_time <- get_time;;
  let model_result :=
    {| Training.start_time := start_time;
       Training.end_time := end_time;
       Training.epoch_results := st.2;
       Training.state_dict := state_dict;
       Training.test_acc := PyNum.round_ndigits test_acc 4 |} in
  _ <- emit (TorchSave file_name);;
  ret model_result.

End TrainModel.

End SingleTask.

(** ** More observations on worlds and traces *)

(** The batches given to the graph model, each with the mode the model
    was in. *)
Definition forward_events (tr : list event) : list (bool * Batch) :=
  omap (λ e, match e with ModelForward mode b => Some (mode, b) | _ => None end) tr.

Section SameModel.
Context `{Collaborators}.

(** Parameters, mode and clock are the same in both worlds. *)
Definition same_model (w w' : world) : Prop :=
  hgt_params w' = hgt_params w ∧ hgt_training w' = hgt_training w
  ∧ ticks w' = ticks w.

End SameModel.








(** A number between 0 and 1. *)
Definition in_unit (q : Q) : Prop := (0 <= q)%Q ∧ (q <= 1)%Q.

(** ** A concrete single-task model *)

Module ToySingle.

Definition model : @params Toy.collaborators → bool → Batch → tensor :=
  λ p _ b,
    Tensor [length (data (edge_label (question_correct_answer b)))]
           (repeat (p : Q) (length (data (edge_label (question_correct_answer b))))).

Definition loss_fn : tensor → tensor → Q := λ pred _, PyNum.sum (data pred).

Definition opt_step
    : @opt_state Toy.collaborators → @params Toy.collaborators → Batch → Q
      → @params Toy.collaborators * @opt_state Toy.collaborators :=
  λ opt p _ _, ((p + 1)%Q : Q, opt).

Definition masks : gmap string (list bool) :=
  <["val_mask"%string := [true; false; true]]> ∅.

End ToySingle.

(** * Properties *)

(** ** Comparisons on numbers *)

Lemma Qltb_lt x y : PyNum.Qltb x y = true ↔ (x < y)%Q.
Proof.
  unfold PyNum.Qltb. rewrite negb_true_iff.
  destruct (Qle_bool y x) eqn:E.
  - apply Qle_bool_iff in E. split; [discriminate|].
    intros Hlt. exfalso. exact (Qlt_not_le _ _ Hlt E).
  - split; [|reflexivity]. intros _.
    apply Qnot_le_lt. intros Hle. apply Qle_bool_iff in Hle. congruence.
Qed.

Lemma Qltb_ge x y : PyNum.Qltb x y = false ↔ (y <= x)%Q.
Proof.
  unfold PyNum.Qltb. rewrite negb_false_iff. apply Qle_bool_iff.
Qed.

(** ** Running computations *)

Section MonadFacts.
Context `{Collaborators}.

Lemma bind_Ok {A B} (m : M A) (k : A → M B) w r :
  bind m k w = Ok r ↔ ∃ a w1, m w = Ok (a, w1) ∧ k a w1 = Ok r.
Proof.
  unfold bind. destruct (m w) as [[a w1]|e]; split.
  - intros Hk. by exists a, w1.
  - by intros (? & ? & [= <- <-] & Hk).
  - discriminate.
  - by intros (? & ? & ? & _).
Qed.

Lemma bind_Raise {A B} (m : M A) (k : A → M B) w e :
  bind m k w = Raise e ↔
  m w = Raise e ∨ ∃ a w1, m w = Ok (a, w1) ∧ k a w1 = Raise e.
Proof.
  unfold bind. destruct (m w) as [[a w1]|e']; split.
  - intros Hk. right. by exists a, w1.
  - intros [?|(? & ? & [= <- <-] & Hk)]; [discriminate|done].
  - intros [= ->]. by left.
  - intros [[= ->]|(? & ? & ? & _)]; [done|discriminate].
Qed.

Lemma bind_step {A B} (m : M A) (k : A → M B) w a w1 :
  m w = Ok (a, w1) → bind m k w = k a w1.
Proof. intros Hm. unfold bind. by rewrite Hm. Qed.

Lemma lift_Ok {A} (r : result A) w a w' :
  lift r w = Ok (a, w') ↔ r = Ok a ∧ w' = w.
Proof.
  unfold lift. destruct r; split.
  - by intros [= <- <-].
  - by intros [[= <-] ->].
  - discriminate.
  - by intros [? _].
Qed.

Lemma lift_Raise {A} (r : result A) w e :
  lift r w = Raise e ↔ r = Raise e.
Proof. unfold lift. destruct r; split; congruence. Qed.

Lemma for_each_app {A St} (body : St → A → M St) xs ys s w :
  for_each body (xs ++ ys) s w
  = bind (for_each body xs s) (λ s', for_each body ys s') w.
Proof.
  revert s w. induction xs as [|x xs IH]; intros s w; simpl.
  - reflexivity.
  - unfold bind. destruct (body s x w) as [[s1 w1]|e]; [|reflexivity].
    apply IH.
Qed.

End MonadFacts.

(** Decomposes a hypothesis that a sequence of steps returned. *)
Ltac inv_run H :=
  repeat match type of H with
  | bind _ _ _ = Ok _ =>
      let a := fresh "a" in let w := fresh "w" in
      let H1 := fresh "Hrun" in
      apply bind_Ok in H; destruct H as (a & w & H1 & H)
  end.

(** ** Tensors *)

Lemma index_Ok_dim t idx t' : index t idx = Ok t' → dim t' ≠ 0.
Proof.
  unfold index. destruct (shape t) as [|d rest]; [discriminate|].
  destruct (forallb _ idx); [|discriminate]. by intros [= <-].
Qed.

Lemma index_scalar t idx : shape t = [] → index t idx = Raise IndexError.
Proof. intros Hs. unfold index. by rewrite Hs. Qed.

Lemma row_1 (d : list Q) i : i < length d → row 1 d i = [nth i d 0%Q].
Proof.
  intros Hi. unfold row. rewrite Nat.mul_1_r.
  revert i Hi. induction d as [|x d IH]; intros i Hi; simpl in *; [lia|].
  destruct i as [|i]; simpl.
  - by rewrite take_0.
  - apply IH. lia.
Qed.

Lemma index_vector (d : list Q) (idx : list nat) :
  Forall (λ i, i < length d) idx →
  index (Tensor [length d] d) idx
  = Ok (Tensor [length idx] (map (λ i, nth i d 0%Q) idx)).
Proof.
  intros Hidx. unfold index. simpl.
  assert (forallb (λ i, i <? length d) idx = true) as ->.
  { apply forallb_forall. intros i Hi. apply Nat.ltb_lt.
    rewrite Forall_forall in Hidx. apply Hidx. by apply list_elem_of_In. }
  do 2 f_equal.
  induction Hidx as [|i idx Hi _ IH]; simpl; [reflexivity|].
  rewrite row_1 by done. simpl. by rewrite IH.
Qed.

Lemma squeeze_vector n (d : list Q) :
  n ≠ 1 → squeeze (Tensor [n] d) = Tensor [n] d.
Proof.
  intros Hn. unfold squeeze. simpl.
  destruct (n =? 1) eqn:E; [apply Nat.eqb_eq in E; lia|done].
Qed.

(** ** The negative sampler *)

Section SamplerFacts.
Context `{Collaborators}.

Lemma randperm_length s n : length (randperm s n).1 = n.
Proof.
  rewrite (Permutation_length (randperm_Permutation s n)). apply length_seq.
Qed.

Lemma randperm_NoDup s n : NoDup (randperm s n).1.
Proof.
  rewrite (randperm_Permutation s n). apply NoDup_seq.
Qed.

Lemma randperm_lt s n i : i ∈ (randperm s n).1 → i < n.
Proof.
  intros Hi. rewrite (randperm_Permutation s n) in Hi.
  apply elem_of_seq in Hi. lia.
Qed.

(** The sample drawn: a prefix of the permutation. *)
Lemma sample_facts s n k :
  let idx := slice_to k (randperm s n).1 in
  length idx = Nat.min k n ∧ NoDup idx ∧ Forall (λ i, i < n) idx.
Proof.
  simpl. unfold slice_to. split; [|split].
  - rewrite length_take, randperm_length. lia.
  - eapply sublist_NoDup; [apply randperm_NoDup|apply sublist_take].
  - apply Forall_forall. intros i Hi. apply (randperm_lt s).
    apply elem_of_take in Hi as (j & Hj & _).
    by eapply list_elem_of_lookup_2.
Qed.

End SamplerFacts.

Section SamplerBlock.
Context `{Collaborators}.
Lemma reshape_scalar_Ok t w t' w' :
  reshape_scalar t w = Ok (t', w') →
  w' = w ∧ data t' = data t ∧
  (dim t = 0 → shape t' = [1]) ∧ (dim t ≠ 0 → t' = t).
Proof.
  unfold reshape_scalar. destruct (dim t =? 0) eqn:E.
  - apply Nat.eqb_eq in E. intros Hv. apply lift_Ok in Hv as [Hv ->].
    unfold view1 in Hv. destruct (length (data t) =? 1); [|discriminate].
    injection Hv as <-. simpl. repeat split; try done; intros; lia.
  - apply Nat.eqb_neq in E. intros [= <- <-]. repeat split; try done; intros; lia.
Qed.

(** A scalar is reshaped to length one; every other tensor is kept. *)
Lemma reshape_scalar_dim t w t' w' :
  reshape_scalar t w = Ok (t', w') → dim t' ≠ 0.
Proof.
  intros Hr. apply reshape_scalar_Ok in Hr as (_ & _ & H0 & Hn).
  destruct (decide (dim t = 0)) as [E|E].
  - unfold dim. by rewrite (H0 E).
  - by rewrite (Hn E).
Qed.

Lemma reshape_squeeze_vector n (d : list Q) w :
  length d = n →
  reshape_scalar (squeeze (Tensor [n] d)) w = Ok (Tensor [n] d, w).
Proof.
  intros Hd. destruct (decide (n = 1)) as [->|Hn].
  - unfold reshape_scalar, squeeze, view1, lift. simpl. by rewrite Hd.
  - by rewrite squeeze_vector.
Qed.

Lemma draw_randperm_Ok n w perm w' :
  draw_randperm n w = Ok (perm, w') →
  perm = (randperm (rng w) n).1 ∧ trace w' = trace w ∧
  hgt_params w' = hgt_params w ∧ hgt_training w' = hgt_training w ∧
  ticks w' = ticks w.
Proof. unfold draw_randperm. by intros [= <- <-]. Qed.

(** What the block computes, whenever it completes. *)
Lemma sample_negatives_Ok batch neg_pred w s w' :
  sample_negatives batch neg_pred w = Ok (s, w') →
  ∃ p,
    size0 (pos_y s) = Ok p ∧
    neg_sample_indices s
    = slice_to (num_neg_samples * p)
        (randperm (rng w) (size1 (edge_label_index (question_wrong_answer batch)))).1 ∧
    index neg_pred (neg_sample_indices s) = Ok (neg_pred_sampled s) ∧
    index (squeeze (edge_label (question_wrong_answer batch))) (neg_sample_indices s)
    = Ok (neg_y s) ∧
    data (pos_y s) = data (edge_label (question_correct_answer batch)) ∧
    dim (pos_y s) ≠ 0 ∧
    trace w' = trace w ∧ hgt_params w' = hgt_params w ∧
    hgt_training w' = hgt_training w ∧ ticks w' = ticks w.
Proof.
  intros Hs. unfold sample_negatives in Hs. inv_run Hs.
  injection Hs as <- <-. simpl.
  pose proof (reshape_scalar_dim _ _ _ _ Hrun) as Hdim.
  apply reshape_scalar_Ok in Hrun as (-> & Hdata & _ & _).
  apply draw_randperm_Ok in Hrun0 as (-> & Htr & Hp & Hm & Ht).
  apply lift_Ok in Hrun1 as [Hp0 ->].
  apply lift_Ok in Hrun2 as [Hnp ->].
  apply lift_Ok in Hrun3 as [Hny ->].
  pose proof (index_Ok_dim _ _ _ Hny) as Hd.
  apply reshape_scalar_Ok in Hrun4 as (-> & _ & _ & Hkeep).
  rewrite (Hkeep Hd). exists a1. repeat split; try done.
Qed.


(** Whenever the block completes, the labels it hands on have a first
    dimension. *)
Lemma sampled_labels_not_scalar batch neg_pred w s w' :
  sample_negatives batch neg_pred w = Ok (s, w') →
  dim (pos_y s) ≠ 0 ∧ dim (neg_y s) ≠ 0.
Proof.
  intros Hs. apply sample_negatives_Ok in Hs as (p & _ & _ & _ & Hny & _ & Hd & _).
  split; [done|]. by eapply index_Ok_dim.
Qed.

Lemma index_Raise t idx e : index t idx = Raise e → e = IndexError.
Proof.
  unfold index. destruct (shape t); [congruence|].
  destruct (forallb _ idx); congruence.
Qed.

(** A batch with exactly one wrong-answer edge: its label vector is
    squeezed to a scalar before it is indexed. *)
Lemma single_negative_label_raises batch neg_pred w P pos_labels :
  edge_label (question_correct_answer batch) = Tensor [P] pos_labels →
  length pos_labels = P →
  shape (edge_label (question_wrong_answer batch)) = [1] →
  sample_negatives batch neg_pred w = Raise IndexError.
Proof.
  intros Hpos Hlen Hneg. unfold sample_negatives.
  rewrite Hpos.
  rewrite (bind_step _ _ _ _ _ (reshape_squeeze_vector P pos_labels w Hlen)).
  unfold bind at 1. unfold draw_randperm at 1.
  unfold bind at 1. unfold lift at 1, size0 at 1. simpl shape.
  unfold bind at 1. unfold lift at 1.
  destruct (index neg_pred _) as [t|e] eqn:E.
  - unfold bind at 1. unfold lift at 1.
    rewrite index_scalar; [done|].
    unfold squeeze. simpl. by rewrite Hneg.
  - by rewrite (index_Raise _ _ _ E).
Qed.

End SamplerBlock.

(** C1: for every batch, the negative sampler draws [min(2*P, N_neg)]
    indices, the first [2*P] of a permutation of the [N_neg] negative
    edges drawn at random, so they are pairwise distinct and below
    [N_neg]; the negative predictions and labels it returns are those at
    the sampled positions.  The first part holds whenever the block
    completes; the second says that it does complete on label and
    prediction vectors, and spells out what is selected. *)
Theorem C1_negative_sampler `{Collaborators}
    (batch : Batch) (neg_pred : tensor) (w : world) :
  let N := size1 (edge_label_index (question_wrong_answer batch)) in
  (∀ s w', sample_negatives batch neg_pred w = Ok (s, w') →
     ∃ P, size0 (pos_y s) = Ok P ∧
       neg_sample_indices s = take (2 * P) (randperm (rng w) N).1 ∧
       length (neg_sample_indices s) = Nat.min (2 * P) N ∧
       NoDup (neg_sample_indices s) ∧
       Forall (λ i, i < N) (neg_sample_indices s) ∧
       index neg_pred (neg_sample_indices s) = Ok (neg_pred_sampled s) ∧
       index (squeeze (edge_label (question_wrong_answer batch)))
             (neg_sample_indices s) = Ok (neg_y s))
  ∧
  (∀ P pos_labels neg_labels preds,
     edge_label (question_correct_answer batch) = Tensor [P] pos_labels →
     length pos_labels = P →
     edge_label (question_wrong_answer batch) = Tensor [N] neg_labels →
     length neg_labels = N →
     neg_pred = Tensor [N] preds →
     length preds = N →
     N ≠ 1 →
     ∃ s w', sample_negatives batch neg_pred w = Ok (s, w') ∧
       pos_y s = Tensor [P] pos_labels ∧
       length (neg_sample_indices s) = Nat.min (2 * P) N ∧
       NoDup (neg_sample_indices s) ∧
       neg_pred_sampled s
       = Tensor [length (neg_sample_indices s)]
                (map (λ i, nth i preds 0%Q) (neg_sample_indices s)) ∧
       neg_y s
       = Tensor [length (neg_sample_indices s)]
                (map (λ i, nth i neg_labels 0%Q) (neg_sample_indices s))).
Proof.
  intros N. split.
  - intros s w' Hs.
    apply sample_negatives_Ok in Hs as (P & HP & Hidx & Hnp & Hny & _).
    exists P. fold N in Hidx.
    destruct (sample_facts (rng w) N (2 * P)) as (Hlen & Hnd & Hlt).
    change (num_neg_samples * P) with (2 * P) in Hidx.
    rewrite <- Hidx in Hlen, Hnd, Hlt. by repeat split.
  - intros P pos_labels neg_labels preds Hpos HlenP Hneg HlenN -> HlenQ HN.
    destruct (sample_facts (rng w) N (2 * P)) as (Hlen & Hnd & Hlt).
    set (idx := slice_to (2 * P) (randperm (rng w) N).1) in *.
    unfold sample_negatives. rewrite Hpos, Hneg.
    rewrite (bind_step _ _ _ _ _ (reshape_squeeze_vector P pos_labels w HlenP)).
    rewrite squeeze_vector by done.
    unfold bind at 1. unfold draw_randperm at 1.
    unfold bind at 1. unfold lift at 1, size0 at 1. cbn [shape]. cbv beta iota.
    fold N. change (num_neg_samples * P) with (2 * P). fold idx.
    assert (index (Tensor [N] preds) idx
            = Ok (Tensor [length idx] (map (λ i, nth i preds 0%Q) idx))) as Hp.
    { rewrite <- HlenQ at 1. apply index_vector. by rewrite HlenQ. }
    assert (index (Tensor [N] neg_labels) idx
            = Ok (Tensor [length idx] (map (λ i, nth i neg_labels 0%Q) idx))) as Hl.
    { rewrite <- HlenN at 1. apply index_vector. by rewrite HlenN. }
    unfold bind at 1. unfold lift at 1. rewrite Hp. 
    unfold bind at 1. unfold lift at 1. rewrite Hl.
    unfold bind at 1. unfold reshape_scalar, ret. simpl.
    eexists _, _. split; [reflexivity|]. simpl. by repeat split.
Qed.

Lemma C1_negative_sampler_witness :
  ∃ s w',
    @sample_negatives Toy.collaborators (Toy.batch_of 1)
      (Tensor [3] [10%Q; 11%Q; 12%Q]) Toy.world0 = Ok (s, w') ∧
    pos_y s = Tensor [1] [1%Q] ∧
    length (neg_sample_indices s) = Nat.min (2 * 1) 3 ∧
    NoDup (neg_sample_indices s) ∧
    neg_pred_sampled s
    = Tensor [length (neg_sample_indices s)]
             (map (λ i, nth i [10%Q; 11%Q; 12%Q] 0%Q) (neg_sample_indices s)) ∧
    neg_y s
    = Tensor [length (neg_sample_indices s)]
             (map (λ i, nth i [0%Q; 0%Q; 0%Q] 0%Q) (neg_sample_indices s)).
Proof.
  apply (proj2 (@C1_negative_sampler Toy.collaborators (Toy.batch_of 1)
                  (Tensor [3] [10%Q; 11%Q; 12%Q]) Toy.world0)
               1 [1%Q] [0%Q; 0%Q; 0%Q] [10%Q; 11%Q; 12%Q]);
    try reflexivity.
  vm_compute. lia.
Defined.

(** C4 (what the code does): a batch with a single wrong-answer edge
    stops both loops with an [IndexError]: the label vector of length one
    is squeezed to a scalar, which cannot be indexed, before the guard
    that would reshape it is reached. *)
Theorem C4_single_negative_edge_raises :
  @sample_negatives Toy.collaborators Toy.batch_single_negative
    (Tensor [1] [0%Q]) Toy.world0 = Raise IndexError
  ∧ @train_batch Toy.collaborators Toy.feedbacks (3 # 10) (7 # 10)
      {| opt := (1 # 100 : @opt_state Toy.collaborators); train_losses := [];
         train_link_lists := no_link_lists |}
      Toy.batch_single_negative Toy.world0 = Raise IndexError
  ∧ @evaluate_batch Toy.collaborators Toy.rows Toy.feedbacks Toy.subgraphs
      0 Toy.batch_single_negative no_eval_lists Toy.world0 = Raise IndexError.
Proof.
  split; [|split].
  - by eapply single_negative_label_raises.
  - vm_compute. reflexivity.
  - vm_compute. reflexivity.
Qed.

(** ** The loss of a training batch *)

Section LossFacts.
Context `{Collaborators}.

Lemma forward_Ok batch w r w' :
  forward batch w = Ok (r, w') →
  r = hgt_forward (hgt_params w) (hgt_training w) batch ∧
  w' = log [ModelForward (hgt_training w) batch] w.
Proof. unfold forward. by intros [= <- <-]. Qed.

(** What a training batch adds to the locals of its epoch. *)
Lemma train_batch_Ok fb lw rw st batch w st' w' :
  train_batch fb lw rw st batch w = Ok (st', w') →
  ∃ s w1,
    sample_negatives batch (hgt_forward (hgt_params w) (hgt_training w) batch).1.2
      (log [ModelForward (hgt_training w) batch] w) = Ok (s, w1) ∧
    train_losses st'
    = train_losses st ++
      [total_loss_of lw rw
         (compute_link_prediction_loss
            (hgt_forward (hgt_params w) (hgt_training w) batch).1.1
            (neg_pred_sampled s) (pos_y s) (neg_y s))
         (compute_llm_relevancy_loss batch
            (hgt_forward (hgt_params w) (hgt_training w) batch).2 fb)] ∧
    train_link_lists st'
    = append_link (train_link_lists st)
        (hgt_forward (hgt_params w) (hgt_training w) batch).1.1
        (neg_pred_sampled s) (to_long (pos_y s)) (to_long (neg_y s)) ∧
    trace w' = trace w ++ [ModelForward (hgt_training w) batch].
Proof.
  intros Hb. unfold train_batch in Hb.
  apply bind_Ok in Hb as ([[pos_pred neg_pred] z_dict] & w0 & Hf & Hb).
  apply forward_Ok in Hf as [Hf ->].
  apply bind_Ok in Hb as (s & w1 & Hs & Hb).
  apply bind_Ok in Hb as (p & w2 & Hp & Hb).
  injection Hp as <- <-.
  apply bind_Ok in Hb as ([] & w3 & Hsp & Hb).
  injection Hsp as <-. injection Hb as <- <-.
  rewrite <- Hf. simpl. exists s, w1. split; [done|].
  apply sample_negatives_Ok in Hs as (_ & _ & _ & _ & _ & _ & _ & Htr & _).
  by rewrite Htr.
Qed.

End LossFacts.

(** C2: the loss of a training batch is the weighted sum
    [w * link_prediction_loss + (1 - w) * llm_relevancy_loss] of the two
    losses of that batch and nothing else; the two weights sum to one
    whatever [w] is, and for [w = 0.3] the loss is
    [0.3 * L1 + 0.7 * L2].  (Numbers are exact rationals here.) *)
Theorem C2_total_loss `{Collaborators}
    (fb : gmap nat LLMFeedback) (link_prediction_loss_weight : Q)
    (st st' : TrainLists) (batch : Batch) (w w' : world) :
  train_batch fb link_prediction_loss_weight
    (llm_relevancy_loss_weight_of link_prediction_loss_weight) st batch w
  = Ok (st', w') →
  (link_prediction_loss_weight
   + llm_relevancy_loss_weight_of link_prediction_loss_weight == 1)%Q
  ∧ ∃ s w1 total_loss,
      sample_negatives batch (hgt_forward (hgt_params w) (hgt_training w) batch).1.2
        (log [ModelForward (hgt_training w) batch] w) = Ok (s, w1) ∧
      let link_prediction_loss :=
        compute_link_prediction_loss
          (hgt_forward (hgt_params w) (hgt_training w) batch).1.1
          (neg_pred_sampled s) (pos_y s) (neg_y s) in
      let llm_relevancy_loss :=
        compute_llm_relevancy_loss batch
          (hgt_forward (hgt_params w) (hgt_training w) batch).2 fb in
      train_losses st' = train_losses st ++ [total_loss] ∧
      (total_loss == link_prediction_loss_weight * link_prediction_loss
                     + (1 - link_prediction_loss_weight) * llm_relevancy_loss)%Q ∧
      ((link_prediction_loss_weight == 3 # 10)%Q →
       (total_loss == (3 # 10) * link_prediction_loss
                      + (7 # 10) * llm_relevancy_loss)%Q).
Proof.
  intros Hb. split.
  - unfold llm_relevancy_loss_weight_of. ring.
  - apply train_batch_Ok in Hb as (s & w1 & Hs & Hl & _).
    eexists s, w1, _. split; [exact Hs|]. split; [exact Hl|].
    unfold total_loss_of, llm_relevancy_loss_weight_of. split.
    + reflexivity.
    + intros ->. ring.
Qed.

Lemma C2_total_loss_witness :
  ∃ st' w',
    @train_batch Toy.collaborators Toy.feedbacks (3 # 10)
      (llm_relevancy_loss_weight_of (3 # 10))
      {| opt := (1 # 100 : @opt_state Toy.collaborators);
         train_losses := []; train_link_lists := no_link_lists |}
      (Toy.batch_of 1) Toy.world0 = Ok (st', w') ∧
    ∃ total_loss,
      train_losses st' = [total_loss] ∧
      (total_loss == (3 # 10) * 4 + (7 # 10) * (1 # 2))%Q.
Proof.
  eexists _, _. split; [vm_compute; reflexivity|].
  destruct (@C2_total_loss Toy.collaborators Toy.feedbacks (3 # 10)
              {| opt := (1 # 100 : @opt_state Toy.collaborators);
                 train_losses := []; train_link_lists := no_link_lists |}
              _ (Toy.batch_of 1) Toy.world0 _ eq_refl)
    as (_ & s & w1 & total_loss & Hs & Hl & _ & H03).
  exists total_loss. split; [exact Hl|].
  injection Hs as <- _. apply H03. reflexivity.
Defined.

(** ** The questions of a batch *)

Section QuestionFacts.
Context `{Collaborators}.

Lemma log_log evs1 evs2 (w : world) : log evs2 (log evs1 w) = log (evs1 ++ evs2) w.
Proof. unfold log. simpl. by rewrite <- app_assoc. Qed.

Lemma log_nil (w : world) : log [] w = w.
Proof. destruct w. unfold log. simpl. by rewrite app_nil_r. Qed.


Lemma forward_batches_app tr1 tr2 :
  forward_batches (tr1 ++ tr2) = forward_batches tr1 ++ forward_batches tr2.
Proof. unfold forward_batches. apply omap_app. Qed.

(** The context branch, once its three lookups succeed: one retrieval of
    the two most relevant nodes, one call of the LLM, and either the
    notice or the four appends. *)
Lemma ask_with_context_run i batch z_dict qa_dataset mapping repr uid fb lists w
    subgraph_tuples dataset_row letter :
  mapping !! uid = Some subgraph_tuples →
  qa_dataset !! uid = Some dataset_row →
  correct_answer_map (cop dataset_row) = Ok letter →
  let prompt :=
    context_prompt
      (find_most_relevant_nodes batch z_dict repr subgraph_tuples 2) dataset_row in
  let llm_response_dict := llm_get_confidence letter (llm_inference prompt) in
  ask_with_context i batch z_dict qa_dataset mapping repr uid fb lists w
  = if Qeq_bool (confidence llm_response_dict) (-1)
    then Ok (lists,
             log [FindMostRelevantNodes subgraph_tuples 2; LlmInference prompt;
                  Print (wrong_format_notice i)] w)
    else Ok (accumulate lists (cop_confidence llm_response_dict)
               (accuracy llm_response_dict)
               (cop_confidence_without_context fb)
               (is_correct_without_context fb),
             log [FindMostRelevantNodes subgraph_tuples 2; LlmInference prompt] w).
Proof.
  intros Hm Hq Hl. simpl. unfold ask_with_context.
  unfold dict_getitem, list_getitem. rewrite Hm, Hq. simpl or_raise.
  unfold bind at 1. unfold lift at 1.
  unfold bind at 1. unfold emit at 1.
  unfold bind at 1. unfold lift at 1.
  unfold bind at 1. unfold emit at 1.
  rewrite Hl.
  unfold bind at 1. unfold lift at 1.
  rewrite log_log. simpl app.
  destruct (Qeq_bool _ _).
  - unfold bind, emit, ret. by rewrite log_log.
  - reflexivity.
Qed.

(** The context branch never completes without having called the LLM
    exactly once. *)
Lemma ask_with_context_Ok i batch z_dict qa_dataset mapping repr uid fb lists w lists' w' :
  ask_with_context i batch z_dict qa_dataset mapping repr uid fb lists w = Ok (lists', w') →
  ∃ subgraph_tuples prompt notice,
    w' = log ([FindMostRelevantNodes subgraph_tuples 2; LlmInference prompt] ++ notice) w ∧
    (notice = [] ∨ notice = [Print (wrong_format_notice i)]).
Proof.
  intros Ha.
  destruct (mapping !! uid) as [tuples|] eqn:Hm; cycle 1.
  { unfold ask_with_context, dict_getitem in Ha. rewrite Hm in Ha. discriminate. }
  destruct (qa_dataset !! uid) as [dataset_row|] eqn:Hq; cycle 1.
  { unfold ask_with_context, dict_getitem, list_getitem in Ha.
    rewrite Hm, Hq in Ha. discriminate. }
  destruct (correct_answer_map (cop dataset_row)) as [letter|e] eqn:Hl; cycle 1.
  { unfold ask_with_context, dict_getitem, list_getitem in Ha.
    rewrite Hm, Hq in Ha. unfold bind, lift, emit in Ha. simpl in Ha.
    rewrite Hl in Ha. discriminate. }
  rewrite (ask_with_context_run _ _ _ _ _ _ _ _ _ _ _ _ _ Hm Hq Hl) in Ha.
  destruct (Qeq_bool _ _); injection Ha as <- <-.
  - eexists tuples, _, [Print _]. split; [done|by right].
  - eexists tuples, _, []. rewrite app_nil_r. split; [done|by left].
Qed.

(** The body of the loop over the questions, for a question that has
    feedback. *)
Lemma evaluate_question_with_feedback i batch z_dict qa_dataset fbs mapping lists
    question_index w repr uid fb :
  index_select_question z_dict question_index = Some repr →
  question_node_uid batch !! question_index = Some uid →
  fbs !! uid = Some fb →
  evaluate_question i batch z_dict qa_dataset fbs mapping lists question_index w
  = if PyNum.Qltb (cop_confidence_without_context fb) low_confidence
    then ask_with_context i batch z_dict qa_dataset mapping repr uid fb lists w
    else Ok (accumulate lists
               (cop_confidence_without_context fb) (is_correct_without_context fb)
               (cop_confidence_without_context fb) (is_correct_without_context fb),
             w).
Proof.
  intros Hr Hu Hf. unfold evaluate_question, list_getitem.
  rewrite Hr, Hu. simpl or_raise.
  unfold bind at 1. unfold lift at 1.
  unfold bind at 1. unfold lift at 1.
  rewrite Hf. by destruct (PyNum.Qltb _ _).
Qed.

End QuestionFacts.



(** ** A malformed answer of the LLM *)

Section MalformedFacts.
Context `{Collaborators}.

Lemma average_nil : average [] = Ok 0%Q.
Proof. reflexivity. Qed.

(** A batch none of whose questions left a data point adds its tensors
    to the link-prediction lists and nothing to the LLM averages. *)
Lemma record_batch_averages_nil acc link w :
  record_batch_averages acc link no_question_lists w
  = Ok ({| link_lists := link;
           average_llm_aided_confidence_list := average_llm_aided_confidence_list acc;
           average_llm_aided_accuracy_list := average_llm_aided_accuracy_list acc;
           average_llm_vanilla_confidence_list := average_llm_vanilla_confidence_list acc;
           average_llm_vanilla_accuracy_list := average_llm_vanilla_accuracy_list acc |},
        w).
Proof. reflexivity. Qed.

End MalformedFacts.

(** C5: when the LLM's answer to a low-confidence question comes back
    malformed ([confidence == -1]), the question adds no entry to any of
    the batch's LLM lists, the notice is printed, and the loop goes on
    with the next question.  If it was the only question of its batch,
    the batch's four averages are 0; the batch's tensors are in the
    link-prediction lists all the same. *)
Theorem C5_malformed_response `{Collaborators}
    (i : nat) (batch : Batch) (z_dict : zdict) (qa_dataset : list DatasetRow)
    (fbs : gmap nat LLMFeedback) (mapping : gmap nat (list (string * nat)))
    (question_index : nat) (repr : tensor) (uid : nat) (fb : LLMFeedback)
    (subgraph_tuples : list (string * nat)) (dataset_row : DatasetRow)
    (letter : string) :
  index_select_question z_dict question_index = Some repr →
  question_node_uid batch !! question_index = Some uid →
  fbs !! uid = Some fb →
  (cop_confidence_without_context fb < low_confidence)%Q →
  mapping !! uid = Some subgraph_tuples →
  qa_dataset !! uid = Some dataset_row →
  correct_answer_map (cop dataset_row) = Ok letter →
  let prompt :=
    context_prompt
      (find_most_relevant_nodes batch z_dict repr subgraph_tuples 2) dataset_row in
  (confidence (llm_get_confidence letter (llm_inference prompt)) == -1)%Q →
  let step := evaluate_question i batch z_dict qa_dataset fbs mapping in
  let after :=
    log [FindMostRelevantNodes subgraph_tuples 2; LlmInference prompt;
         Print (wrong_format_notice i)] in
  (∀ lists w, step lists question_index w = Ok (lists, after w))
  ∧ (∀ lists rest w,
       for_each step (question_index :: rest) lists w
       = for_each step rest lists (after w))
  ∧ (∀ w, ∃ lists',
       for_each step [question_index] no_question_lists w = Ok (lists', after w)
       ∧ average (vanilla_confidence_list lists') = Ok 0%Q
       ∧ average (vanilla_accuracy_list lists') = Ok 0%Q
       ∧ average (llm_aided_confidence_list lists') = Ok 0%Q
       ∧ average (llm_aided_accuracy_list lists') = Ok 0%Q)
  ∧ (∀ acc w0 pos_pred neg_pred s w1,
       eli_src (edge_label_index (question_correct_answer batch)) = [question_index] →
       hgt_forward (hgt_params w0) (hgt_training w0) batch
       = (pos_pred, neg_pred, z_dict) →
       sample_negatives batch neg_pred (log [ModelForward (hgt_training w0) batch] w0)
       = Ok (s, w1) →
       evaluate_batch qa_dataset fbs mapping i batch acc w0
       = Ok ({| link_lists :=
                  append_link (link_lists acc) pos_pred (neg_pred_sampled s)
                    (pos_y s) (neg_y s);
                average_llm_aided_confidence_list :=
                  average_llm_aided_confidence_list acc;
                average_llm_aided_accuracy_list :=
                  average_llm_aided_accuracy_list acc;
                average_llm_vanilla_confidence_list :=
                  average_llm_vanilla_confidence_list acc;
                average_llm_vanilla_accuracy_list :=
                  average_llm_vanilla_accuracy_list acc |},
             after w1)).
Proof.
  intros Hr Hu Hf Hlow Hm Hq Hl prompt Hbad step after.
  assert (∀ lists w, step lists question_index w = Ok (lists, after w)) as Hstep.
  { intros lists w. unfold step.
    rewrite (evaluate_question_with_feedback _ _ _ _ _ _ _ _ _ _ _ _ Hr Hu Hf).
    apply Qltb_lt in Hlow. rewrite Hlow.
    rewrite (ask_with_context_run _ _ _ _ _ _ _ _ _ _ _ _ _ Hm Hq Hl).
    fold prompt. apply Qeq_bool_iff in Hbad. by rewrite Hbad. }
  assert (∀ lists rest w,
            for_each step (question_index :: rest) lists w
            = for_each step rest lists (after w)) as Hnext.
  { intros lists rest w. simpl. unfold bind. by rewrite Hstep. }
  split; [exact Hstep|]. split; [exact Hnext|]. split.
  - intros w. exists no_question_lists. rewrite Hnext. by repeat split.
  - intros acc w0 pos_pred neg_pred s w1 Hqs Hfw Hs.
    unfold evaluate_batch.
    unfold bind at 1. unfold forward at 1. rewrite Hfw.
    unfold bind at 1. rewrite Hs.
    rewrite Hqs. fold step.
    unfold bind at 1. rewrite Hnext. simpl for_each. unfold ret at 1.
    apply record_batch_averages_nil.
Qed.

Lemma C5_malformed_response_witness :
  (∀ lists w,
     @evaluate_question Toy.collaborators 0 (Toy.batch_of 0) tt Toy.rows
       Toy.feedbacks Toy.subgraphs lists 0 w
     = Ok (lists,
           log [FindMostRelevantNodes
                  [("drug"%string, 7); ("disease"%string, 8); ("gene"%string, 9)] 2;
                LlmInference
                  "Context: drug,disease. Question: q0 A. a B. b C. c D. d";
                Print "Wrong response format. Question 0 ignored during eval"] w))
  ∧ ∃ acc' w',
      @evaluate_batch Toy.collaborators Toy.rows Toy.feedbacks Toy.subgraphs 0
        (Toy.batch_of 0) no_eval_lists Toy.world0 = Ok (acc', w')
      ∧ pos_y_true_tensors (link_lists acc') = [Tensor [1] [1%Q]]
      ∧ average_llm_aided_accuracy_list acc' = [].
Proof.
  destruct (@C5_malformed_response Toy.collaborators 0 (Toy.batch_of 0) tt Toy.rows
              Toy.feedbacks Toy.subgraphs 0 (Tensor [1; 1] [0%Q]) 0
              {| cop_confidence_without_context := 1 # 10;
                 is_correct_without_context := 0%Q |}
              [("drug"%string, 7); ("disease"%string, 8); ("gene"%string, 9)]
              {| question := "q0"; opa := "a"; opb := "b"; opc := "c"; opd := "d";
                 cop := 3%Z |}
              "D"%string eq_refl eq_refl eq_refl eq_refl eq_refl eq_refl eq_refl
              eq_refl) as (Hstep & _ & _ & Hbatch).
  split; [exact Hstep|].
  eexists _, _. split.
  - eapply Hbatch; [reflexivity|reflexivity|vm_compute; reflexivity].
  - split; reflexivity.
Defined.

(** ** Averages *)

Lemma max_1_ge x : (1 <= PyNum.max 1 x)%Q.
Proof.
  unfold PyNum.max. destruct (PyNum.Qltb 1 x) eqn:E.
  - apply Qltb_lt in E. by apply Qlt_le_weak.
  - apply Qle_refl.
Qed.

Lemma truediv_floored a x :
  PyNum.truediv a (PyNum.max 1 x) = Ok (a / PyNum.max 1 x)%Q.
Proof.
  unfold PyNum.truediv. destruct (Qeq_bool (PyNum.max 1 x) 0) eqn:E; [|done].
  apply Qeq_bool_iff in E. pose proof (max_1_ge x) as Hge.
  rewrite E in Hge. exfalso. revert Hge. apply Qlt_not_le. reflexivity.
Qed.

Lemma average_Ok l : average l = Ok (PyNum.sum l / PyNum.max 1 (PyNum.len l))%Q.
Proof. apply truediv_floored. Qed.

(** ** No division by zero in the evaluation loop *)

Section NoZeroDivision.
Context `{Collaborators}.

Lemma bind_no_zde {A B} (m : M A) (k : A → M B) :
  (∀ w, m w ≠ Raise ZeroDivisionError) →
  (∀ a w, k a w ≠ Raise ZeroDivisionError) →
  ∀ w, bind m k w ≠ Raise ZeroDivisionError.
Proof.
  intros Hm Hk w Hb. apply bind_Raise in Hb as [Hb|(a & w1 & _ & Hb)].
  - by apply (Hm w).
  - by apply (Hk a w1).
Qed.

Lemma lift_no_zde {A} (r : result A) :
  r ≠ Raise ZeroDivisionError → ∀ w, lift r w ≠ Raise ZeroDivisionError.
Proof. intros Hr w Hl. by apply lift_Raise in Hl. Qed.

Lemma or_raise_no_zde {A} e (o : option A) :
  e ≠ ZeroDivisionError → or_raise e o ≠ Raise ZeroDivisionError.
Proof. intros He. destruct o; simpl; congruence. Qed.

Lemma for_each_no_zde {A St} (body : St → A → M St) :
  (∀ s x w, body s x w ≠ Raise ZeroDivisionError) →
  ∀ xs s w, for_each body xs s w ≠ Raise ZeroDivisionError.
Proof.
  intros Hbody xs. induction xs as [|x xs IH]; intros s w; simpl; [done|].
  apply bind_no_zde; [apply Hbody|apply IH].
Qed.

Lemma enumerate_until_no_zde {B St} nb (body : nat → B → St → M St) :
  (∀ i b s w, body i b s w ≠ Raise ZeroDivisionError) →
  ∀ loader i s w, enumerate_until nb body i loader s w ≠ Raise ZeroDivisionError.
Proof.
  intros Hbody loader. induction loader as [|b loader IH]; intros i s w; simpl; [done|].
  apply bind_no_zde; [apply Hbody|]. intros s' w'.
  destruct (_ >=? _)%Z; [done|apply IH].
Qed.

Lemma view1_no_zde t : view1 t ≠ Raise ZeroDivisionError.
Proof. unfold view1. by destruct (_ =? _). Qed.

Lemma index_no_zde t idx : index t idx ≠ Raise ZeroDivisionError.
Proof. intros Hi. by apply index_Raise in Hi. Qed.

Lemma size0_no_zde t : size0 t ≠ Raise ZeroDivisionError.
Proof. unfold size0. by destruct (shape t). Qed.

Lemma cat_rows_no_zde rest ts : cat_rows rest ts ≠ Raise ZeroDivisionError.
Proof.
  induction ts as [|t ts IH]; simpl; [done|].
  destruct (shape t); [done|]. destruct (decide _); [|done].
  destruct (cat_rows rest ts) as [[m ds]|err]; simpl; congruence.
Qed.

Lemma cat_no_zde ts : cat ts ≠ Raise ZeroDivisionError.
Proof.
  unfold cat. destruct ts as [|t ts]; [done|]. destruct (shape t); [done|].
  pose proof (cat_rows_no_zde l (t :: ts)) as Hc.
  destruct (cat_rows l (t :: ts)) as [[m ds]|err]; simpl; congruence.
Qed.

Lemma concatenate_no_zde a b : concatenate a b ≠ Raise ZeroDivisionError.
Proof. unfold concatenate. by destruct (cat [a; b]). Qed.

Lemma correct_answer_map_no_zde c : correct_answer_map c ≠ Raise ZeroDivisionError.
Proof. unfold correct_answer_map. destruct c as [|[[|[]|]|[]|]|]; done. Qed.

Lemma reshape_scalar_no_zde t w : reshape_scalar t w ≠ Raise ZeroDivisionError.
Proof.
  unfold reshape_scalar. destruct (_ =? _); [|done].
  apply lift_no_zde, view1_no_zde.
Qed.

Lemma sample_negatives_no_zde batch neg_pred w :
  sample_negatives batch neg_pred w ≠ Raise ZeroDivisionError.
Proof.
  unfold sample_negatives. revert w.
  apply bind_no_zde; [apply reshape_scalar_no_zde|]. intros pos_y.
  apply bind_no_zde; [done|]. intros perm.
  apply bind_no_zde; [apply lift_no_zde, size0_no_zde|]. intros p.
  apply bind_no_zde; [apply lift_no_zde, index_no_zde|]. intros np.
  apply bind_no_zde; [apply lift_no_zde, index_no_zde|]. intros ny.
  apply bind_no_zde; [apply reshape_scalar_no_zde|]. done.
Qed.

Lemma ask_with_context_no_zde i batch z_dict qa_dataset mapping repr uid fb lists w :
  ask_with_context i batch z_dict qa_dataset mapping repr uid fb lists w
  ≠ Raise ZeroDivisionError.
Proof.
  unfold ask_with_context. revert w.
  apply bind_no_zde; [apply lift_no_zde; by apply or_raise_no_zde|]. intros tuples.
  apply bind_no_zde; [done|]. intros _.
  apply bind_no_zde; [apply lift_no_zde; by apply or_raise_no_zde|]. intros dataset_row.
  apply bind_no_zde; [done|]. intros _.
  apply bind_no_zde; [apply lift_no_zde, correct_answer_map_no_zde|]. intros letter.
  destruct (Qeq_bool _ _); [|done].
  apply bind_no_zde; done.
Qed.

Lemma evaluate_question_no_zde i batch z_dict qa_dataset fbs mapping lists qi w :
  evaluate_question i batch z_dict qa_dataset fbs mapping lists qi w
  ≠ Raise ZeroDivisionError.
Proof.
  unfold evaluate_question. revert w.
  apply bind_no_zde; [apply lift_no_zde; by apply or_raise_no_zde|]. intros repr.
  apply bind_no_zde; [apply lift_no_zde; by apply or_raise_no_zde|]. intros uid w.
  destruct (fbs !! uid) as [fb|]; [|done].
  destruct (PyNum.Qltb _ _); [apply ask_with_context_no_zde|done].
Qed.

Lemma record_batch_averages_Ok acc link lists w :
  ∃ acc', record_batch_averages acc link lists w = Ok (acc', w).
Proof.
  unfold record_batch_averages. rewrite !average_Ok.
  unfold bind, lift. destruct (PyNum.Qltb _ _); by eexists.
Qed.

Lemma evaluate_batch_no_zde qa_dataset fbs mapping i batch acc w :
  evaluate_batch qa_dataset fbs mapping i batch acc w ≠ Raise ZeroDivisionError.
Proof.
  unfold evaluate_batch. revert w.
  apply bind_no_zde; [done|]. intros [[pos_pred neg_pred] z_dict].
  apply bind_no_zde; [apply sample_negatives_no_zde|]. intros s.
  apply bind_no_zde.
  - apply for_each_no_zde. intros. apply evaluate_question_no_zde.
  - intros lists w. by destruct (record_batch_averages_Ok acc
      (append_link (link_lists acc) pos_pred (neg_pred_sampled s) (pos_y s) (neg_y s))
      lists w) as [acc' ->].
Qed.

Lemma llm_results_of_Ok acc w :
  llm_results_of acc w
  = Ok ({| vanilla_accuracy :=
             (PyNum.sum (average_llm_vanilla_accuracy_list acc)
              / PyNum.max 1 (PyNum.len (average_llm_vanilla_accuracy_list acc)))%Q;
           context_accuracy :=
             (PyNum.sum (average_llm_aided_accuracy_list acc)
              / PyNum.max 1 (PyNum.len (average_llm_aided_accuracy_list acc)))%Q |},
        w).
Proof. unfold llm_results_of. by rewrite !average_Ok. Qed.

Lemma concat_link_no_zde l w : concat_link l w ≠ Raise ZeroDivisionError.
Proof.
  unfold concat_link. revert w.
  do 4 (apply bind_no_zde; [apply lift_no_zde, cat_no_zde|]; intros ?).
  do 2 (apply bind_no_zde; [apply lift_no_zde, concatenate_no_zde|]; intros ?).
  done.
Qed.

Lemma evaluate_no_zde split_loaders split_name qa_dataset fbs mapping frac w :
  evaluate split_loaders split_name qa_dataset fbs mapping frac w
  ≠ Raise ZeroDivisionError.
Proof.
  unfold evaluate. revert w.
  apply bind_no_zde; [done|]. intros _.
  apply bind_no_zde; [apply lift_no_zde; by apply or_raise_no_zde|]. intros loader.
  apply bind_no_zde; [done|]. intros _.
  apply bind_no_zde.
  { apply enumerate_until_no_zde. intros. apply evaluate_batch_no_zde. }
  intros acc.
  apply bind_no_zde; [done|]. intros _.
  apply bind_no_zde; [apply concat_link_no_zde|]. intros [pred true'].
  apply bind_no_zde; [|done].
  intros w. by rewrite llm_results_of_Ok.
Qed.

End NoZeroDivision.

(** C6: every average of the evaluation loop divides by
    [max(1, len(l))], which is at least 1: the four averages of a batch
    and the two of the run are always defined, an empty list averages to
    0, empty final lists give vanilla and context accuracy 0, and
    [evaluate] never ends in a [ZeroDivisionError]. *)
Theorem C6_no_division_by_zero `{Collaborators} :
  (∀ l : list Q,
     (1 <= PyNum.max 1 (PyNum.len l))%Q
     ∧ average l = Ok (PyNum.sum l / PyNum.max 1 (PyNum.len l))%Q)
  ∧ average [] = Ok 0%Q
  ∧ (∀ acc link lists w,
       ∃ acc', record_batch_averages acc link lists w = Ok (acc', w))
  ∧ (∀ acc w, ∃ r, llm_results_of acc w = Ok (r, w))
  ∧ (∀ w, llm_results_of no_eval_lists w
          = Ok ({| vanilla_accuracy := 0%Q; context_accuracy := 0%Q |}, w))
  ∧ (∀ split_loaders split_name qa_dataset fbs mapping frac w,
       evaluate split_loaders split_name qa_dataset fbs mapping frac w
       ≠ Raise ZeroDivisionError).
Proof.
  split; [|split; [|split; [|split; [|split]]]].
  - intros l. split; [apply max_1_ge|apply average_Ok].
  - reflexivity.
  - apply record_batch_averages_Ok.
  - intros acc w. eexists. apply llm_results_of_Ok.
  - reflexivity.
  - apply evaluate_no_zde.
Qed.

(** ** The total training time *)

Lemma int_sum_foldr (l : list Z) : Training.int_sum l = foldr Z.add 0%Z l.
Proof.
  unfold Training.int_sum.
  assert (∀ a, fold_left Z.add l a = (a + foldr Z.add 0 l)%Z) as Hgen.
  { induction l as [|x l IH]; intros a; simpl; [lia|]. rewrite IH. lia. }
  by rewrite Hgen.
Qed.

(** C7: [get_total_train_time_min] is the sum over the epoch results of
    [train_end_time - train_start_time], divided by 60 rounding down;
    for two epochs from 100 to 160 and from 200 to 245 it is
    [(60 + 45) // 60 = 1]. *)
Theorem C7_total_train_time_min :
  (∀ SD (self : Training.ModelResult SD),
     Training.get_total_train_time_min self
     = (foldr (λ er total,
                 Training.train_end_time er - Training.train_start_time er + total)
              0 (Training.epoch_results self) / 60)%Z)
  ∧ (∀ SD (start_time end_time : Z) (state_dict : SD) (test_acc : Q)
       (n1 n2 : Z) (loss1 loss2 : option Q) (t1 v1 t2 v2 : Q),
       Training.get_total_train_time_min
         {| Training.start_time := start_time; Training.end_time := end_time;
            Training.epoch_results :=
              [ {| Training.epoch_num := n1;
                   Training.train_start_time := 100; Training.train_end_time := 160;
                   Training.mean_train_loss := loss1;
                   Training.train_acc := t1; Training.val_acc := v1 |};
                {| Training.epoch_num := n2;
                   Training.train_start_time := 200; Training.train_end_time := 245;
                   Training.mean_train_loss := loss2;
                   Training.train_acc := t2; Training.val_acc := v2 |} ];
            Training.state_dict := state_dict; Training.test_acc := test_acc |}
       = ((60 + 45) / 60)%Z
       ∧ ((60 + 45) / 60 = 1)%Z).
Proof.
  split.
  - intros SD self.
    unfold Training.get_total_train_time_min, Training.get_total_train_time_sec.
    rewrite int_sum_foldr. f_equal.
    induction (Training.epoch_results self) as [|er ers IH]; simpl; [done|].
    by rewrite IH.
  - intros. split; reflexivity.
Qed.

(** ** How many batches the evaluation loops go through *)

Section BatchCount.
Context `{Collaborators}.

(** The loop with its [break] is the plain loop over a prefix of the
    loader. *)
Lemma enumerate_until_take {B St} nb (body : nat → B → St → M St) loader i s w :
  enumerate_until nb body i loader s w
  = for_each_indexed body i
      (take (Z.to_nat (Z.max 1 (nb - Z.of_nat i))) loader) s w.
Proof.
  revert i s w. induction loader as [|b loader IH]; intros i s w.
  - by rewrite take_nil.
  - destruct (Z.to_nat (Z.max 1 (nb - Z.of_nat i))) as [|k] eqn:Ek; [lia|].
    simpl. unfold bind. destruct (body i b s w) as [[s' w']|e]; [|done].
    rewrite Z.geb_leb. destruct (Z.leb_spec nb (Z.of_nat (i + 1))) as [E|E].
    + assert (k = 0) as -> by lia. by rewrite take_0.
    + rewrite IH. do 2 f_equal. lia.
Qed.

Lemma take_min_length {B} (l : list B) k :
  take (Nat.min (length l) k) l = take k l.
Proof.
  destruct (Nat.le_gt_cases k (length l)) as [Hk|Hk].
  - by rewrite Nat.min_r.
  - rewrite Nat.min_l by lia. rewrite !take_ge; [done|lia|lia].
Qed.

Lemma batches_processed_length {B} nb (loader : list B) :
  length (take (Z.to_nat (Z.max 1 (nb - Z.of_nat 0))) loader)
  = batches_processed nb (length loader).
Proof. rewrite length_take. unfold batches_processed. simpl. lia. Qed.


(** A loop all of whose steps give exactly their batch to the model
    gives the model the batches it goes through, in order. *)
Lemma for_each_indexed_forwards {St} (body : nat → Batch → St → M St) :
  (∀ i b s w s' w', body i b s w = Ok (s', w') →
     forward_batches (trace w') = forward_batches (trace w) ++ [b]) →
  ∀ xs i s w s' w', for_each_indexed body i xs s w = Ok (s', w') →
    forward_batches (trace w') = forward_batches (trace w) ++ xs.
Proof.
  intros Hbody xs. induction xs as [|x xs IH]; intros i s w s' w' Hrun; simpl in Hrun.
  - injection Hrun as <- <-. by rewrite app_nil_r.
  - apply bind_Ok in Hrun as (s1 & w1 & Hx & Hrun).
    rewrite (IH _ _ _ _ _ Hrun), (Hbody _ _ _ _ _ _ Hx).
    by rewrite <- app_assoc.
Qed.

Lemma evaluate_question_forwards i batch z_dict qa_dataset fbs mapping lists qi w lists' w' :
  evaluate_question i batch z_dict qa_dataset fbs mapping lists qi w = Ok (lists', w') →
  forward_batches (trace w') = forward_batches (trace w).
Proof.
  intros Hq. unfold evaluate_question in Hq.
  apply bind_Ok in Hq as (repr & w1 & Hr & Hq). apply lift_Ok in Hr as [_ ->].
  apply bind_Ok in Hq as (uid & w1 & Hu & Hq). apply lift_Ok in Hu as [_ ->].
  destruct (fbs !! uid) as [fb|]; [|by injection Hq as <- <-].
  destruct (PyNum.Qltb _ _); [|by injection Hq as <- <-].
  apply ask_with_context_Ok in Hq as (tuples & prompt & notice & -> & Hn).
  simpl. rewrite forward_batches_app. simpl.
  destruct Hn as [->| ->]; simpl; by rewrite app_nil_r.
Qed.

Lemma for_each_question_forwards i batch z_dict qa_dataset fbs mapping qs lists w lists' w' :
  for_each (evaluate_question i batch z_dict qa_dataset fbs mapping) qs lists w
  = Ok (lists', w') →
  forward_batches (trace w') = forward_batches (trace w).
Proof.
  revert lists w. induction qs as [|q qs IH]; intros lists w Hrun; simpl in Hrun.
  - by injection Hrun as <- <-.
  - apply bind_Ok in Hrun as (l1 & w1 & Hq & Hrun).
    rewrite (IH _ _ Hrun). by eapply evaluate_question_forwards.
Qed.

Lemma evaluate_batch_forwards qa_dataset fbs mapping i batch acc w acc' w' :
  evaluate_batch qa_dataset fbs mapping i batch acc w = Ok (acc', w') →
  forward_batches (trace w') = forward_batches (trace w) ++ [batch].
Proof.
  intros Hb. unfold evaluate_batch in Hb.
  apply bind_Ok in Hb as ([[pos_pred neg_pred] z_dict] & w0 & Hf & Hb).
  apply forward_Ok in Hf as [_ ->].
  apply bind_Ok in Hb as (s & w1 & Hs & Hb).
  apply sample_negatives_Ok in Hs as (_ & _ & _ & _ & _ & _ & _ & Htr & _).
  apply bind_Ok in Hb as (lists & w2 & Hq & Hb).
  apply for_each_question_forwards in Hq.
  destruct (record_batch_averages_Ok acc
              (append_link (link_lists acc) pos_pred (neg_pred_sampled s)
                 (pos_y s) (neg_y s)) lists w2) as [acc2 Hrec].
  rewrite Hrec in Hb. injection Hb as _ <-.
  rewrite Hq, Htr. simpl. by rewrite forward_batches_app.
Qed.

Lemma evaluate_model_batch_forwards model split_name nb i batch acc w acc' w' :
  Training.evaluate_model_batch model split_name nb i batch acc w = Ok (acc', w') →
  forward_batches (trace w') = forward_batches (trace w) ++ [batch].
Proof.
  unfold Training.evaluate_model_batch, bind, emit, call_model, ret. simpl.
  intros [= _ <-]. simpl. rewrite !forward_batches_app. simpl.
  by rewrite app_nil_r.
Qed.

Lemma concat_link_world l w r w' : concat_link l w = Ok (r, w') → w' = w.
Proof.
  intros Hc. unfold concat_link in Hc. inv_run Hc.
  injection Hc as _ <-.
  apply lift_Ok in Hrun as [_ ->]. apply lift_Ok in Hrun0 as [_ ->].
  apply lift_Ok in Hrun1 as [_ ->]. apply lift_Ok in Hrun2 as [_ ->].
  apply lift_Ok in Hrun3 as [_ ->]. by apply lift_Ok in Hrun4 as [_ ->].
Qed.

(** The batches [evaluate] gives to the graph model. *)
Lemma evaluate_forwards split_loaders split_name qa_dataset fbs mapping frac w r w' :
  evaluate split_loaders split_name qa_dataset fbs mapping frac w = Ok (r, w') →
  ∃ loader,
    split_loaders !! split_name = Some loader ∧
    forward_batches (trace w')
    = forward_batches (trace w)
      ++ take (batches_processed (PyNum.round (frac * PyNum.len loader))
                 (length loader)) loader.
Proof.
  intros He. unfold evaluate in He.
  apply bind_Ok in He as ([] & w1 & Hm & He). injection Hm as <-.
  apply bind_Ok in He as (loader & w2 & Hl & He).
  apply lift_Ok in Hl as [Hl ->].
  apply bind_Ok in He as ([] & w3 & Hp & He). injection Hp as <-.
  apply bind_Ok in He as (acc & w4 & Hloop & He).
  apply bind_Ok in He as ([] & w5 & Hm & He). injection Hm as <-.
  apply bind_Ok in He as ([pred true'] & w6 & Hc & He).
  apply concat_link_world in Hc as ->.
  apply bind_Ok in He as (res & w7 & Hres & He).
  rewrite llm_results_of_Ok in Hres. injection Hres as _ <-.
  injection He as _ <-.
  exists loader. split.
  { unfold dict_getitem in Hl. by destruct (split_loaders !! split_name) as [?|];
      [injection Hl as ->|]. }
  rewrite enumerate_until_take in Hloop.
  apply (for_each_indexed_forwards _ (evaluate_batch_forwards qa_dataset fbs mapping))
    in Hloop.
  simpl in Hloop |- *. rewrite Hloop.
  rewrite forward_batches_app. simpl. rewrite app_nil_r.
  f_equal. unfold batches_processed.
  replace (PyNum.round (frac * PyNum.len loader) - Z.of_nat 0)%Z
    with (PyNum.round (frac * PyNum.len loader)) by lia.
  symmetry. apply take_min_length.
Qed.

(** The batches [evaluate_model] gives to the graph model. *)
Lemma evaluate_model_forwards model split_loaders split_name frac w r w' :
  Training.evaluate_model model split_loaders split_name frac w = Ok (r, w') →
  ∃ loader,
    split_loaders !! split_name = Some loader ∧
    forward_batches (trace w')
    = forward_batches (trace w)
      ++ take (batches_processed (PyNum.round (frac * PyNum.len loader))
                 (length loader)) loader.
Proof.
  intros He. unfold Training.evaluate_model in He.
  apply bind_Ok in He as ([] & w1 & Hm & He). injection Hm as <-.
  apply bind_Ok in He as (loader & w2 & Hl & He).
  apply lift_Ok in Hl as [Hl ->].
  apply bind_Ok in He as ([preds trues] & w3 & Hloop & He).
  apply bind_Ok in He as ([] & w4 & Hm & He). injection Hm as <-.
  apply bind_Ok in He as (pred & w5 & Hp & He). apply lift_Ok in Hp as [_ ->].
  apply bind_Ok in He as (true' & w6 & Ht & He). apply lift_Ok in Ht as [_ ->].
  apply lift_Ok in He as [_ ->].
  exists loader. split.
  { unfold dict_getitem in Hl. by destruct (split_loaders !! split_name) as [?|];
      [injection Hl as ->|]. }
  rewrite enumerate_until_take in Hloop.
  apply (for_each_indexed_forwards _
           (evaluate_model_batch_forwards model split_name _)) in Hloop.
  simpl in Hloop |- *. rewrite Hloop.
  f_equal. unfold batches_processed.
  replace (PyNum.round (frac * PyNum.len loader) - Z.of_nat 0)%Z
    with (PyNum.round (frac * PyNum.len loader)) by lia.
  symmetry. apply take_min_length.
Qed.

End BatchCount.




(** ** The snapshot of the parameters *)






(** Without the copy the state dict follows the training: it refers to
    the tensors the optimizer updates. *)
Lemma live_state_dict_follows_training :
  Store.read
    (Store.run [Store.OptimizerStep (λ _ t, Tensor (shape t) (map (Qplus 1) (data t)))]
       (Toy.model, Toy.heap)).2
    (Store.state_dict Toy.model)
  ≠ Store.read Toy.heap (Store.state_dict Toy.model).
Proof. vm_compute. discriminate. Qed.

(** ** The history of a run *)

Section History.
Context `{Collaborators}.



(** What [train] puts into its result. *)
Lemma train_Ok split_loaders file_name qa_dataset train_fb val_fb mapping
    num_epochs lr lw w result w' :
  train split_loaders file_name qa_dataset train_fb val_fb mapping num_epochs lr lw w
  = Ok (result, w') →
  ∃ eval_qa_dataset train_loader w0 st w1 test_pred test_true w2,
    qa_dataset !! "validation"%string = Some eval_qa_dataset ∧
    for_each
      (train_epoch split_loaders train_loader eval_qa_dataset train_fb val_fb mapping
         lw (llm_relevancy_loss_weight_of lw))
      (seq 1 (Z.to_nat num_epochs)) (adam lr, []) w0 = Ok (st, w1) ∧
    MlUtils.epoch_results result = st.2 ∧
    MlUtils.state_dict result = hgt_params w1 ∧
    evaluate split_loaders "test" eval_qa_dataset val_fb mapping 1 w1
    = Ok ((test_pred, test_true, MlUtils.test_llm_results result), w2).
Proof.
  intros Ht. unfold train in Ht.
  apply bind_Ok in Ht as ([] & w1 & _ & Ht).
  apply bind_Ok in Ht as (eval_qa & w2 & Hq & Ht). apply lift_Ok in Hq as [Hq ->].
  apply bind_Ok in Ht as (t0 & w3 & _ & Ht).
  apply bind_Ok in Ht as ([] & w4 & _ & Ht).
  apply bind_Ok in Ht as (train_loader & w5 & Hl & Ht). apply lift_Ok in Hl as [_ ->].
  apply bind_Ok in Ht as (st & w6 & Hloop & Ht).
  apply bind_Ok in Ht as (sd & w7 & Hsd & Ht). injection Hsd as <- <-.
  apply bind_Ok in Ht as ([[test_pred test_true] test_llm] & w8 & Heval & Ht).
  apply bind_Ok in Ht as (auc & w9 & _ & Ht).
  apply bind_Ok in Ht as ([] & w10 & _ & Ht).
  apply bind_Ok in Ht as (t1 & w11 & _ & Ht).
  apply bind_Ok in Ht as ([] & w12 & _ & Ht).
  injection Ht as <- _. simpl.
  exists eval_qa, train_loader, w4, st, w6, test_pred, test_true, w8.
  split; [|done].
  unfold dict_getitem in Hq. by destruct (qa_dataset !! "validation"%string);
    [injection Hq as ->|].
Qed.

End History.


(** C10: the evaluation on the test split that ends [train] is given
    the feedback mapping of the validation split: the LLM accuracies of
    the result are those [evaluate] computes on the test loader against
    [val_llm_feedbacks_dict]. *)
Theorem C10_test_uses_validation_feedback `{Collaborators}
    (split_loaders : gmap string (list Batch)) (file_name : string)
    (qa_dataset : gmap string (list DatasetRow))
    (train_llm_feedbacks_dict val_llm_feedbacks_dict : gmap nat LLMFeedback)
    (question_to_subgraphs_mapping : gmap nat (list (string * nat)))
    (num_epochs : Z) (lr link_prediction_loss_weight : Q)
    (w : world) (result : MlUtils.ModelResult params) (w' : world) :
  train split_loaders file_name qa_dataset train_llm_feedbacks_dict
    val_llm_feedbacks_dict question_to_subgraphs_mapping num_epochs lr
    link_prediction_loss_weight w = Ok (result, w') →
  ∃ eval_qa_dataset w1 test_pred test_true w2,
    qa_dataset !! "validation"%string = Some eval_qa_dataset ∧
    evaluate split_loaders "test" eval_qa_dataset val_llm_feedbacks_dict
      question_to_subgraphs_mapping 1 w1
    = Ok ((test_pred, test_true, MlUtils.test_llm_results result), w2).
Proof.
  intros Ht.
  apply train_Ok in Ht as (eval_qa & ? & ? & ? & w1 & tp & tt' & w2 & Hq & _ & _ & _ & He).
  by exists eval_qa, w1, tp, tt', w2.
Qed.


Lemma C10_test_uses_validation_feedback_witness :
  ∃ result w' w1 test_pred test_true w2,
    @train Toy.collaborators Toy.loaders "out.pt" Toy.dataset ∅ Toy.feedbacks
      Toy.subgraphs 1 (1 # 100) (3 # 10) Toy.world0 = Ok (result, w')
    ∧ @evaluate Toy.collaborators Toy.loaders "test" Toy.rows Toy.feedbacks
        Toy.subgraphs 1 w1
      = Ok ((test_pred, test_true, MlUtils.test_llm_results result), w2).
Proof.
  destruct (@train Toy.collaborators Toy.loaders "out.pt" Toy.dataset ∅ Toy.feedbacks
              Toy.subgraphs 1 (1 # 100) (3 # 10) Toy.world0)
    as [[result w']|e] eqn:Ht; [|vm_compute in Ht; discriminate].
  destruct (@C10_test_uses_validation_feedback Toy.collaborators _ _ _ _ _ _ _ _ _ _ _ _ Ht)
    as (eval_qa & w1 & test_pred & test_true & w2 & Hq & He).
  vm_compute in Hq. injection Hq as <-.
  exists result, w', w1, test_pred, test_true, w2. split; [reflexivity|]. exact He.
Defined.

(** * Further properties *)

(** ** Worlds *)

Section WorldFacts.
Context `{Collaborators}.

Lemma same_model_refl (w : world) : same_model w w.
Proof. by repeat split. Qed.

Lemma same_model_trans (w1 w2 w3 : world) :
  same_model w1 w2 → same_model w2 w3 → same_model w1 w3.
Proof. intros (? & ? & ?) (? & ? & ?). repeat split; congruence. Qed.

Lemma same_model_log evs (w : world) : same_model w (log evs w).
Proof. by repeat split. Qed.

Lemma forward_events_app tr1 tr2 :
  forward_events (tr1 ++ tr2) = forward_events tr1 ++ forward_events tr2.
Proof. unfold forward_events. apply omap_app. Qed.

(** The negative sampler draws one permutation and touches nothing
    else. *)
Lemma sample_negatives_world batch neg_pred w s w' :
  sample_negatives batch neg_pred w = Ok (s, w') →
  rng w' = (randperm (rng w) (size1 (edge_label_index (question_wrong_answer batch)))).2
  ∧ same_model w w' ∧ trace w' = trace w.
Proof.
  intros Hs. unfold sample_negatives in Hs. inv_run Hs.
  injection Hs as _ <-.
  apply reshape_scalar_Ok in Hrun as (-> & _).
  apply lift_Ok in Hrun1 as [_ ->].
  apply lift_Ok in Hrun2 as [_ ->].
  apply lift_Ok in Hrun3 as [_ ->].
  apply reshape_scalar_Ok in Hrun4 as (-> & _).
  unfold draw_randperm in Hrun0. injection Hrun0 as _ <-.
  by repeat split.
Qed.

(** A question leaves the model alone: it only adds events, none of
    them a forward pass. *)
Lemma evaluate_question_world i batch z_dict qa_dataset fbs mapping lists qi w lists' w' :
  evaluate_question i batch z_dict qa_dataset fbs mapping lists qi w = Ok (lists', w') →
  ∃ evs, w' = log evs w ∧ forward_events evs = [].
Proof.
  intros Hq. unfold evaluate_question in Hq.
  apply bind_Ok in Hq as (repr & w1 & Hr & Hq). apply lift_Ok in Hr as [_ ->].
  apply bind_Ok in Hq as (uid & w1 & Hu & Hq). apply lift_Ok in Hu as [_ ->].
  destruct (fbs !! uid) as [fb|].
  - destruct (PyNum.Qltb _ _).
    + apply ask_with_context_Ok in Hq as (tuples & prompt & notice & -> & Hn).
      eexists. split; [reflexivity|]. by destruct Hn as [->| ->].
    + injection Hq as _ <-. exists []. by rewrite log_nil.
  - injection Hq as _ <-. exists []. by rewrite log_nil.
Qed.

Lemma for_each_question_world i batch z_dict qa_dataset fbs mapping qs lists w lists' w' :
  for_each (evaluate_question i batch z_dict qa_dataset fbs mapping) qs lists w
  = Ok (lists', w') →
  ∃ evs, w' = log evs w ∧ forward_events evs = [].
Proof.
  revert lists w. induction qs as [|q qs IH]; intros lists w Hrun; simpl in Hrun.
  - injection Hrun as _ <-. exists []. by rewrite log_nil.
  - apply bind_Ok in Hrun as (l1 & w1 & Hq & Hrun).
    apply evaluate_question_world in Hq as (evs1 & -> & H1).
    apply IH in Hrun as (evs2 & -> & H2).
    exists (evs1 ++ evs2). rewrite log_log. split; [done|].
    by rewrite forward_events_app, H1, H2.
Qed.

(** A batch of [evaluate]: one forward pass in the mode the model is
    in; parameters, mode and clock stay. *)
Lemma evaluate_batch_world qa_dataset fbs mapping i batch acc w acc' w' :
  evaluate_batch qa_dataset fbs mapping i batch acc w = Ok (acc', w') →
  same_model w w'
  ∧ forward_events (trace w') = forward_events (trace w) ++ [(hgt_training w, batch)].
Proof.
  intros Hb. unfold evaluate_batch in Hb.
  apply bind_Ok in Hb as ([[pos_pred neg_pred] z_dict] & w0 & Hf & Hb).
  apply forward_Ok in Hf as [_ ->].
  apply bind_Ok in Hb as (s & w1 & Hs & Hb).
  apply sample_negatives_world in Hs as (_ & Hsame & Htr).
  apply bind_Ok in Hb as (lists & w2 & Hq & Hb).
  apply for_each_question_world in Hq as (evs & -> & Hevs).
  destruct (record_batch_averages_Ok acc
              (append_link (link_lists acc) pos_pred (neg_pred_sampled s)
                 (pos_y s) (neg_y s)) lists (log evs w1)) as [acc2 Hrec].
  rewrite Hrec in Hb. injection Hb as _ <-. split.
  - eapply same_model_trans; [|apply same_model_log].
    eapply same_model_trans; [|exact Hsame]. apply same_model_log.
  - simpl. rewrite forward_events_app, Hevs, app_nil_r, Htr. simpl.
    rewrite forward_events_app. done.
Qed.

Lemma evaluate_model_batch_world model split_name nb i batch acc w acc' w' :
  Training.evaluate_model_batch model split_name nb i batch acc w = Ok (acc', w') →
  same_model w w'
  ∧ forward_events (trace w') = forward_events (trace w) ++ [(hgt_training w, batch)].
Proof.
  unfold Training.evaluate_model_batch, bind, emit, call_model, ret. simpl.
  intros [= _ <-]. split; [by repeat split|].
  simpl. rewrite !forward_events_app. simpl. by rewrite app_nil_r.
Qed.

(** A loop whose steps each make one forward pass and leave the model
    alone makes one forward pass per element, in order, in the mode the
    model was in at the start. *)
Lemma for_each_indexed_world {St} (body : nat → Batch → St → M St) :
  (∀ i b s w s' w', body i b s w = Ok (s', w') →
     same_model w w'
     ∧ forward_events (trace w') = forward_events (trace w) ++ [(hgt_training w, b)]) →
  ∀ xs i s w s' w', for_each_indexed body i xs s w = Ok (s', w') →
    same_model w w'
    ∧ forward_events (trace w')
      = forward_events (trace w) ++ map (pair (hgt_training w)) xs.
Proof.
  intros Hbody xs. induction xs as [|x xs IH]; intros i s w s' w' Hrun; simpl in Hrun.
  - injection Hrun as _ <-. split; [apply same_model_refl|]. by rewrite app_nil_r.
  - apply bind_Ok in Hrun as (s1 & w1 & Hx & Hrun).
    apply Hbody in Hx as (Hsame1 & Hev1).
    apply IH in Hrun as (Hsame2 & Hev2). split.
    + by eapply same_model_trans.
    + rewrite Hev2, Hev1. destruct Hsame1 as (_ & -> & _).
      by rewrite <- app_assoc.
Qed.

End WorldFacts.

(** ** The negative sampler, the evaluation loop *)

Lemma round_len {A} (l : list A) : PyNum.round (1 * PyNum.len l) = Z.of_nat (length l).
Proof.
  unfold PyNum.round, PyNum.len. set (n := Z.of_nat (length l)).
  assert (Qfloor (1 * inject_Z n) = n) as ->.
  { rewrite Qmult_1_l. apply Qfloor_Z. }
  assert ((1 * inject_Z n - inject_Z n ?= 1 # 2)%Q = Lt) as ->; [|done].
  apply Qlt_alt. rewrite Qmult_1_l. unfold Qminus. rewrite Qplus_opp_r. reflexivity.
Qed.

Lemma batches_processed_all n : batches_processed (Z.of_nat n) n = n.
Proof. unfold batches_processed. lia. Qed.

(** X1: whenever the sampler block completes, with [P] positive
    labels and [N] negative edges: if [N <= 2*P] every negative edge is
    sampled exactly once; if [2*P <= N] exactly [2*P] are sampled; with
    no positive label none is.  The block advances the random number
    generator by one permutation and changes nothing else. *)
Theorem X1_sampler_coverage `{Collaborators}
    (batch : Batch) (neg_pred : tensor) (w : world) (s : Sampled) (w' : world) :
  sample_negatives batch neg_pred w = Ok (s, w') →
  let N := size1 (edge_label_index (question_wrong_answer batch)) in
  ∃ P,
    size0 (pos_y s) = Ok P
    ∧ (N <= 2 * P → neg_sample_indices s ≡ₚ seq 0 N)
    ∧ (2 * P <= N → length (neg_sample_indices s) = 2 * P)
    ∧ (P = 0 → neg_sample_indices s = [])
    ∧ rng w' = (randperm (rng w) N).2
    ∧ same_model w w' ∧ trace w' = trace w.
Proof.
  intros Hs N.
  destruct (sample_negatives_world _ _ _ _ _ Hs) as (Hrng & Hsame & Htr).
  apply sample_negatives_Ok in Hs as (P & HP & Hidx & _).
  change (num_neg_samples * P) with (2 * P) in Hidx. fold N in Hidx.
  exists P. split; [done|]. unfold slice_to in Hidx.
  split; [|split; [|split]].
  - intros HN. rewrite Hidx, take_ge by (rewrite randperm_length; lia).
    apply randperm_Permutation.
  - intros HN. rewrite Hidx, length_take, randperm_length. lia.
  - intros ->. by rewrite Hidx.
  - done.
Qed.

Lemma X1_sampler_coverage_witness :
  ∃ s w',
    @sample_negatives Toy.collaborators Toy.batch_of_two
      (Tensor [5] [10%Q; 11%Q; 12%Q; 13%Q; 14%Q]) Toy.world0 = Ok (s, w')
    ∧ length (neg_sample_indices s) = 4
    ∧ @rng Toy.collaborators w' = 1.
Proof.
  destruct (@sample_negatives Toy.collaborators Toy.batch_of_two
              (Tensor [5] [10%Q; 11%Q; 12%Q; 13%Q; 14%Q]) Toy.world0)
    as [[s w']|e] eqn:Hs; [|vm_compute in Hs; discriminate].
  destruct (@X1_sampler_coverage Toy.collaborators _ _ _ _ _ Hs)
    as (P & HP & _ & Hlen & _ & Hrng & _).
  exists s, w'. split; [reflexivity|].
  vm_compute in Hs. injection Hs as <- <-.
  vm_compute in HP. injection HP as <-.
  split; [apply Hlen; vm_compute; lia|reflexivity].
Defined.

(** X2: a batch of [evaluate] none of whose questions has precomputed
    feedback adds its tensors to the link-prediction lists and nothing
    to the LLM averages; apart from the forward pass and the sampling
    nothing happens: no retrieval, no call of the LLM, no output. *)
Theorem X2_batch_without_feedback `{Collaborators}
    (qa_dataset : list DatasetRow) (fbs : gmap nat LLMFeedback)
    (mapping : gmap nat (list (string * nat)))
    (i : nat) (batch : Batch) (acc : EvalLists) (w : world)
    (pos_pred neg_pred : tensor) (z_dict : zdict) (s : Sampled) (w1 : world) :
  hgt_forward (hgt_params w) (hgt_training w) batch = (pos_pred, neg_pred, z_dict) →
  sample_negatives batch neg_pred (log [ModelForward (hgt_training w) batch] w)
  = Ok (s, w1) →
  Forall (λ qi, ∃ repr uid,
            index_select_question z_dict qi = Some repr
            ∧ question_node_uid batch !! qi = Some uid
            ∧ fbs !! uid = None)
         (eli_src (edge_label_index (question_correct_answer batch))) →
  evaluate_batch qa_dataset fbs mapping i batch acc w
  = Ok ({| link_lists :=
             append_link (link_lists acc) pos_pred (neg_pred_sampled s)
               (pos_y s) (neg_y s);
           average_llm_aided_confidence_list := average_llm_aided_confidence_list acc;
           average_llm_aided_accuracy_list := average_llm_aided_accuracy_list acc;
           average_llm_vanilla_confidence_list :=
             average_llm_vanilla_confidence_list acc;
           average_llm_vanilla_accuracy_list :=
             average_llm_vanilla_accuracy_list acc |},
        w1).
Proof.
  intros Hfw Hs Hqs. unfold evaluate_batch.
  unfold bind at 1. unfold forward at 1. rewrite Hfw.
  unfold bind at 1. rewrite Hs.
  assert (∀ lists w2,
            for_each (evaluate_question i batch z_dict qa_dataset fbs mapping)
              (eli_src (edge_label_index (question_correct_answer batch))) lists w2
            = Ok (lists, w2)) as Hskip.
  { induction Hqs as [|qi qs (repr & uid & Hr & Hu & Hf) _ IH]; intros lists w2;
      simpl; [done|].
    unfold bind at 1. unfold evaluate_question, list_getitem.
    rewrite Hr, Hu. simpl. unfold bind, lift. simpl. rewrite Hf. simpl. apply IH. }
  unfold bind at 1. rewrite Hskip.
  apply record_batch_averages_nil.
Qed.

Lemma X2_batch_without_feedback_witness :
  ∃ acc' w',
    @evaluate_batch Toy.collaborators Toy.rows ∅ Toy.subgraphs 0 Toy.batch_of_two
      no_eval_lists Toy.world0 = Ok (acc', w')
    ∧ average_llm_aided_accuracy_list acc' = []
    ∧ length (pos_y_true_tensors (link_lists acc')) = 1
    ∧ trace w' = [ModelForward true Toy.batch_of_two].
Proof.
  eexists _, _. split.
  - eapply (@X2_batch_without_feedback Toy.collaborators);
      [reflexivity|vm_compute; reflexivity|].
    repeat constructor; by eexists _, _.
  - repeat split.
Defined.

Lemma evaluate_errors `{Collaborators} split_loaders split_name qa_dataset fbs mapping
    frac (w : world) :
  (split_loaders !! split_name = None →
   evaluate split_loaders split_name qa_dataset fbs mapping frac w = Raise KeyError)
  ∧ (split_loaders !! split_name = Some [] →
     evaluate split_loaders split_name qa_dataset fbs mapping frac w
     = Raise RuntimeError).
Proof.
  split; intros Hl; unfold evaluate, dict_getitem; rewrite Hl; reflexivity.
Qed.

(** X3: [evaluate] on a split that is not among the loaders ends in a
    [KeyError], and on a split without batches in the error of
    [torch.cat] on no tensors: it returns no result for an empty
    split. *)
Theorem X3_evaluate_needs_batches `{Collaborators}
    (split_loaders : gmap string (list Batch)) (split_name : string)
    (qa_dataset : list DatasetRow) (fbs : gmap nat LLMFeedback)
    (mapping : gmap nat (list (string * nat))) (frac : Q) (w : world) :
  (split_loaders !! split_name = None →
   evaluate split_loaders split_name qa_dataset fbs mapping frac w = Raise KeyError)
  ∧ (split_loaders !! split_name = Some [] →
     evaluate split_loaders split_name qa_dataset fbs mapping frac w
     = Raise RuntimeError).
Proof. apply evaluate_errors. Qed.

Lemma X3_evaluate_needs_batches_witness :
  @evaluate Toy.collaborators Toy.loaders "dev" Toy.rows Toy.feedbacks Toy.subgraphs 1
    Toy.world0 = Raise KeyError
  ∧ @evaluate Toy.collaborators (<["dev"%string := []]> Toy.loaders) "dev" Toy.rows
      Toy.feedbacks Toy.subgraphs 1 Toy.world0 = Raise RuntimeError.
Proof.
  split.
  - apply (@X3_evaluate_needs_batches Toy.collaborators). reflexivity.
  - apply (@X3_evaluate_needs_batches Toy.collaborators). reflexivity.
Defined.

Section EvaluateWorld.
Context `{Collaborators}.

Lemma dict_getitem_Ok `{Countable K} {V} (d : gmap K V) k v :
  dict_getitem d k = Ok v → d !! k = Some v.
Proof. unfold dict_getitem. destruct (d !! k); simpl; congruence. Qed.

Lemma take_batches_processed {B} nb (loader : list B) :
  take (Z.to_nat (Z.max 1 (nb - Z.of_nat 0))) loader
  = take (batches_processed nb (length loader)) loader.
Proof.
  unfold batches_processed.
  replace (nb - Z.of_nat 0)%Z with nb by lia.
  symmetry. apply take_min_length.
Qed.

(** What [evaluate] does to the world. *)
Lemma evaluate_world split_loaders split_name qa_dataset fbs mapping frac w r w' :
  evaluate split_loaders split_name qa_dataset fbs mapping frac w = Ok (r, w') →
  ∃ loader,
    split_loaders !! split_name = Some loader
    ∧ loader ≠ []
    ∧ hgt_params w' = hgt_params w ∧ ticks w' = ticks w ∧ hgt_training w' = true
    ∧ forward_events (trace w')
      = forward_events (trace w)
        ++ map (pair false)
             (take (batches_processed (PyNum.round (frac * PyNum.len loader))
                      (length loader)) loader).
Proof.
  intros He.
  destruct (split_loaders !! split_name) as [loader|] eqn:Hl; cycle 1.
  { by rewrite (proj1 (evaluate_errors _ _ _ _ _ _ _) Hl) in He. }
  destruct loader as [|b loader].
  { by rewrite (proj2 (evaluate_errors _ _ _ _ _ _ _) Hl) in He. }
  exists (b :: loader). split; [done|]. split; [done|].
  unfold evaluate in He.
  apply bind_Ok in He as ([] & w1 & Hm & He). injection Hm as <-.
  apply bind_Ok in He as (loader' & w2 & Hl' & He).
  apply lift_Ok in Hl' as [Hl' ->]. apply dict_getitem_Ok in Hl'.
  rewrite Hl in Hl'. injection Hl' as <-.
  apply bind_Ok in He as ([] & w3 & Hp & He). injection Hp as <-.
  apply bind_Ok in He as (acc & w4 & Hloop & He).
  apply bind_Ok in He as ([] & w5 & Hm & He). injection Hm as <-.
  apply bind_Ok in He as ([pred true'] & w6 & Hc & He).
  apply concat_link_world in Hc as ->.
  apply bind_Ok in He as (res & w7 & Hres & He).
  rewrite llm_results_of_Ok in Hres. injection Hres as _ <-.
  injection He as _ <-.
  rewrite enumerate_until_take in Hloop.
  apply (for_each_indexed_world _ (evaluate_batch_world qa_dataset fbs mapping))
    in Hloop as ((Hp & _ & Ht) & Hev).
  simpl in Hp, Ht, Hev |- *. rewrite take_batches_processed in Hev.
  repeat split; [done|done|].
  rewrite Hev, forward_events_app. simpl. by rewrite app_nil_r.
Qed.

Lemma evaluate_model_errors model split_loaders split_name frac w :
  (split_loaders !! split_name = None →
   Training.evaluate_model model split_loaders split_name frac w = Raise KeyError)
  ∧ (split_loaders !! split_name = Some [] →
     Training.evaluate_model model split_loaders split_name frac w
     = Raise RuntimeError).
Proof.
  split; intros Hl; unfold Training.evaluate_model, dict_getitem; rewrite Hl;
    reflexivity.
Qed.

(** What [evaluate_model] does to the world. *)
Lemma evaluate_model_world model split_loaders split_name frac w r w' :
  Training.evaluate_model model split_loaders split_name frac w = Ok (r, w') →
  ∃ loader,
    split_loaders !! split_name = Some loader
    ∧ loader ≠ []
    ∧ hgt_params w' = hgt_params w ∧ ticks w' = ticks w ∧ hgt_training w' = true
    ∧ forward_events (trace w')
      = forward_events (trace w)
        ++ map (pair false)
             (take (batches_processed (PyNum.round (frac * PyNum.len loader))
                      (length loader)) loader).
Proof.
  intros He.
  destruct (split_loaders !! split_name) as [loader|] eqn:Hl; cycle 1.
  { by rewrite (proj1 (evaluate_model_errors _ _ _ _ _) Hl) in He. }
  destruct loader as [|b loader].
  { by rewrite (proj2 (evaluate_model_errors _ _ _ _ _) Hl) in He. }
  exists (b :: loader). split; [done|]. split; [done|].
  unfold Training.evaluate_model in He.
  apply bind_Ok in He as ([] & w1 & Hm & He). injection Hm as <-.
  apply bind_Ok in He as (loader' & w2 & Hl' & He).
  apply lift_Ok in Hl' as [Hl' ->]. apply dict_getitem_Ok in Hl'.
  rewrite Hl in Hl'. injection Hl' as <-.
  apply bind_Ok in He as ([preds trues] & w3 & Hloop & He).
  apply bind_Ok in He as ([] & w4 & Hm & He). injection Hm as <-.
  apply bind_Ok in He as (pred & w5 & Hp & He). apply lift_Ok in Hp as [_ ->].
  apply bind_Ok in He as (true' & w6 & Ht & He). apply lift_Ok in Ht as [_ ->].
  apply lift_Ok in He as [_ ->].
  rewrite enumerate_until_take in Hloop.
  apply (for_each_indexed_world _ (evaluate_model_batch_world model split_name _))
    in Hloop as ((Hp & _ & Ht) & Hev).
  simpl in Hp, Ht, Hev |- *. rewrite take_batches_processed in Hev.
  by repeat split.
Qed.

End EvaluateWorld.

(** X4: a completed [evaluate] has run the graph model in evaluation
    mode on every batch it went through, has left the parameters and
    the clock as they were, and leaves the model in training mode,
    whatever mode it was in before. *)
Theorem X4_evaluate_mode_discipline `{Collaborators}
    (split_loaders : gmap string (list Batch)) (split_name : string)
    (qa_dataset : list DatasetRow) (fbs : gmap nat LLMFeedback)
    (mapping : gmap nat (list (string * nat))) (frac : Q)
    (w : world) (r : tensor * tensor * LLMResults) (w' : world) :
  evaluate split_loaders split_name qa_dataset fbs mapping frac w = Ok (r, w') →
  hgt_params w' = hgt_params w
  ∧ ticks w' = ticks w
  ∧ hgt_training w' = true
  ∧ ∃ batches,
      forward_events (trace w') = forward_events (trace w) ++ map (pair false) batches
      ∧ batches ≠ [].
Proof.
  intros He. apply evaluate_world in He as (loader & _ & Hne & Hp & Ht & Hm & Hev).
  repeat split; [done..|].
  eexists. split; [exact Hev|].
  destruct loader as [|b loader]; [done|].
  unfold batches_processed. simpl length.
  destruct (Nat.min _ _) eqn:E; [lia|done].
Qed.

Lemma X4_evaluate_mode_discipline_witness :
  ∃ r w',
    @evaluate Toy.collaborators Toy.loaders "val" Toy.rows Toy.feedbacks
      Toy.subgraphs 1
      {| hgt_params := 1%Q : @params Toy.collaborators; hgt_training := false;
         rng := 0 : @rng_state Toy.collaborators; ticks := 3; trace := [] |}
    = Ok (r, w')
    ∧ hgt_training w' = true ∧ ticks w' = 3.
Proof.
  destruct (@evaluate Toy.collaborators Toy.loaders "val" Toy.rows Toy.feedbacks
              Toy.subgraphs 1
              {| hgt_params := 1%Q : @params Toy.collaborators; hgt_training := false;
                 rng := 0 : @rng_state Toy.collaborators; ticks := 3; trace := [] |})
    as [[r w']|e] eqn:He; [|vm_compute in He; discriminate].
  destruct (@X4_evaluate_mode_discipline Toy.collaborators _ _ _ _ _ _ _ _ _ He)
    as (_ & Ht & Hm & _).
  by exists r, w'.
Defined.

(** X5: with the default [frac = 1.0], a completed [evaluate] or
    [evaluate_model] has gone through every batch of the split, once
    and in the loader's order. *)
Theorem X5_default_frac_whole_split `{Collaborators} :
  (∀ split_loaders split_name qa_dataset fbs mapping w r w',
     evaluate split_loaders split_name qa_dataset fbs mapping 1 w = Ok (r, w') →
     ∃ loader,
       split_loaders !! split_name = Some loader
       ∧ forward_batches (trace w') = forward_batches (trace w) ++ loader)
  ∧ (∀ model split_loaders split_name w r w',
       Training.evaluate_model model split_loaders split_name 1 w = Ok (r, w') →
       ∃ loader,
         split_loaders !! split_name = Some loader
         ∧ forward_batches (trace w') = forward_batches (trace w) ++ loader).
Proof.
  split.
  - intros * He. apply evaluate_forwards in He as (loader & Hl & Hf).
    exists loader. split; [done|].
    by rewrite Hf, round_len, batches_processed_all, firstn_all.
  - intros * He. apply evaluate_model_forwards in He as (loader & Hl & Hf).
    exists loader. split; [done|].
    by rewrite Hf, round_len, batches_processed_all, firstn_all.
Qed.

Lemma X5_default_frac_whole_split_witness :
  ∃ r w',
    @evaluate Toy.collaborators Toy.loaders "test" Toy.rows Toy.feedbacks
      Toy.subgraphs 1 Toy.world0 = Ok (r, w')
    ∧ forward_batches (trace w') = [Toy.batch_of 0; Toy.batch_of_two].
Proof.
  destruct (@evaluate Toy.collaborators Toy.loaders "test" Toy.rows Toy.feedbacks
              Toy.subgraphs 1 Toy.world0)
    as [[r w']|e] eqn:He; [|vm_compute in He; discriminate].
  destruct (proj1 (@X5_default_frac_whole_split Toy.collaborators) _ _ _ _ _ _ _ _ He)
    as (loader & Hl & Hf).
  vm_compute in Hl. injection Hl as <-.
  exists r, w'. split; [reflexivity|exact Hf].
Defined.

(** X6: [evaluate_model] ends in a [KeyError] on a split that is not
    among the loaders and in the error of [torch.cat] on a split
    without batches; when it completes it has run the model in
    evaluation mode only, has left parameters and clock as they were
    and leaves the model in training mode. *)
Theorem X6_evaluate_model_edges `{Collaborators}
    (model : params → bool → Batch → tensor)
    (split_loaders : gmap string (list Batch)) (split_name : string)
    (frac : Q) (w : world) :
  (split_loaders !! split_name = None →
   Training.evaluate_model model split_loaders split_name frac w = Raise KeyError)
  ∧ (split_loaders !! split_name = Some [] →
     Training.evaluate_model model split_loaders split_name frac w
     = Raise RuntimeError)
  ∧ (∀ r w',
       Training.evaluate_model model split_loaders split_name frac w = Ok (r, w') →
       hgt_params w' = hgt_params w ∧ ticks w' = ticks w ∧ hgt_training w' = true
       ∧ ∃ batches,
           forward_events (trace w')
           = forward_events (trace w) ++ map (pair false) batches).
Proof.
  split; [|split].
  - apply evaluate_model_errors.
  - apply evaluate_model_errors.
  - intros r w' He.
    apply evaluate_model_world in He as (loader & _ & _ & Hp & Ht & Hm & Hev).
    repeat split; [done..|]. by eexists.
Qed.

Lemma X6_evaluate_model_edges_witness :
  @Training.evaluate_model Toy.collaborators ToySingle.model Toy.loaders "dev" 1
    Toy.world0 = Raise KeyError
  ∧ ∃ r w',
      @Training.evaluate_model Toy.collaborators ToySingle.model Toy.loaders "val" 1
        Toy.world0 = Ok (r, w')
      ∧ hgt_training w' = true.
Proof.
  destruct (@X6_evaluate_model_edges Toy.collaborators ToySingle.model Toy.loaders
              "dev" 1 Toy.world0) as (Hkey & _ & _).
  split; [apply Hkey; reflexivity|].
  destruct (@Training.evaluate_model Toy.collaborators ToySingle.model Toy.loaders
              "val" 1 Toy.world0)
    as [[r w']|e] eqn:He; [|vm_compute in He; discriminate].
  destruct (@X6_evaluate_model_edges Toy.collaborators ToySingle.model Toy.loaders
              "val" 1 Toy.world0) as (_ & _ & Hok).
  destruct (Hok _ _ He) as (_ & _ & Hm & _).
  by exists r, w'.
Defined.

(** ** The training time of a result *)

Lemma int_sum_app (l1 l2 : list Z) :
  Training.int_sum (l1 ++ l2) = (Training.int_sum l1 + Training.int_sum l2)%Z.
Proof.
  rewrite !int_sum_foldr, foldr_app.
  induction l1 as [|x l1 IH]; simpl; [lia|]. rewrite IH. lia.
Qed.

Lemma int_sum_nonneg (l : list Z) : Forall (λ x, 0 <= x)%Z l → (0 <= Training.int_sum l)%Z.
Proof.
  rewrite int_sum_foldr. induction 1 as [|x l Hx _ IH]; simpl; lia.
Qed.

(** X7: the seconds of training of a result grow by the duration of
    every epoch result appended to it and are 0 without epochs; the
    minutes are these seconds rounded down to whole minutes; neither is
    negative when no epoch ends before it starts. *)
Theorem X7_train_time_accounting {SD} (self : Training.ModelResult SD) :
  (∀ er : Training.EpochResult,
     Training.get_total_train_time_sec
       {| Training.start_time := Training.start_time self;
          Training.end_time := Training.end_time self;
          Training.epoch_results := Training.epoch_results self ++ [er];
          Training.state_dict := Training.state_dict self;
          Training.test_acc := Training.test_acc self |}
     = (Training.get_total_train_time_sec self
        + (Training.train_end_time er - Training.train_start_time er))%Z)
  ∧ (Training.epoch_results self = [] → Training.get_total_train_time_sec self = 0%Z)
  ∧ (60 * Training.get_total_train_time_min self
     <= Training.get_total_train_time_sec self
     < 60 * Training.get_total_train_time_min self + 60)%Z
  ∧ (Forall (λ er, Training.train_start_time er <= Training.train_end_time er)%Z
       (Training.epoch_results self) →
     (0 <= Training.get_total_train_time_sec self)%Z
     ∧ (0 <= Training.get_total_train_time_min self)%Z).
Proof.
  unfold Training.get_total_train_time_min, Training.get_total_train_time_sec.
  split; [|split; [|split]].
  - intros er. simpl. rewrite map_app, int_sum_app. f_equal.
  - by intros ->.
  - pose proof (Z.div_mod (Training.int_sum
        (map (λ er, (Training.train_end_time er - Training.train_start_time er)%Z)
           (Training.epoch_results self))) 60 ltac:(lia)) as Hdm.
    pose proof (Z.mod_pos_bound (Training.int_sum
        (map (λ er, (Training.train_end_time er - Training.train_start_time er)%Z)
           (Training.epoch_results self))) 60 ltac:(lia)) as Hb.
    lia.
  - intros Hall.
    assert (0 <= Training.int_sum
        (map (λ er, (Training.train_end_time er - Training.train_start_time er)%Z)
           (Training.epoch_results self)))%Z as Hnn.
    { apply int_sum_nonneg. apply Forall_map. eapply Forall_impl; [exact Hall|].
      simpl. intros. lia. }
    split; [done|]. by apply Z.div_pos.
Qed.

Lemma X7_train_time_accounting_witness :
  (0 <= Training.get_total_train_time_sec
          {| Training.start_time := 90; Training.end_time := 300;
             Training.epoch_results :=
               [ {| Training.epoch_num := 1; Training.train_start_time := 100;
                    Training.train_end_time := 160; Training.mean_train_loss := None;
                    Training.train_acc := 0; Training.val_acc := 0 |} ];
             Training.state_dict := tt; Training.test_acc := 0 |})%Z
  ∧ Training.get_total_train_time_sec
      {| Training.start_time := 90; Training.end_time := 300;
         Training.epoch_results := []; Training.state_dict := tt;
         Training.test_acc := 0 |} = 0%Z.
Proof.
  split.
  - apply (@X7_train_time_accounting unit). simpl.
    constructor; [simpl; lia|constructor].
  - by apply (@X7_train_time_accounting unit).
Defined.

(** ** Masked targets *)

Lemma filter_map_S (f : nat → bool) (l : list nat) :
  List.filter f (map S l) = map S (List.filter (λ i, f (S i)) l).
Proof.
  induction l as [|x l IH]; simpl; [done|]. rewrite IH. by destruct (f (S x)).
Qed.

Lemma mask_indices_cons b mask :
  SingleTask.mask_indices (b :: mask)
  = (if b then [0] else []) ++ map S (SingleTask.mask_indices mask).
Proof.
  unfold SingleTask.mask_indices. simpl length. simpl seq.
  rewrite <- seq_shift. simpl. rewrite filter_map_S. simpl. by destruct b.
Qed.

Lemma mask_indices_lt mask : Forall (λ i, i < length mask) (SingleTask.mask_indices mask).
Proof.
  apply Forall_forall. intros i Hi. unfold SingleTask.mask_indices in Hi.
  apply list_elem_of_In, filter_In in Hi as [Hi _].
  apply in_seq in Hi. lia.
Qed.

Lemma mask_indices_select (d : list Q) mask :
  length d = length mask →
  map (λ i, nth i d 0%Q) (SingleTask.mask_indices mask)
  = omap (λ '(x, b), if b : bool then Some x else None) (zip d mask).
Proof.
  revert d. induction mask as [|b mask IH]; intros d Hlen.
  - by destruct d.
  - destruct d as [|x d]; [done|]. injection Hlen as Hlen.
    rewrite mask_indices_cons, map_app, map_map. simpl.
    rewrite IH by done. by destruct b.
Qed.

(** X8: [get_masked] returns the target as it is when the batch has no
    mask of the split; with a mask as long as a target vector it keeps
    exactly the entries at the mask's true positions, in order; a mask
    of another length than the target's first dimension is an
    [IndexError]. *)
Theorem X8_get_masked (target : tensor) (batch : gmap string (list bool))
    (split_name : string) :
  (batch !! (split_name +:+ "_mask")%string = None →
   SingleTask.get_masked target batch split_name = Ok target)
  ∧ (∀ mask,
       batch !! (split_name +:+ "_mask")%string = Some mask →
       shape target = [length mask] →
       length (data target) = length mask →
       ∃ kept,
         SingleTask.get_masked target batch split_name
         = Ok (Tensor [length kept] kept)
         ∧ kept = omap (λ '(x, b), if b : bool then Some x else None)
                       (zip (data target) mask))
  ∧ (∀ mask d rest,
       batch !! (split_name +:+ "_mask")%string = Some mask →
       shape target = d :: rest →
       length mask ≠ d →
       SingleTask.get_masked target batch split_name = Raise IndexError).
Proof.
  unfold SingleTask.get_masked. split; [|split].
  - by intros ->.
  - intros mask -> Hshape Hlen. destruct target as [sh d]. simpl in *. subst sh.
    unfold SingleTask.mask_index. simpl. rewrite Nat.eqb_refl.
    rewrite <- Hlen. rewrite index_vector by (rewrite Hlen; apply mask_indices_lt).
    exists (map (λ i, nth i d 0%Q) (SingleTask.mask_indices mask)).
    split; [by rewrite length_map|by apply mask_indices_select].
  - intros mask d rest -> Hshape Hne. unfold SingleTask.mask_index. rewrite Hshape.
    by apply Nat.eqb_neq in Hne as ->.
Qed.

Lemma X8_get_masked_witness :
  SingleTask.get_masked (Tensor [3] [5%Q; 6%Q; 7%Q]) ToySingle.masks "train"
  = Ok (Tensor [3] [5%Q; 6%Q; 7%Q])
  ∧ (∃ kept,
       SingleTask.get_masked (Tensor [3] [5%Q; 6%Q; 7%Q]) ToySingle.masks "val"
       = Ok (Tensor [length kept] kept)
       ∧ kept = [5%Q; 7%Q])
  ∧ SingleTask.get_masked (Tensor [2] [5%Q; 6%Q]) ToySingle.masks "val"
    = Raise IndexError.
Proof.
  split; [|split].
  - apply X8_get_masked. reflexivity.
  - apply (proj1 (proj2 (X8_get_masked (Tensor [3] [5%Q; 6%Q; 7%Q]) ToySingle.masks
                           "val")) [true; false; true]); reflexivity.
  - apply (proj2 (proj2 (X8_get_masked (Tensor [2] [5%Q; 6%Q]) ToySingle.masks
                           "val")) [true; false; true] 2 []); try reflexivity.
    simpl. lia.
Defined.

(** ** Runs of the training loops *)

Section RunFacts.
Context `{Collaborators}.

Lemma int_sum_cons x (l : list Z) :
  Training.int_sum (x :: l) = (x + Training.int_sum l)%Z.
Proof. by rewrite !int_sum_foldr. Qed.

Lemma get_time_Ok (w : world) t w' :
  get_time w = Ok (t, w') →
  t = time_at (ticks w) ∧ ticks w' = S (ticks w) ∧ hgt_params w' = hgt_params w
  ∧ hgt_training w' = hgt_training w ∧ trace w' = trace w.
Proof. unfold get_time. by intros [= <- <-]. Qed.

Lemma take_whole {B} (loader : list B) :
  take (batches_processed (PyNum.round (1 * PyNum.len loader)) (length loader)) loader
  = loader.
Proof. by rewrite round_len, batches_processed_all, firstn_all. Qed.

(** A loop whose steps each make one forward pass in the mode the model
    is in, and keep mode and clock, makes one forward pass per element,
    in order, all in that mode. *)
Lemma for_each_indexed_mode {St} (body : nat → Batch → St → M St) :
  (∀ i b s w s' w', body i b s w = Ok (s', w') →
     hgt_training w' = hgt_training w ∧ ticks w' = ticks w
     ∧ forward_events (trace w') = forward_events (trace w) ++ [(hgt_training w, b)]) →
  ∀ xs i s w s' w', for_each_indexed body i xs s w = Ok (s', w') →
    hgt_training w' = hgt_training w ∧ ticks w' = ticks w
    ∧ forward_events (trace w')
      = forward_events (trace w) ++ map (pair (hgt_training w)) xs.
Proof.
  intros Hbody xs. induction xs as [|x xs IH]; intros i s w s' w' Hrun; simpl in Hrun.
  - injection Hrun as _ <-. by rewrite app_nil_r.
  - apply bind_Ok in Hrun as (s1 & w1 & Hx & Hrun).
    apply Hbody in Hx as (Hm1 & Ht1 & Hev1).
    apply IH in Hrun as (Hm2 & Ht2 & Hev2).
    rewrite Hm2, Ht2, Hev2, Hev1, Hm1, Ht1. simpl.
    by rewrite <- app_assoc.
Qed.

Lemma for_each_mode {St} (body : St → Batch → M St) :
  (∀ s b w s' w', body s b w = Ok (s', w') →
     hgt_training w' = hgt_training w ∧ ticks w' = ticks w
     ∧ forward_events (trace w') = forward_events (trace w) ++ [(hgt_training w, b)]) →
  ∀ xs s w s' w', for_each body xs s w = Ok (s', w') →
    hgt_training w' = hgt_training w ∧ ticks w' = ticks w
    ∧ forward_events (trace w')
      = forward_events (trace w) ++ map (pair (hgt_training w)) xs.
Proof.
  intros Hbody xs. induction xs as [|x xs IH]; intros s w s' w' Hrun; simpl in Hrun.
  - injection Hrun as _ <-. by rewrite app_nil_r.
  - apply bind_Ok in Hrun as (s1 & w1 & Hx & Hrun).
    apply Hbody in Hx as (Hm1 & Ht1 & Hev1).
    apply IH in Hrun as (Hm2 & Ht2 & Hev2).
    rewrite Hm2, Ht2, Hev2, Hev1, Hm1, Ht1. simpl.
    by rewrite <- app_assoc.
Qed.

Lemma train_model_batch_world model loss_fn opt_step e nb i batch st w st' w' :
  SingleTask.train_model_batch model loss_fn opt_step e nb i batch st w = Ok (st', w') →
  hgt_training w' = hgt_training w ∧ ticks w' = ticks w
  ∧ forward_events (trace w') = forward_events (trace w) ++ [(hgt_training w, batch)].
Proof.
  unfold SingleTask.train_model_batch, bind, emit, call_model, get_params, set_params,
    ret. simpl.
  intros [= _ <-]. simpl. rewrite !forward_events_app. simpl.
  by rewrite app_nil_r.
Qed.

(** One epoch of [train_model]. *)
Lemma train_model_epoch_Ok model loss_fn opt_step split_loaders train_loader st e w st' w' :
  SingleTask.train_model_epoch model loss_fn opt_step split_loaders train_loader st e w
  = Ok (st', w') →
  ∃ er val_loader,
    st'.2 = st.2 ++ [er]
    ∧ Training.epoch_num er = Z.of_nat e
    ∧ Training.train_start_time er = time_at (ticks w)
    ∧ Training.train_end_time er = time_at (S (ticks w))
    ∧ ticks w' = S (S (ticks w))
    ∧ hgt_training w' = true
    ∧ split_loaders !! "val"%string = Some val_loader
    ∧ forward_events (trace w')
      = forward_events (trace w)
        ++ map (pair (hgt_training w)) train_loader ++ map (pair false) val_loader.
Proof.
  intros He. unfold SingleTask.train_model_epoch in He.
  apply bind_Ok in He as (t0 & w1 & Ht0 & He).
  apply get_time_Ok in Ht0 as (-> & Hk1 & _ & Hm1 & Htr1).
  apply bind_Ok in He as (lists & w2 & Hloop & He).
  apply (for_each_indexed_mode _ (train_model_batch_world model loss_fn opt_step e _))
    in Hloop as (Hm2 & Hk2 & Hev2).
  apply bind_Ok in He as (t1 & w3 & Ht1 & He).
  apply get_time_Ok in Ht1 as (-> & Hk3 & _ & Hm3 & Htr3).
  apply bind_Ok in He as (pred & w4 & Hp & He). apply lift_Ok in Hp as [_ ->].
  apply bind_Ok in He as (true' & w4 & Hp & He). apply lift_Ok in Hp as [_ ->].
  apply bind_Ok in He as (auc & w4 & Hp & He). apply lift_Ok in Hp as [_ ->].
  apply bind_Ok in He as (val_acc & w4 & Hval & He).
  apply evaluate_model_world in Hval as (val_loader & Hl & _ & _ & Hk4 & Hm4 & Hev4).
  injection He as <- <-. simpl.
  eexists _, val_loader. split_and!; simpl.
  - done.
  - done.
  - done.
  - by rewrite Hk2, Hk1.
  - by rewrite Hk4, Hk3, Hk2, Hk1.
  - done.
  - done.
  - rewrite Hev4, take_whole, Htr3, Hev2, Htr1, Hm1. by rewrite <- app_assoc.
Qed.

(** The loop over the epochs of [train_model], started in training
    mode. *)
Lemma train_model_epochs_Ok model loss_fn opt_step split_loaders train_loader epochs
    st w st' w' :
  for_each (SingleTask.train_model_epoch model loss_fn opt_step split_loaders train_loader)
    epochs st w = Ok (st', w') →
  hgt_training w = true →
  ∃ news,
    st'.2 = st.2 ++ news
    ∧ map Training.epoch_num news = map Z.of_nat epochs
    ∧ ticks w' = ticks w + 2 * length epochs
    ∧ hgt_training w' = true
    ∧ forward_events (trace w')
      = forward_events (trace w)
        ++ concat (repeat (map (pair true) train_loader
                           ++ map (pair false) (default [] (split_loaders !! "val"%string)))
                     (length epochs))
    ∧ ((∀ i j, i <= j → (time_at i <= time_at j)%Z) →
       Forall (λ er, (Training.train_start_time er <= Training.train_end_time er)%Z) news
       ∧ (Training.int_sum
            (map (λ er, (Training.train_end_time er - Training.train_start_time er)%Z)
               news)
          <= time_at (ticks w') - time_at (ticks w))%Z).
Proof.
  revert st w. induction epochs as [|e epochs IH]; intros st w Hrun Hmode;
    simpl in Hrun.
  - injection Hrun as <- <-. exists []. rewrite !app_nil_r. simpl.
    split_and!; try done. intros _. split; [constructor|].
    unfold Training.int_sum. simpl. lia.
  - apply bind_Ok in Hrun as (st1 & w1 & He & Hrun).
    apply train_model_epoch_Ok in He
      as (er & val_loader & Hst1 & Hnum & Hs & He' & Hk & Hm & Hl & Hev).
    destruct (IH _ _ Hrun Hm) as (news & Hst' & Hnums & Hk' & Hm' & Hev' & Htime).
    exists (er :: news). rewrite Hst', Hst1, <- app_assoc. simpl.
    split_and!.
    + done.
    + by rewrite Hnum, Hnums.
    + lia.
    + done.
    + rewrite Hev', Hev, Hmode, Hl. simpl. by rewrite <- !app_assoc.
    + intros Hmono. destruct (Htime Hmono) as [Hall Hsum]. split.
      * constructor; [|done]. rewrite Hs, He'. apply Hmono. lia.
      * rewrite int_sum_cons, Hs, He'.
        pose proof (Hmono (S (ticks w)) (ticks w1) ltac:(lia)).
        lia.
Qed.

(** What [train_model] puts into its result and leaves behind. *)
Lemma train_model_Ok model loss_fn opt_step split_loaders file_name num_epochs lr
    w result w' :
  SingleTask.train_model model loss_fn opt_step split_loaders file_name num_epochs lr w
  = Ok (result, w') →
  ∃ train_loader test_loader w0 st w1,
    split_loaders !! "train"%string = Some train_loader
    ∧ split_loaders !! "test"%string = Some test_loader
    ∧ ticks w0 = S (ticks w) ∧ hgt_training w0 = true
    ∧ forward_events (trace w0) = forward_events (trace w)
    ∧ for_each
        (SingleTask.train_model_epoch model loss_fn opt_step split_loaders train_loader)
        (seq 1 (Z.to_nat num_epochs)) (adam lr, []) w0 = Ok (st, w1)
    ∧ Training.start_time result = time_at (ticks w)
    ∧ Training.end_time result = time_at (ticks w1)
    ∧ Training.epoch_results result = st.2
    ∧ Training.state_dict result = hgt_params w1
    ∧ hgt_params w' = hgt_params w1
    ∧ ticks w' = S (ticks w1)
    ∧ hgt_training w' = false
    ∧ forward_events (trace w')
      = forward_events (trace w1) ++ map (pair false) test_loader
    ∧ ∃ tr, trace w' = tr ++ [TorchSave file_name].
Proof.
  intros Ht. unfold SingleTask.train_model in Ht.
  apply bind_Ok in Ht as ([] & w1 & Hm & Ht). injection Hm as <-.
  apply bind_Ok in Ht as (t0 & w2 & Ht0 & Ht).
  apply get_time_Ok in Ht0 as (-> & Hk2 & _ & Hm2 & Htr2).
  apply bind_Ok in Ht as ([] & w3 & Hp & Ht). injection Hp as <-.
  apply bind_Ok in Ht as (train_loader & w4 & Hl & Ht).
  apply lift_Ok in Hl as [Hl ->]. apply dict_getitem_Ok in Hl.
  apply bind_Ok in Ht as (st & w5 & Hloop & Ht).
  apply bind_Ok in Ht as (sd & w6 & Hsd & Ht). injection Hsd as <- <-.
  apply bind_Ok in Ht as (test_acc & w7 & Heval & Ht).
  apply evaluate_model_world in Heval as (test_loader & Hlt & _ & Hp7 & Hk7 & Hm7 & Hev7).
  apply bind_Ok in Ht as ([] & w8 & Hm & Ht). injection Hm as <-.
  apply bind_Ok in Ht as (t1 & w9 & Ht1 & Ht).
  apply get_time_Ok in Ht1 as (-> & Hk9 & Hp9 & Hm9 & Htr9).
  apply bind_Ok in Ht as ([] & w10 & Hs & Ht). injection Hs as <-.
  injection Ht as <- <-. simpl in *.
  exists train_loader, test_loader, (log [Print (SingleTask.start_line (time_at (ticks w)) file_name)] w2), st, w5.
  split_and!; simpl; try done.
  - rewrite forward_events_app, Htr2. simpl. by rewrite app_nil_r.
  - by rewrite Hk7.
  - congruence.
  - congruence.
  - rewrite forward_events_app. simpl. by rewrite app_nil_r, Htr9, Hev7, take_whole.
  - by eexists.
Qed.

End RunFacts.

(** X9: a completed [train_model] returns one epoch result per epoch,
    numbered from 1 in order, has read the clock twice per epoch and
    twice more, leaves the model in evaluation mode, has saved the
    result as its last action, and the parameters in the result are
    those the model has when it returns. *)
Theorem X9_train_model_result `{Collaborators}
    (model : params → bool → Batch → tensor) (loss_fn : tensor → tensor → Q)
    (opt_step : opt_state → params → Batch → Q → params * opt_state)
    (split_loaders : gmap string (list Batch)) (file_name : string)
    (num_epochs : Z) (lr : Q) (w : world)
    (result : Training.ModelResult params) (w' : world) :
  SingleTask.train_model model loss_fn opt_step split_loaders file_name num_epochs lr w
  = Ok (result, w') →
  map Training.epoch_num (Training.epoch_results result)
  = map Z.of_nat (seq 1 (Z.to_nat num_epochs))
  ∧ ticks w' = ticks w + 2 * Z.to_nat num_epochs + 2
  ∧ hgt_training w' = false
  ∧ Training.state_dict result = hgt_params w'
  ∧ ∃ tr, trace w' = tr ++ [TorchSave file_name].
Proof.
  intros Ht. apply train_model_Ok in Ht
    as (train_loader & test_loader & w0 & st & w1 & _ & _ & Hk0 & Hm0 & _ & Hloop
        & _ & _ & Hres & Hsd & Hp & Hk & Hm & _ & Hlast).
  apply train_model_epochs_Ok in Hloop as (news & Hst & Hnums & Hk1 & _); [|done].
  rewrite length_seq in Hk1.
  split_and!; try done.
  - by rewrite Hres, Hst.
  - lia.
  - congruence.
Qed.

Lemma X9_train_model_result_witness :
  ∃ result w',
    @SingleTask.train_model Toy.collaborators ToySingle.model ToySingle.loss_fn
      ToySingle.opt_step Toy.loaders "m.pt" 2 (1 # 100) Toy.world0 = Ok (result, w')
    ∧ map Training.epoch_num (Training.epoch_results result) = [1%Z; 2%Z]
    ∧ ticks w' = 6
    ∧ hgt_training w' = false.
Proof.
  destruct (@SingleTask.train_model Toy.collaborators ToySingle.model ToySingle.loss_fn
              ToySingle.opt_step Toy.loaders "m.pt" 2 (1 # 100) Toy.world0)
    as [[result w']|e] eqn:Ht; [|vm_compute in Ht; discriminate].
  destruct (@X9_train_model_result Toy.collaborators _ _ _ _ _ _ _ _ _ _ Ht)
    as (Hnums & Hk & Hm & _).
  exists result, w'. split; [reflexivity|]. split; [exact Hnums|].
  split; [exact Hk|exact Hm].
Defined.

(** X10: when the clock never goes back, the seconds of training of
    the result of a completed [train_model] are not negative and at
    most the time between the start and the end of the run. *)
Theorem X10_train_time_within_run `{Collaborators}
    (model : params → bool → Batch → tensor) (loss_fn : tensor → tensor → Q)
    (opt_step : opt_state → params → Batch → Q → params * opt_state)
    (split_loaders : gmap string (list Batch)) (file_name : string)
    (num_epochs : Z) (lr : Q) (w : world)
    (result : Training.ModelResult params) (w' : world) :
  (∀ i j, i <= j → (time_at i <= time_at j)%Z) →
  SingleTask.train_model model loss_fn opt_step split_loaders file_name num_epochs lr w
  = Ok (result, w') →
  (0 <= Training.get_total_train_time_sec result
     <= Training.end_time result - Training.start_time result)%Z.
Proof.
  intros Hmono Ht. apply train_model_Ok in Ht
    as (train_loader & test_loader & w0 & st & w1 & _ & _ & Hk0 & Hm0 & _ & Hloop
        & Hs & He & Hres & _).
  apply train_model_epochs_Ok in Hloop as (news & Hst & _ & _ & _ & _ & Htime); [|done].
  destruct (Htime Hmono) as [Hall Hsum].
  unfold Training.get_total_train_time_sec. rewrite Hres, Hst, Hs, He. simpl.
  split.
  - apply int_sum_nonneg, Forall_map. eapply Forall_impl; [exact Hall|].
    simpl. intros. lia.
  - pose proof (Hmono (ticks w) (ticks w0) ltac:(lia)). lia.
Qed.

Lemma X10_train_time_within_run_witness :
  ∃ result w',
    @SingleTask.train_model Toy.collaborators ToySingle.model ToySingle.loss_fn
      ToySingle.opt_step Toy.loaders "m.pt" 2 (1 # 100) Toy.world0 = Ok (result, w')
    ∧ (0 <= Training.get_total_train_time_sec result
         <= Training.end_time result - Training.start_time result)%Z.
Proof.
  destruct (@SingleTask.train_model Toy.collaborators ToySingle.model ToySingle.loss_fn
              ToySingle.opt_step Toy.loaders "m.pt" 2 (1 # 100) Toy.world0)
    as [[result w']|e] eqn:Ht; [|vm_compute in Ht; discriminate].
  exists result, w'. split; [reflexivity|].
  refine (@X10_train_time_within_run Toy.collaborators _ _ _ _ _ _ _ _ _ _ _ Ht).
  intros i j Hij. change (Z.of_nat (100 + 60 * i) <= Z.of_nat (100 + 60 * j))%Z. lia.
Defined.

(** X11: a completed [train_model] has run the model, epoch after
    epoch, in training mode on every batch of the training loader and
    then in evaluation mode on every batch of the validation loader,
    and at the end in evaluation mode on every batch of the test
    loader, and on nothing else. *)
Theorem X11_train_model_schedule `{Collaborators}
    (model : params → bool → Batch → tensor) (loss_fn : tensor → tensor → Q)
    (opt_step : opt_state → params → Batch → Q → params * opt_state)
    (split_loaders : gmap string (list Batch)) (file_name : string)
    (num_epochs : Z) (lr : Q) (w : world)
    (result : Training.ModelResult params) (w' : world) :
  SingleTask.train_model model loss_fn opt_step split_loaders file_name num_epochs lr w
  = Ok (result, w') →
  ∃ train_loader test_loader,
    split_loaders !! "train"%string = Some train_loader
    ∧ split_loaders !! "test"%string = Some test_loader
    ∧ forward_events (trace w')
      = forward_events (trace w)
        ++ concat (repeat (map (pair true) train_loader
                           ++ map (pair false)
                                (default [] (split_loaders !! "val"%string)))
                     (Z.to_nat num_epochs))
        ++ map (pair false) test_loader.
Proof.
  intros Ht. apply train_model_Ok in Ht
    as (train_loader & test_loader & w0 & st & w1 & Hl & Hlt & _ & Hm0 & Hev0 & Hloop
        & _ & _ & _ & _ & _ & _ & _ & Hev & _).
  apply train_model_epochs_Ok in Hloop as (news & _ & _ & _ & _ & Hev1 & _); [|done].
  exists train_loader, test_loader. split; [done|]. split; [done|].
  rewrite Hev, Hev1, Hev0, length_seq. by rewrite <- app_assoc.
Qed.

Lemma X11_train_model_schedule_witness :
  ∃ result w',
    @SingleTask.train_model Toy.collaborators ToySingle.model ToySingle.loss_fn
      ToySingle.opt_step Toy.loaders "m.pt" 1 (1 # 100) Toy.world0 = Ok (result, w')
    ∧ forward_events (trace w')
      = [(true, Toy.batch_of 1); (true, Toy.batch_of_two);
         (false, Toy.batch_of 2); (false, Toy.batch_of 1);
         (false, Toy.batch_of 0); (false, Toy.batch_of_two)].
Proof.
  destruct (@SingleTask.train_model Toy.collaborators ToySingle.model ToySingle.loss_fn
              ToySingle.opt_step Toy.loaders "m.pt" 1 (1 # 100) Toy.world0)
    as [[result w']|e] eqn:Ht; [|vm_compute in Ht; discriminate].
  destruct (@X11_train_model_schedule Toy.collaborators _ _ _ _ _ _ _ _ _ _ Ht)
    as (train_loader & test_loader & Hl & Hlt & Hev).
  vm_compute in Hl. injection Hl as <-. vm_compute in Hlt. injection Hlt as <-.
  exists result, w'. split; [reflexivity|]. exact Hev.
Defined.

Section TrainRunFacts.
Context `{Collaborators}.

Lemma train_batch_world fb lw rw st batch w st' w' :
  train_batch fb lw rw st batch w = Ok (st', w') →
  hgt_training w' = hgt_training w ∧ ticks w' = ticks w
  ∧ forward_events (trace w') = forward_events (trace w) ++ [(hgt_training w, batch)].
Proof.
  intros Hb. unfold train_batch in Hb.
  apply bind_Ok in Hb as ([[pos_pred neg_pred] z_dict] & w0 & Hf & Hb).
  apply forward_Ok in Hf as [_ ->].
  apply bind_Ok in Hb as (s & w1 & Hs & Hb).
  apply sample_negatives_world in Hs as (_ & (_ & Hm & Hk) & Htr).
  apply bind_Ok in Hb as (p & w2 & Hp & Hb). injection Hp as _ <-.
  apply bind_Ok in Hb as ([] & w3 & Hsp & Hb). injection Hsp as <-.
  injection Hb as _ <-. simpl in *.
  split_and!; try done.
  rewrite Htr, forward_events_app. simpl. done.
Qed.

(** One epoch of [train]. *)
Lemma train_epoch_run split_loaders train_loader eval_qa_dataset train_fb val_fb mapping
    lw rw st e w st' w' :
  train_epoch split_loaders train_loader eval_qa_dataset train_fb val_fb mapping lw rw
    st e w = Ok (st', w') →
  ∃ er val_loader,
    st'.2 = st.2 ++ [er]
    ∧ MlUtils.train_start_time er = time_at (ticks w)
    ∧ MlUtils.train_end_time er = time_at (S (ticks w))
    ∧ ticks w' = S (S (ticks w))
    ∧ hgt_training w' = true
    ∧ split_loaders !! "val"%string = Some val_loader
    ∧ forward_events (trace w')
      = forward_events (trace w)
        ++ map (pair (hgt_training w)) train_loader ++ map (pair false) val_loader.
Proof.
  intros He. unfold train_epoch in He.
  apply bind_Ok in He as (t0 & w1 & Ht0 & He).
  apply get_time_Ok in Ht0 as (-> & Hk1 & _ & Hm1 & Htr1).
  apply bind_Ok in He as ([] & w2 & Hp & He). injection Hp as <-.
  apply bind_Ok in He as (lists & w3 & Hloop & He).
  apply (for_each_mode _ (train_batch_world train_fb lw rw))
    in Hloop as (Hm3 & Hk3 & Hev3).
  apply bind_Ok in He as (t1 & w4 & Ht1 & He).
  apply get_time_Ok in Ht1 as (-> & Hk4 & _ & Hm4 & Htr4).
  apply bind_Ok in He as ([pred true'] & w5 & Hc & He).
  apply concat_link_world in Hc as ->.
  apply bind_Ok in He as (auc & w5 & Hp & He). apply lift_Ok in Hp as [_ ->].
  apply bind_Ok in He as ([[val_pred val_true] val_llm] & w5 & Hval & He).
  apply evaluate_world in Hval as (val_loader & Hl & _ & _ & Hk5 & Hm5 & Hev5).
  apply bind_Ok in He as (vauc & w6 & Hp & He). apply lift_Ok in Hp as [_ ->].
  injection He as <- <-. simpl in *.
  eexists _, val_loader. split_and!; simpl; try done.
  - cbn. by rewrite Hk3, Hk1.
  - congruence.
  - rewrite Hev5, take_whole, Htr4, Hev3, Hm1. simpl.
    rewrite forward_events_app, Htr1. simpl. by rewrite app_nil_r, <- app_assoc.
Qed.

(** The loop over the epochs of [train], started in training mode. *)
Lemma train_epochs_run split_loaders train_loader eval_qa_dataset train_fb val_fb mapping
    lw rw epochs st w st' w' :
  for_each
    (train_epoch split_loaders train_loader eval_qa_dataset train_fb val_fb mapping lw rw)
    epochs st w = Ok (st', w') →
  hgt_training w = true →
  ∃ news,
    st'.2 = st.2 ++ news
    ∧ ticks w' = ticks w + 2 * length epochs
    ∧ hgt_training w' = true
    ∧ forward_events (trace w')
      = forward_events (trace w)
        ++ concat (repeat (map (pair true) train_loader
                           ++ map (pair false) (default [] (split_loaders !! "val"%string)))
                     (length epochs))
    ∧ ((∀ i j, i <= j → (time_at i <= time_at j)%Z) →
       Forall (λ er, (time_at (ticks w) <= MlUtils.train_start_time er)%Z
                     ∧ (MlUtils.train_start_time er <= MlUtils.train_end_time er)%Z
                     ∧ (MlUtils.train_end_time er <= time_at (ticks w'))%Z) news).
Proof.
  revert st w. induction epochs as [|e epochs IH]; intros st w Hrun Hmode;
    simpl in Hrun.
  - injection Hrun as <- <-. exists []. rewrite !app_nil_r. simpl.
    split_and!; try done.
  - apply bind_Ok in Hrun as (st1 & w1 & He & Hrun).
    apply train_epoch_run in He
      as (er & val_loader & Hst1 & Hs & He' & Hk & Hm & Hl & Hev).
    destruct (IH _ _ Hrun Hm) as (news & Hst' & Hk' & Hm' & Hev' & Htime).
    exists (er :: news). rewrite Hst', Hst1, <- app_assoc. simpl.
    split_and!; try done.
    + lia.
    + rewrite Hev', Hev, Hmode, Hl. simpl. by rewrite <- !app_assoc.
    + intros Hmono. specialize (Htime Hmono). constructor.
      * rewrite Hs, He'. split_and!; [lia|apply Hmono; lia|apply Hmono; lia].
      * eapply Forall_impl; [exact Htime|]. simpl. intros x (H1 & H2 & H3).
        pose proof (Hmono (ticks w) (ticks w1) ltac:(lia)). split_and!; lia.
Qed.

(** What [train] puts into its result and leaves behind. *)
Lemma train_run split_loaders file_name qa_dataset train_fb val_fb mapping
    num_epochs lr lw w result w' :
  train split_loaders file_name qa_dataset train_fb val_fb mapping num_epochs lr lw w
  = Ok (result, w') →
  ∃ eval_qa_dataset train_loader test_loader w0 st w1,
    qa_dataset !! "validation"%string = Some eval_qa_dataset
    ∧ split_loaders !! "train"%string = Some train_loader
    ∧ split_loaders !! "test"%string = Some test_loader
    ∧ ticks w0 = S (ticks w) ∧ hgt_training w0 = true
    ∧ hgt_params w0 = hgt_params w
    ∧ forward_events (trace w0) = forward_events (trace w)
    ∧ for_each
        (train_epoch split_loaders train_loader eval_qa_dataset train_fb val_fb mapping
           lw (llm_relevancy_loss_weight_of lw))
        (seq 1 (Z.to_nat num_epochs)) (adam lr, []) w0 = Ok (st, w1)
    ∧ MlUtils.start_time result = time_at (ticks w)
    ∧ MlUtils.end_time result = time_at (ticks w1)
    ∧ MlUtils.epoch_results result = st.2
    ∧ MlUtils.state_dict result = hgt_params w1
    ∧ hgt_params w' = hgt_params w1
    ∧ ticks w' = S (ticks w1)
    ∧ hgt_training w' = false
    ∧ forward_events (trace w')
      = forward_events (trace w1) ++ map (pair false) test_loader
    ∧ ∃ tr, trace w' = tr ++ [TorchSave file_name].
Proof.
  intros Ht. unfold train in Ht.
  apply bind_Ok in Ht as ([] & w1 & Hm & Ht). injection Hm as <-.
  apply bind_Ok in Ht as (eval_qa & w2 & Hq & Ht).
  apply lift_Ok in Hq as [Hq ->]. apply dict_getitem_Ok in Hq.
  apply bind_Ok in Ht as (t0 & w2 & Ht0 & Ht).
  apply get_time_Ok in Ht0 as (-> & Hk2 & Hp2 & Hm2 & Htr2).
  apply bind_Ok in Ht as ([] & w3 & Hp & Ht). injection Hp as <-.
  apply bind_Ok in Ht as (train_loader & w4 & Hl & Ht).
  apply lift_Ok in Hl as [Hl ->]. apply dict_getitem_Ok in Hl.
  apply bind_Ok in Ht as (st & w5 & Hloop & Ht).
  apply bind_Ok in Ht as (sd & w6 & Hsd & Ht). injection Hsd as <- <-.
  apply bind_Ok in Ht as ([[test_pred test_true] test_llm] & w7 & Heval & Ht).
  apply evaluate_world in Heval as (test_loader & Hlt & _ & Hp7 & Hk7 & Hm7 & Hev7).
  apply bind_Ok in Ht as (auc & w8 & Ha & Ht). apply lift_Ok in Ha as [_ ->].
  apply bind_Ok in Ht as ([] & w8 & Hm & Ht). injection Hm as <-.
  apply bind_Ok in Ht as (t1 & w9 & Ht1 & Ht).
  apply get_time_Ok in Ht1 as (-> & Hk9 & Hp9 & Hm9 & Htr9).
  apply bind_Ok in Ht as ([] & w10 & Hs & Ht). injection Hs as <-.
  injection Ht as <- <-. simpl in *.
  exists eval_qa, train_loader, test_loader,
    (log [Print ("Saving results to " +:+ file_name)%string] w2), st, w5.
  split_and!; simpl; try done.
  - rewrite forward_events_app, Htr2. simpl. by rewrite app_nil_r.
  - by rewrite Hk7.
  - congruence.
  - congruence.
  - rewrite forward_events_app. simpl. by rewrite app_nil_r, Htr9, Hev7, take_whole.
  - by eexists.
Qed.

End TrainRunFacts.

(** X12: a completed [train] has read the clock twice per epoch and
    twice more, leaves the model in evaluation mode, has saved the
    result as its last action, and the parameters in the result are
    those the model has when it returns: the evaluation on the test
    split does not change them. *)
Theorem X12_train_result `{Collaborators}
    (split_loaders : gmap string (list Batch)) (file_name : string)
    (qa_dataset : gmap string (list DatasetRow))
    (train_fb val_fb : gmap nat LLMFeedback)
    (mapping : gmap nat (list (string * nat)))
    (num_epochs : Z) (lr lw : Q) (w : world)
    (result : MlUtils.ModelResult params) (w' : world) :
  train split_loaders file_name qa_dataset train_fb val_fb mapping num_epochs lr lw w
  = Ok (result, w') →
  ticks w' = ticks w + 2 * Z.to_nat num_epochs + 2
  ∧ hgt_training w' = false
  ∧ MlUtils.state_dict result = hgt_params w'
  ∧ ∃ tr, trace w' = tr ++ [TorchSave file_name].
Proof.
  intros Ht. apply train_run in Ht
    as (eval_qa & train_loader & test_loader & w0 & st & w1 & _ & _ & _ & Hk0 & Hm0 & _
        & _ & Hloop & _ & _ & _ & Hsd & Hp & Hk & Hm & _ & Hlast).
  apply train_epochs_run in Hloop as (news & _ & Hk1 & _); [|done].
  rewrite length_seq in Hk1.
  split_and!; try done; [lia|congruence].
Qed.

Lemma X12_train_result_witness :
  ∃ result w',
    @train Toy.collaborators Toy.loaders "out.pt" Toy.dataset Toy.feedbacks
      Toy.feedbacks Toy.subgraphs 2 (1 # 100) (3 # 10) Toy.world0 = Ok (result, w')
    ∧ ticks w' = 6 ∧ hgt_training w' = false.
Proof.
  destruct (@train Toy.collaborators Toy.loaders "out.pt" Toy.dataset Toy.feedbacks
              Toy.feedbacks Toy.subgraphs 2 (1 # 100) (3 # 10) Toy.world0)
    as [[result w']|e] eqn:Ht; [|vm_compute in Ht; discriminate].
  destruct (@X12_train_result Toy.collaborators _ _ _ _ _ _ _ _ _ _ _ _ Ht)
    as (Hk & Hm & _).
  exists result, w'. split; [reflexivity|]. split; [exact Hk|exact Hm].
Defined.

(** X13: a completed [train] has run the graph model, epoch after
    epoch, in training mode on every batch of the training loader and
    then in evaluation mode on every batch of the validation loader,
    and at the end in evaluation mode on every batch of the test
    loader, and on nothing else. *)
Theorem X13_train_schedule `{Collaborators}
    (split_loaders : gmap string (list Batch)) (file_name : string)
    (qa_dataset : gmap string (list DatasetRow))
    (train_fb val_fb : gmap nat LLMFeedback)
    (mapping : gmap nat (list (string * nat)))
    (num_epochs : Z) (lr lw : Q) (w : world)
    (result : MlUtils.ModelResult params) (w' : world) :
  train split_loaders file_name qa_dataset train_fb val_fb mapping num_epochs lr lw w
  = Ok (result, w') →
  ∃ train_loader test_loader,
    split_loaders !! "train"%string = Some train_loader
    ∧ split_loaders !! "test"%string = Some test_loader
    ∧ forward_events (trace w')
      = forward_events (trace w)
        ++ concat (repeat (map (pair true) train_loader
                           ++ map (pair false)
                                (default [] (split_loaders !! "val"%string)))
                     (Z.to_nat num_epochs))
        ++ map (pair false) test_loader.
Proof.
  intros Ht. apply train_run in Ht
    as (eval_qa & train_loader & test_loader & w0 & st & w1 & _ & Hl & Hlt & _ & Hm0 & _
        & Hev0 & Hloop & _ & _ & _ & _ & _ & _ & _ & Hev & _).
  apply train_epochs_run in Hloop as (news & _ & _ & _ & Hev1 & _); [|done].
  exists train_loader, test_loader. split; [done|]. split; [done|].
  rewrite Hev, Hev1, Hev0, length_seq. by rewrite <- app_assoc.
Qed.

Lemma X13_train_schedule_witness :
  ∃ result w',
    @train Toy.collaborators Toy.loaders "out.pt" Toy.dataset Toy.feedbacks
      Toy.feedbacks Toy.subgraphs 1 (1 # 100) (3 # 10) Toy.world0 = Ok (result, w')
    ∧ forward_events (trace w')
      = [(true, Toy.batch_of 1); (true, Toy.batch_of_two);
         (false, Toy.batch_of 2); (false, Toy.batch_of 1);
         (false, Toy.batch_of 0); (false, Toy.batch_of_two)].
Proof.
  destruct (@train Toy.collaborators Toy.loaders "out.pt" Toy.dataset Toy.feedbacks
              Toy.feedbacks Toy.subgraphs 1 (1 # 100) (3 # 10) Toy.world0)
    as [[result w']|e] eqn:Ht; [|vm_compute in Ht; discriminate].
  destruct (@X13_train_schedule Toy.collaborators _ _ _ _ _ _ _ _ _ _ _ _ Ht)
    as (train_loader & test_loader & Hl & Hlt & Hev).
  vm_compute in Hl. injection Hl as <-. vm_compute in Hlt. injection Hlt as <-.
  exists result, w'. split; [reflexivity|]. exact Hev.
Defined.

(** X14: when the clock never goes back, the timestamps in the result
    of a completed [train] are in order: every epoch starts at or after
    the start of the run, ends at or after its own start, and ends at
    or before the end of the run. *)
Theorem X14_train_timestamps_in_order `{Collaborators}
    (split_loaders : gmap string (list Batch)) (file_name : string)
    (qa_dataset : gmap string (list DatasetRow))
    (train_fb val_fb : gmap nat LLMFeedback)
    (mapping : gmap nat (list (string * nat)))
    (num_epochs : Z) (lr lw : Q) (w : world)
    (result : MlUtils.ModelResult params) (w' : world) :
  (∀ i j, i <= j → (time_at i <= time_at j)%Z) →
  train split_loaders file_name qa_dataset train_fb val_fb mapping num_epochs lr lw w
  = Ok (result, w') →
  (MlUtils.start_time result <= MlUtils.end_time result)%Z
  ∧ Forall (λ er, (MlUtils.start_time result <= MlUtils.train_start_time er)%Z
                  ∧ (MlUtils.train_start_time er <= MlUtils.train_end_time er)%Z
                  ∧ (MlUtils.train_end_time er <= MlUtils.end_time result)%Z)
      (MlUtils.epoch_results result).
Proof.
  intros Hmono Ht. apply train_run in Ht
    as (eval_qa & train_loader & test_loader & w0 & st & w1 & _ & _ & _ & Hk0 & Hm0 & _
        & _ & Hloop & Hs & He & Hres & _).
  apply train_epochs_run in Hloop as (news & Hst & Hk1 & _ & _ & Htime); [|done].
  specialize (Htime Hmono). rewrite Hs, He, Hres, Hst. simpl. split.
  - apply Hmono. lia.
  - eapply Forall_impl; [exact Htime|]. simpl. intros x (H1 & H2 & H3).
    pose proof (Hmono (ticks w) (ticks w0) ltac:(lia)). split_and!; lia.
Qed.

Lemma X14_train_timestamps_in_order_witness :
  ∃ result w',
    @train Toy.collaborators Toy.loaders "out.pt" Toy.dataset Toy.feedbacks
      Toy.feedbacks Toy.subgraphs 2 (1 # 100) (3 # 10) Toy.world0 = Ok (result, w')
    ∧ (MlUtils.start_time result <= MlUtils.end_time result)%Z.
Proof.
  destruct (@train Toy.collaborators Toy.loaders "out.pt" Toy.dataset Toy.feedbacks
              Toy.feedbacks Toy.subgraphs 2 (1 # 100) (3 # 10) Toy.world0)
    as [[result w']|e] eqn:Ht; [|vm_compute in Ht; discriminate].
  exists result, w'. split; [reflexivity|].
  refine (proj1 (@X14_train_timestamps_in_order Toy.collaborators _ _ _ _ _ _ _ _ _ _
                   _ _ _ Ht)).
  intros i j Hij. change (Z.of_nat (100 + 60 * i) <= Z.of_nat (100 + 60 * j))%Z. lia.
Defined.

(** X15: [train] ends in a [KeyError] when the dataset has no
    validation split or the loaders have no training split, and in the
    error of [torch.cat] on no tensors when it is to run an epoch on a
    training loader without batches; with no epoch to run, a completed
    [train] returns an empty history and the parameters it was given,
    unchanged. *)
Theorem X15_train_edges `{Collaborators}
    (split_loaders : gmap string (list Batch)) (file_name : string)
    (qa_dataset : gmap string (list DatasetRow))
    (train_fb val_fb : gmap nat LLMFeedback)
    (mapping : gmap nat (list (string * nat)))
    (num_epochs : Z) (lr lw : Q) (w : world) :
  (qa_dataset !! "validation"%string = None →
   train split_loaders file_name qa_dataset train_fb val_fb mapping num_epochs lr lw w
   = Raise KeyError)
  ∧ (is_Some (qa_dataset !! "validation"%string) →
     split_loaders !! "train"%string = None →
     train split_loaders file_name qa_dataset train_fb val_fb mapping num_epochs lr lw w
     = Raise KeyError)
  ∧ (is_Some (qa_dataset !! "validation"%string) →
     split_loaders !! "train"%string = Some [] →
     (1 <= num_epochs)%Z →
     train split_loaders file_name qa_dataset train_fb val_fb mapping num_epochs lr lw w
     = Raise RuntimeError)
  ∧ ((num_epochs <= 0)%Z →
     ∀ result w',
       train split_loaders file_name qa_dataset train_fb val_fb mapping num_epochs lr lw w
       = Ok (result, w') →
       MlUtils.epoch_results result = []
       ∧ MlUtils.state_dict result = hgt_params w
       ∧ hgt_params w' = hgt_params w).
Proof.
  split_and!.
  - intros Hq. unfold train, dict_getitem. unfold bind at 1. unfold set_mode at 1.
    unfold bind at 1. by rewrite Hq.
  - intros [rows Hq] Hl. unfold train, dict_getitem.
    unfold bind at 1. unfold set_mode at 1.
    unfold bind at 1. rewrite Hq. unfold lift at 1. simpl or_raise.
    unfold bind at 1. unfold get_time at 1.
    unfold bind at 1. unfold emit at 1.
    unfold bind at 1. by rewrite Hl.
  - intros [rows Hq] Hl Hn. unfold train, dict_getitem.
    unfold bind at 1. unfold set_mode at 1.
    unfold bind at 1. rewrite Hq. unfold lift at 1. simpl or_raise.
    unfold bind at 1. unfold get_time at 1.
    unfold bind at 1. unfold emit at 1.
    unfold bind at 1. rewrite Hl. unfold lift at 1. simpl or_raise.
    destruct (Z.to_nat num_epochs) as [|n] eqn:En; [lia|].
    simpl seq. simpl for_each. reflexivity.
  - intros Hn result w' Ht. apply train_run in Ht
      as (eval_qa & train_loader & test_loader & w0 & st & w1 & _ & _ & _ & _ & _ & Hp0
          & _ & Hloop & _ & _ & Hres & Hsd & Hp & _).
    assert (Z.to_nat num_epochs = 0) as Hz by lia. rewrite Hz in Hloop.
    change (Ok (adam lr, @nil MlUtils.EpochResult, w0) = Ok (st, w1)) in Hloop.
    injection Hloop as Hst Hw. subst st w1.
    split_and!; [done|congruence|congruence].
Qed.

Lemma X15_train_edges_witness :
  @train Toy.collaborators Toy.loaders "out.pt" ∅ Toy.feedbacks Toy.feedbacks
    Toy.subgraphs 2 (1 # 100) (3 # 10) Toy.world0 = Raise KeyError
  ∧ @train Toy.collaborators (<["train"%string := []]> Toy.loaders) "out.pt" Toy.dataset
      Toy.feedbacks Toy.feedbacks Toy.subgraphs 2 (1 # 100) (3 # 10) Toy.world0
    = Raise RuntimeError
  ∧ ∃ result w',
      @train Toy.collaborators Toy.loaders "out.pt" Toy.dataset Toy.feedbacks
        Toy.feedbacks Toy.subgraphs 0 (1 # 100) (3 # 10) Toy.world0 = Ok (result, w')
      ∧ MlUtils.epoch_results result = []
      ∧ MlUtils.state_dict result = (1%Q : @params Toy.collaborators).
Proof.
  split_and!.
  - apply (proj1 (@X15_train_edges Toy.collaborators Toy.loaders "out.pt" ∅
                    Toy.feedbacks Toy.feedbacks Toy.subgraphs 2 (1 # 100) (3 # 10)
                    Toy.world0)).
    reflexivity.
  - apply (proj1 (proj2 (proj2 (@X15_train_edges Toy.collaborators
                    (<["train"%string := []]> Toy.loaders) "out.pt" Toy.dataset
                    Toy.feedbacks Toy.feedbacks Toy.subgraphs 2 (1 # 100) (3 # 10)
                    Toy.world0)))).
    + eexists. reflexivity.
    + reflexivity.
    + lia.
  - destruct (@train Toy.collaborators Toy.loaders "out.pt" Toy.dataset Toy.feedbacks
                Toy.feedbacks Toy.subgraphs 0 (1 # 100) (3 # 10) Toy.world0)
      as [[result w']|e] eqn:Ht; [|vm_compute in Ht; discriminate].
    destruct (proj2 (proj2 (proj2 (@X15_train_edges Toy.collaborators Toy.loaders
                "out.pt" Toy.dataset Toy.feedbacks Toy.feedbacks Toy.subgraphs 0
                (1 # 100) (3 # 10) Toy.world0))) ltac:(lia) _ _ Ht)
      as (Hres & Hsd & _).
    exists result, w'. split; [reflexivity|]. split; [exact Hres|exact Hsd].
Defined.

(** ** The range of the LLM accuracies *)

Lemma len_cons {A} (x : A) (l : list A) : (PyNum.len (x :: l) == 1 + PyNum.len l)%Q.
Proof.
  unfold PyNum.len. simpl length. rewrite Nat2Z.inj_succ, <- Z.add_1_l.
  by rewrite inject_Z_plus.
Qed.

Lemma len_nonneg {A} (l : list A) : (0 <= PyNum.len l)%Q.
Proof.
  unfold PyNum.len. change 0%Q with (inject_Z 0). rewrite <- Zle_Qle. lia.
Qed.

Lemma fold_sum_bounds (l : list Q) :
  Forall in_unit l →
  ∀ a, (a <= fold_left Qplus l a)%Q ∧ (fold_left Qplus l a <= a + PyNum.len l)%Q.
Proof.
  induction 1 as [|x l [Hx0 Hx1] _ IH]; intros a; simpl.
  - change (PyNum.len (@nil Q)) with 0%Q. split; lra.
  - destruct (IH (a + x)%Q) as [Hlo Hhi]. rewrite len_cons. split; lra.
Qed.

Lemma len_le_max {A} (l : list A) : (PyNum.len l <= PyNum.max 1 (PyNum.len l))%Q.
Proof.
  unfold PyNum.max. destruct (PyNum.Qltb 1 (PyNum.len l)) eqn:E.
  - apply Qle_refl.
  - by apply Qltb_ge in E.
Qed.

Lemma Forall_snoc_in_unit (l : list Q) x :
  Forall in_unit l → in_unit x → Forall in_unit (l ++ [x]).
Proof. intros Hl Hx. apply Forall_app. split; [done|]. by constructor. Qed.

(** The average of numbers between 0 and 1 is between 0 and 1. *)
Lemma average_in_unit (l : list Q) a :
  Forall in_unit l → average l = Ok a → in_unit a.
Proof.
  intros Hl Ha. rewrite average_Ok in Ha. injection Ha as <-.
  destruct (fold_sum_bounds l Hl 0%Q) as [Hlo Hhi]. fold (PyNum.sum l) in Hlo, Hhi.
  pose proof (max_1_ge (PyNum.len l)) as Hd.
  pose proof (len_le_max l) as Hm.
  split.
  - apply Qle_shift_div_l; lra.
  - apply Qle_shift_div_r; lra.
Qed.

Section AccuracyRange.
Context `{Collaborators}.

(** The context branch leaves the lists as they are or appends the
    LLM's answer and the feedback. *)
Lemma ask_with_context_lists i batch z_dict qa_dataset mapping repr uid fb lists w lists' w' :
  ask_with_context i batch z_dict qa_dataset mapping repr uid fb lists w = Ok (lists', w') →
  lists' = lists
  ∨ ∃ letter output,
      lists' = accumulate lists
                 (cop_confidence (llm_get_confidence letter output))
                 (accuracy (llm_get_confidence letter output))
                 (cop_confidence_without_context fb)
                 (is_correct_without_context fb).
Proof.
  intros Ha.
  destruct (mapping !! uid) as [tuples|] eqn:Hm; cycle 1.
  { unfold ask_with_context, dict_getitem in Ha. rewrite Hm in Ha. discriminate. }
  destruct (qa_dataset !! uid) as [dataset_row|] eqn:Hq; cycle 1.
  { unfold ask_with_context, dict_getitem, list_getitem in Ha.
    rewrite Hm, Hq in Ha. discriminate. }
  destruct (correct_answer_map (cop dataset_row)) as [letter|e] eqn:Hl; cycle 1.
  { unfold ask_with_context, dict_getitem, list_getitem in Ha.
    rewrite Hm, Hq in Ha. unfold bind, lift, emit in Ha. simpl in Ha.
    rewrite Hl in Ha. discriminate. }
  rewrite (ask_with_context_run _ _ _ _ _ _ _ _ _ _ _ _ _ Hm Hq Hl) in Ha.
  destruct (Qeq_bool _ _); injection Ha as <- <-.
  - by left.
  - right. by eexists _, _.
Qed.

Lemma for_each_inv {A St} (P : St → Prop) (body : St → A → M St) :
  (∀ s x w s' w', P s → body s x w = Ok (s', w') → P s') →
  ∀ xs s w s' w', P s → for_each body xs s w = Ok (s', w') → P s'.
Proof.
  intros Hbody xs. induction xs as [|x xs IH]; intros s w s' w' Hs Hrun; simpl in Hrun.
  - by injection Hrun as <- _.
  - apply bind_Ok in Hrun as (s1 & w1 & Hx & Hrun). eauto.
Qed.

Lemma for_each_indexed_inv {B St} (P : St → Prop) (body : nat → B → St → M St) :
  (∀ i b s w s' w', P s → body i b s w = Ok (s', w') → P s') →
  ∀ xs i s w s' w', P s → for_each_indexed body i xs s w = Ok (s', w') → P s'.
Proof.
  intros Hbody xs. induction xs as [|x xs IH]; intros i s w s' w' Hs Hrun;
    simpl in Hrun.
  - by injection Hrun as <- _.
  - apply bind_Ok in Hrun as (s1 & w1 & Hx & Hrun). eauto.
Qed.

Section Bounded.
Variable fbs : gmap nat LLMFeedback.
Hypothesis llm_accuracy_in_unit :
  ∀ letter output, in_unit (accuracy (llm_get_confidence letter output)).
Hypothesis feedback_in_unit :
  ∀ uid fb, fbs !! uid = Some fb → in_unit (is_correct_without_context fb).

Lemma evaluate_question_in_unit i batch z_dict qa_dataset mapping lists qi w lists' w' :
  Forall in_unit (vanilla_accuracy_list lists)
  ∧ Forall in_unit (llm_aided_accuracy_list lists) →
  evaluate_question i batch z_dict qa_dataset fbs mapping lists qi w = Ok (lists', w') →
  Forall in_unit (vanilla_accuracy_list lists')
  ∧ Forall in_unit (llm_aided_accuracy_list lists').
Proof.
  intros [Hv Ha] Hq. unfold evaluate_question in Hq.
  apply bind_Ok in Hq as (repr & w1 & Hr & Hq). apply lift_Ok in Hr as [_ ->].
  apply bind_Ok in Hq as (uid & w1 & Hu & Hq). apply lift_Ok in Hu as [_ ->].
  destruct (fbs !! uid) as [fb|] eqn:Hfb; [|by injection Hq as <- _].
  pose proof (feedback_in_unit _ _ Hfb) as Hfbu.
  destruct (PyNum.Qltb _ _).
  - apply ask_with_context_lists in Hq as [->|(letter & output & ->)]; [done|].
    simpl. split; apply Forall_snoc_in_unit; done.
  - injection Hq as <- _. simpl.
    split; apply Forall_snoc_in_unit; done.
Qed.

Lemma record_batch_averages_in_unit acc link lists w acc' w' :
  Forall in_unit (vanilla_accuracy_list lists)
  ∧ Forall in_unit (llm_aided_accuracy_list lists) →
  Forall in_unit (average_llm_vanilla_accuracy_list acc)
  ∧ Forall in_unit (average_llm_aided_accuracy_list acc) →
  record_batch_averages acc link lists w = Ok (acc', w') →
  Forall in_unit (average_llm_vanilla_accuracy_list acc')
  ∧ Forall in_unit (average_llm_aided_accuracy_list acc').
Proof.
  intros [Hv Ha] [Hav Haa] Hrec. unfold record_batch_averages in Hrec.
  apply bind_Ok in Hrec as (vc & w1 & Hvc & Hrec). apply lift_Ok in Hvc as [_ ->].
  apply bind_Ok in Hrec as (va & w1 & Hva & Hrec). apply lift_Ok in Hva as [Hva ->].
  apply bind_Ok in Hrec as (cc & w1 & Hcc & Hrec). apply lift_Ok in Hcc as [_ ->].
  apply bind_Ok in Hrec as (ca & w1 & Hca & Hrec). apply lift_Ok in Hca as [Hca ->].
  apply average_in_unit in Hva; [|done]. apply average_in_unit in Hca; [|done].
  destruct (PyNum.Qltb 0 cc); injection Hrec as <- _; simpl; [|done].
  split; apply Forall_snoc_in_unit; done.
Qed.

Lemma evaluate_batch_in_unit qa_dataset mapping i batch acc w acc' w' :
  Forall in_unit (average_llm_vanilla_accuracy_list acc)
  ∧ Forall in_unit (average_llm_aided_accuracy_list acc) →
  evaluate_batch qa_dataset fbs mapping i batch acc w = Ok (acc', w') →
  Forall in_unit (average_llm_vanilla_accuracy_list acc')
  ∧ Forall in_unit (average_llm_aided_accuracy_list acc').
Proof.
  intros Hacc Hb. unfold evaluate_batch in Hb.
  apply bind_Ok in Hb as ([[pos_pred neg_pred] z_dict] & w0 & _ & Hb).
  apply bind_Ok in Hb as (s & w1 & _ & Hb).
  apply bind_Ok in Hb as (lists & w2 & Hq & Hb).
  eapply record_batch_averages_in_unit; [|exact Hacc|exact Hb].
  refine (for_each_inv
            (λ l, Forall in_unit (vanilla_accuracy_list l)
                  ∧ Forall in_unit (llm_aided_accuracy_list l))
            _ _ _ _ _ _ _ _ Hq).
  - intros. by eapply evaluate_question_in_unit.
  - split; constructor.
Qed.

Lemma evaluate_in_unit split_loaders split_name qa_dataset mapping frac w pred true' res w' :
  evaluate split_loaders split_name qa_dataset fbs mapping frac w
  = Ok ((pred, true', res), w') →
  in_unit (vanilla_accuracy res) ∧ in_unit (context_accuracy res).
Proof.
  intros He. unfold evaluate in He.
  apply bind_Ok in He as ([] & w1 & _ & He).
  apply bind_Ok in He as (loader & w2 & _ & He).
  apply bind_Ok in He as ([] & w3 & _ & He).
  apply bind_Ok in He as (acc & w4 & Hloop & He).
  apply bind_Ok in He as ([] & w5 & _ & He).
  apply bind_Ok in He as ([pred0 true0] & w6 & _ & He).
  apply bind_Ok in He as (res0 & w7 & Hres & He).
  injection He as _ _ <- _.
  rewrite enumerate_until_take in Hloop.
  assert (Forall in_unit (average_llm_vanilla_accuracy_list acc)
          ∧ Forall in_unit (average_llm_aided_accuracy_list acc)) as [Hv Ha].
  { refine (for_each_indexed_inv
              (λ a, Forall in_unit (average_llm_vanilla_accuracy_list a)
                    ∧ Forall in_unit (average_llm_aided_accuracy_list a))
              _ _ _ _ _ _ _ _ _ Hloop).
    - intros. by eapply evaluate_batch_in_unit.
    - split; constructor. }
  unfold llm_results_of in Hres.
  apply bind_Ok in Hres as (va & w8 & Hva & Hres). apply lift_Ok in Hva as [Hva ->].
  apply bind_Ok in Hres as (ca & w8 & Hca & Hres). apply lift_Ok in Hca as [Hca ->].
  injection Hres as <- _. simpl.
  split; [exact (average_in_unit _ _ Hv Hva)|exact (average_in_unit _ _ Ha Hca)].
Qed.

End Bounded.

End AccuracyRange.

(** X16: when the correctness values of the precomputed feedback and
    the accuracies the LLM reports are between 0 and 1, the vanilla and
    the context accuracy a completed [evaluate] returns are between 0
    and 1. *)
Theorem X16_llm_results_in_unit `{Collaborators}
    (split_loaders : gmap string (list Batch)) (split_name : string)
    (qa_dataset : list DatasetRow) (fbs : gmap nat LLMFeedback)
    (mapping : gmap nat (list (string * nat))) (frac : Q)
    (w : world) (pred true' : tensor) (res : LLMResults) (w' : world) :
  (∀ letter output, in_unit (accuracy (llm_get_confidence letter output))) →
  (∀ uid fb, fbs !! uid = Some fb → in_unit (is_correct_without_context fb)) →
  evaluate split_loaders split_name qa_dataset fbs mapping frac w
  = Ok ((pred, true', res), w') →
  in_unit (vanilla_accuracy res) ∧ in_unit (context_accuracy res).
Proof. intros Hllm Hfb. by apply evaluate_in_unit. Qed.

Lemma X16_llm_results_in_unit_witness :
  ∃ pred true' res w',
    @evaluate Toy.collaborators Toy.loaders "test" Toy.rows Toy.feedbacks
      Toy.subgraphs 1 Toy.world0 = Ok ((pred, true', res), w')
    ∧ in_unit (vanilla_accuracy res) ∧ in_unit (context_accuracy res).
Proof.
  destruct (@evaluate Toy.collaborators Toy.loaders "test" Toy.rows Toy.feedbacks
              Toy.subgraphs 1 Toy.world0)
    as [[[[pred true'] res] w']|e] eqn:He; [|vm_compute in He; discriminate].
  exists pred, true', res, w'. split; [reflexivity|].
  refine (@X16_llm_results_in_unit Toy.collaborators _ _ _ _ _ _ _ _ _ _ _ _ _ He).
  - intros letter output. change (in_unit (accuracy
      (if String.eqb letter "D"
       then {| confidence := (-1)%Q; cop_confidence := 0%Q; accuracy := 0%Q |}
       else {| confidence := 9 # 10; cop_confidence := 8 # 10; accuracy := 1%Q |}))).
    destruct (String.eqb letter "D"); split; simpl; lra.
  - intros uid fb Hfb. unfold Toy.feedbacks in Hfb.
    apply lookup_insert_Some in Hfb as [[_ <-]|[_ Hfb]]; [split; simpl; lra|].
    apply lookup_insert_Some in Hfb as [[_ <-]|[_ Hfb]]; [split; simpl; lra|].
    apply lookup_insert_Some in Hfb as [[_ <-]|[_ Hfb]]; [split; simpl; lra|].
    rewrite lookup_empty in Hfb. discriminate.
Defined.

(** ** The calls of the LLM *)

Section LlmCalls.
Context `{Collaborators}.






End LlmCalls.



(** ** The shape of what [evaluate] returns *)





Section Shapes.
Context `{Collaborators}.






End Shapes.


